(** * cocotb regression manager: a shallow embedding of
      [src/cocotb/regression.py] and the properties of its specification.

    The Python classes [Test], [RegressionManager] and [TestFactory] are
    embedded as records and functions.  Methods of [RegressionManager]
    mutate the object and talk to collaborators (logger, xunit reporter,
    scheduler, simulator, random); they are functions in a state and
    exception monad over the manager and the collaborators it touches. *)

From Stdlib Require Import List String Ascii ZArith QArith Bool Arith Lia.
From Stdlib Require Import Permutation Sorted.
Import ListNotations.
Local Open Scope string_scope.
Local Open Scope list_scope.

Set Implicit Arguments.

(** ** Python exceptions and outcomes *)

(** An exception instance, as far as [isinstance] sees it: the names of the
    classes on the method resolution order of its type, the type first; and
    its message. *)
Record PyExc := {
  exc_mro : list string;
  exc_msg : string
}.

(** [isinstance(e, cls)] for one class. *)
Definition isinstance1 (e : PyExc) (cls : string) : bool :=
  existsb (String.eqb cls) (exc_mro e).

(** [isinstance(e, classes)] for a tuple of classes; a single class is the
    tuple of length one, the empty tuple matches nothing. *)
Definition isinstance (e : PyExc) (classes : list string) : bool :=
  existsb (isinstance1 e) classes.

(** Truth value of a tuple: [not ()] is [True]. *)
Definition truthy {A} (l : list A) : bool :=
  match l with [] => false | _ :: _ => true end.

(** [cocotb._outcomes.Outcome]: [Value] or [Error]. *)
Inductive Outcome (A : Type) :=
| Value (v : A)
| Error (e : PyExc).
Arguments Value {A} v.
Arguments Error {A} e.

(** ** hashlib.sha1

    [_init_test] seeds the random generator from the SHA-1 digest of the
    test's full name.  SHA-1 (FIPS 180-4) on byte strings, words as [Z] with
    the wrap-around at 2^32 written out. *)
Module Sha1.

Local Open Scope Z_scope.

Definition w32 (x : Z) : Z := x mod 2 ^ 32.
Definition add32 (x y : Z) : Z := w32 (x + y).
Definition rotl (n x : Z) : Z :=
  w32 (Z.lor (Z.shiftl x n) (Z.shiftr x (32 - n))).
Definition not32 (x : Z) : Z := Z.lxor x 0xFFFFFFFF.

(** Big-endian bytes of [x], [n] of them. *)
Fixpoint be_bytes (n : nat) (x : Z) : list Z :=
  match n with
  | O => []
  | S n' => be_bytes n' (x / 256) ++ [x mod 256]
  end.

(** The value of a big-endian sequence of digits in base [base]. *)
Definition be_value (base : Z) (ds : list Z) : Z :=
  fold_left (fun acc d => acc * base + d) ds 0.

(** Padding: a one bit, zeros up to 56 modulo 64, the bit length on 8 bytes. *)
Definition pad (msg : list Z) : list Z :=
  let len := Z.of_nat (List.length msg) in
  let zeros := Z.to_nat ((55 - len) mod 64) in
  msg ++ [0x80] ++ repeat 0 zeros ++ be_bytes 8 (8 * len).

Fixpoint chunks (fuel : nat) (n : nat) (l : list Z) : list (list Z) :=
  match fuel, l with
  | O, _ => []
  | _, [] => []
  | S fuel', _ => firstn n l :: chunks fuel' n (skipn n l)
  end.

Definition words_of_block (block : list Z) : list Z :=
  map (be_value 256) (chunks 16 4 block).

(** The message schedule: 80 words, each new one from the 16 before it. *)
Fixpoint schedule (n : nat) (window : list Z) : list Z :=
  match n with
  | O => []
  | S n' =>
      match window with
      | [] => []
      | w0 :: rest =>
          let w := rotl 1 (Z.lxor (Z.lxor (nth 12 rest 0) (nth 7 rest 0))
                                  (Z.lxor (nth 1 rest 0) w0)) in
          w0 :: schedule n' (rest ++ [w])
      end
  end.

Definition f_k (t : nat) (b c d : Z) : Z * Z :=
  if (t <? 20)%nat then
    (Z.lor (Z.land b c) (Z.land (not32 b) d), 0x5A827999)
  else if (t <? 40)%nat then
    (Z.lxor (Z.lxor b c) d, 0x6ED9EBA1)
  else if (t <? 60)%nat then
    (Z.lor (Z.lor (Z.land b c) (Z.land b d)) (Z.land c d), 0x8F1BBCDC)
  else
    (Z.lxor (Z.lxor b c) d, 0xCA62C1D6).

Definition state : Type := Z * Z * Z * Z * Z.

Fixpoint rounds (t : nat) (ws : list Z) (s : state) : state :=
  match ws with
  | [] => s
  | w :: ws' =>
      let '(a, b, c, d, e) := s in
      let '(f, k) := f_k t b c d in
      let temp := add32 (add32 (add32 (add32 (rotl 5 a) f) e) k) w in
      rounds (S t) ws' (temp, a, rotl 30 b, c, d)
  end.

Definition compress (h : state) (block : list Z) : state :=
  let '(h0, h1, h2, h3, h4) := h in
  let '(a, b, c, d, e) := rounds 0 (schedule 80 (words_of_block block)) h in
  (add32 h0 a, add32 h1 b, add32 h2 c, add32 h3 d, add32 h4 e).

Definition init : state :=
  (0x67452301, 0xEFCDAB89, 0x98BADCFE, 0x10325476, 0xC3D2E1F0).

(** The 20 bytes of the digest. *)
Definition digest (msg : list Z) : list Z :=
  let padded := pad msg in
  let '(h0, h1, h2, h3, h4) :=
    fold_left compress (chunks (List.length padded) 64 padded) init in
  be_bytes 4 h0 ++ be_bytes 4 h1 ++ be_bytes 4 h2 ++ be_bytes 4 h3
    ++ be_bytes 4 h4.

Definition hex_digit (d : Z) : ascii :=
  if d <? 10 then ascii_of_N (Z.to_N (48 + d)) else ascii_of_N (Z.to_N (87 + d)).

(** [hasher.hexdigest()]: two lower-case hexadecimal digits per byte. *)
Definition hexdigest (msg : list Z) : string :=
  string_of_list_ascii
    (flat_map (fun b => [hex_digit (b / 16); hex_digit (b mod 16)]) (digest msg)).

End Sha1.

(** [str.encode()]: a string is kept as the bytes of its UTF-8 encoding. *)
Definition encode (s : string) : list Z :=
  map (fun a => Z.of_N (N_of_ascii a)) (list_ascii_of_string s).

(** The value of one hexadecimal digit, as [int(_, 16)] reads it. *)
Definition hex_value (a : ascii) : Z :=
  let n := Z.of_N (N_of_ascii a) in
  (if (48 <=? n) && (n <=? 57) then n - 48
   else if (97 <=? n) && (n <=? 102) then n - 87
   else if (65 <=? n) && (n <=? 70) then n - 55
   else 0)%Z.

(** [int(s, 16)] on a string of hexadecimal digits. *)
Definition int16 (s : string) : Z :=
  Sha1.be_value 16 (map hex_value (list_ascii_of_string s)).

(** ** Python values *)

(** The values options of a [TestFactory] can take. *)
#[warnings="-register-all"]
Inductive PyVal :=
| VNone
| VBool (b : bool)
| VInt (z : Z)
| VStr (s : string)
| VTuple (items : list PyVal)
| VFunc (qualname : string) (doc : option string).

(** ** What the module takes from its environment *)

(** What a coroutine object does once the task runtime runs it to
    completion: the outcome the task ends with and the wall-clock and
    simulated time it takes. *)
Record Coroutine := {
  co_outcome : Outcome unit;
  co_wall : Q;
  co_sim : Q
}.

(** Constants and library functions that [regression.py] imports and that
    are not part of the source: the global seed, the exception type a failing
    [pytest.raises] context raises when pytest is installed, the bases of the
    two classes of [cocotb.result], [re.search], [inspect.cleandoc] and
    [cocotb.triggers.with_timeout] (with the kill of the inner task). *)
Record Env := {
  RANDOM_SEED : Z;
  pytest_Failed : option string;
  TestSuccess_bases : list string;
  SimFailure_bases : list string;
  re_search : string -> string -> bool;
  cleandoc : string -> string;
  with_timeout : Coroutine -> Q -> string -> Coroutine;
  repr : PyVal -> string;
  regression_file : string
}.

(** A Python function object: the attributes the module reads, what
    [inspect] reports about it, the default values of its parameters, here
    dictionaries of keyword arguments, and what calling it with the design
    under test gives: a coroutine, or an exception raised by the call
    itself. *)
Record PyFunc := {
  __qualname__ : string;
  __module__ : string;
  __doc__ : option string;
  __defaults__ : list (list (string * PyVal));
  getfile : string;
  getsourcelines : option nat;   (* [None]: [OSError] *)
  call : Outcome Coroutine
}.

(** ** class Test *)

Record Test := {
  _id : nat;
  func : PyFunc;
  timeout_time : option Q;
  timeout_unit : string;
  expect_fail : bool;
  expect_error : list string;
  skip : bool;
  stage : Z;
  name : string;
  module : string;
  doc : option string;
  fullname : string
}.

(** ** Results, the xunit report, log records *)

(** The value of [_safe_divide]: a quotient, [float("nan")] or
    [float("inf")].  Times are rationals. *)
Inductive Ratio :=
| RNum (q : Q)
| RNaN
| RInf.

(** One dictionary of [_test_results].  The record of a skipped test has no
    ["ratio"] key. *)
Record TestResult := {
  r_test : string;
  r_pass : option bool;
  r_sim : Q;
  r_real : Q;
  r_ratio : option Ratio
}.

(** Modelled from the spec: [cocotb._xunit_reporter.XUnitReporter] is not in
    the source.  The structured report has one case element per
    [add_testcase], in order; [add_skipped] and [add_failure] attach a
    skipped marker or a failure message to the case added last; [write]
    writes the file. *)
Record TestCase := {
  tc_name : string;
  tc_classname : string;
  tc_file : string;
  tc_lineno : nat;
  tc_time : Q;
  tc_sim_time_ns : Q;
  tc_ratio_time : Ratio;
  tc_skipped : bool;
  tc_failure : list Z   (* the seed named by each failure message *)
}.

Record XUnitReporter := {
  testcases : list TestCase;
  writes : nat
}.

Definition on_last {A} (f : A -> A) (l : list A) : list A :=
  match rev l with
  | [] => []
  | x :: before => rev before ++ [f x]
  end.

Definition add_testcase (tc : TestCase) (x : XUnitReporter) : XUnitReporter :=
  {| testcases := testcases x ++ [tc]; writes := writes x |}.

Definition add_skipped (x : XUnitReporter) : XUnitReporter :=
  {| testcases :=
       on_last (fun tc =>
         {| tc_name := tc_name tc; tc_classname := tc_classname tc;
            tc_file := tc_file tc; tc_lineno := tc_lineno tc;
            tc_time := tc_time tc; tc_sim_time_ns := tc_sim_time_ns tc;
            tc_ratio_time := tc_ratio_time tc; tc_skipped := true;
            tc_failure := tc_failure tc |}) (testcases x);
     writes := writes x |}.

Definition add_failure (seed : Z) (x : XUnitReporter) : XUnitReporter :=
  {| testcases :=
       on_last (fun tc =>
         {| tc_name := tc_name tc; tc_classname := tc_classname tc;
            tc_file := tc_file tc; tc_lineno := tc_lineno tc;
            tc_time := tc_time tc; tc_sim_time_ns := tc_sim_time_ns tc;
            tc_ratio_time := tc_ratio_time tc; tc_skipped := tc_skipped tc;
            tc_failure := tc_failure tc ++ [seed] |}) (testcases x);
     writes := writes x |}.

Definition xunit_write (x : XUnitReporter) : XUnitReporter :=
  {| testcases := testcases x; writes := S (writes x) |}.

(** What the module sends to its logger, one constructor per call site; the
    rendered summary table is kept as the values it is rendered from. *)
Inductive LogRecord :=
| log_registered (fullname : string)
| log_filtered_out (fullname : string)
| log_no_tests_left (filters : list string)
| log_init_failed (name : string) (e : PyExc)
| log_passed (name : string) (result : option PyExc) (msg : option string)
| log_failed (name : string) (result : option PyExc) (msg : option string)
| log_sim_shutdown
| log_skipping (name : string) (count ntests : nat) (doc : string)
| log_running (name : string) (count ntests : nat) (doc : string)
| log_summary (ntests passed failures skipped : nat)
    (rows : list TestResult) (sim_time_ns real_time : Q) (ratio_time : Ratio)
| log_overwriting (name : option string) (module : string).

(** [cocotb.task._RunningTest]: the coroutine, the name it is tagged with,
    and the outcome the scheduler stores in it when it completes. *)
Record Task := {
  task_coro : Coroutine;
  task_name : string;
  _outcome : option (Outcome unit)
}.

(** ** Dictionaries and modules *)

(** A [dict] keeps insertion order; assigning to a key it has replaces the
    value in place. *)
Section Dict.
Variables K V : Type.
Variable eqb : K -> K -> bool.

Fixpoint dict_get (k : K) (d : list (K * V)) : option V :=
  match d with
  | [] => None
  | (k', v) :: d' => if eqb k k' then Some v else dict_get k d'
  end.

Fixpoint dict_set (k : K) (v : V) (d : list (K * V)) : list (K * V) :=
  match d with
  | [] => [(k, v)]
  | (k', v') :: d' =>
      if eqb k k' then (k, v) :: d' else (k', v') :: dict_set k v d'
  end.

Definition dict_in (k : K) (d : list (K * V)) : bool :=
  match dict_get k d with Some _ => true | None => false end.

Definition dict_update (d updates : list (K * V)) : list (K * V) :=
  fold_left (fun acc kv => dict_set (fst kv) (snd kv) acc) updates d.
End Dict.

(** An object bound to a name in a module: the list of tests, a test, or
    anything else. *)
Inductive PyObject :=
| ObjTests (tests : list Test)
| ObjTest (test : Test)
| ObjStr (s : string)
| ObjOther.

(** A module, as its dictionary of globals. *)
Definition PyModule := list (string * PyObject).

(** ** The manager and the collaborators it acts on *)

(** The attributes of a [RegressionManager] object.  [__init__] only
    annotates [_test], [_test_task], the two start times of the test and
    [_regression_start_time]: they exist once assigned.  [None] is an
    attribute not assigned yet for [_regression_start_time], which
    [start_regression] assigns, and for [_test] and [_test_task]; the start
    times of the test are assigned by [_start_test] whenever [_test_task]
    holds a task, and [_handle_result] reads them for that task only. *)
Record RegressionManager := {
  _test : option Test;
  _test_task : option Task;
  _test_start_time : Q;
  _test_start_sim_time : Q;
  _regression_start_time : option Q;
  _test_results : list TestResult;
  ntests : nat;
  count : nat;
  passed : nat;
  skipped : nat;
  failures : nat;
  _tearing_down : bool;
  _test_queue : list Test;
  _filtered_tests : list Test;
  xunit : XUnitReporter
}.

(** The state outside the manager that its methods read or change: the two
    clocks ([time.time()] and [get_sim_time("ns")]), the seed last given to
    [random.seed], the class counter [Test._id_count], the imported modules,
    the records sent to the logger, the tests whose function was called, the
    tasks handed to [cocotb.scheduler._add_test], and how often the simulator
    and the coverage collection were told to stop. *)
Record World := {
  time_time : Q;
  get_sim_time : Q;
  random_seed : option Z;
  Test_id_count : nat;
  sys_modules : list (string * PyModule);
  log : list LogRecord;
  called : list Test;
  scheduler_tests : list Task;
  stop_simulator : nat;
  stop_coverage : nat
}.

Record State := {
  mgr : RegressionManager;
  world : World
}.

Definition set__test (v : option Test) (m : RegressionManager)
    : RegressionManager :=
  {| _test := v; _test_task := _test_task m;
     _test_start_time := _test_start_time m;
     _test_start_sim_time := _test_start_sim_time m;
     _regression_start_time := _regression_start_time m;
     _test_results := _test_results m; ntests := ntests m; count := count m;
     passed := passed m; skipped := skipped m; failures := failures m;
     _tearing_down := _tearing_down m; _test_queue := _test_queue m;
     _filtered_tests := _filtered_tests m; xunit := xunit m |}.

Definition set__test_task (v : option Task) (m : RegressionManager)
    : RegressionManager :=
  {| _test := _test m; _test_task := v;
     _test_start_time := _test_start_time m;
     _test_start_sim_time := _test_start_sim_time m;
     _regression_start_time := _regression_start_time m;
     _test_results := _test_results m; ntests := ntests m; count := count m;
     passed := passed m; skipped := skipped m; failures := failures m;
     _tearing_down := _tearing_down m; _test_queue := _test_queue m;
     _filtered_tests := _filtered_tests m; xunit := xunit m |}.

Definition set__test_start_time (v : Q) (m : RegressionManager)
    : RegressionManager :=
  {| _test := _test m; _test_task := _test_task m; _test_start_time := v;
     _test_start_sim_time := _test_start_sim_time m;
     _regression_start_time := _regression_start_time m;
     _test_results := _test_results m; ntests := ntests m; count := count m;
     passed := passed m; skipped := skipped m; failures := failures m;
     _tearing_down := _tearing_down m; _test_queue := _test_queue m;
     _filtered_tests := _filtered_tests m; xunit := xunit m |}.

Definition set__test_start_sim_time (v : Q) (m : RegressionManager)
    : RegressionManager :=
  {| _test := _test m; _test_task := _test_task m;
     _test_start_time := _test_start_time m; _test_start_sim_time := v;
     _regression_start_time := _regression_start_time m;
     _test_results := _test_results m; ntests := ntests m; count := count m;
     passed := passed m; skipped := skipped m; failures := failures m;
     _tearing_down := _tearing_down m; _test_queue := _test_queue m;
     _filtered_tests := _filtered_tests m; xunit := xunit m |}.

Definition set__regression_start_time (v : option Q) (m : RegressionManager)
    : RegressionManager :=
  {| _test := _test m; _test_task := _test_task m;
     _test_start_time := _test_start_time m;
     _test_start_sim_time := _test_start_sim_time m;
     _regression_start_time := v; _test_results := _test_results m;
     ntests := ntests m; count := count m; passed := passed m;
     skipped := skipped m; failures := failures m;
     _tearing_down := _tearing_down m; _test_queue := _test_queue m;
     _filtered_tests := _filtered_tests m; xunit := xunit m |}.

Definition set__test_results (v : list TestResult) (m : RegressionManager)
    : RegressionManager :=
  {| _test := _test m; _test_task := _test_task m;
     _test_start_time := _test_start_time m;
     _test_start_sim_time := _test_start_sim_time m;
     _regression_start_time := _regression_start_time m; _test_results := v;
     ntests := ntests m; count := count m; passed := passed m;
     skipped := skipped m; failures := failures m;
     _tearing_down := _tearing_down m; _test_queue := _test_queue m;
     _filtered_tests := _filtered_tests m; xunit := xunit m |}.

Definition set_ntests (v : nat) (m : RegressionManager)
    : RegressionManager :=
  {| _test := _test m; _test_task := _test_task m;
     _test_start_time := _test_start_time m;
     _test_start_sim_time := _test_start_sim_time m;
     _regression_start_time := _regression_start_time m;
     _test_results := _test_results m; ntests := v; count := count m;
     passed := passed m; skipped := skipped m; failures := failures m;
     _tearing_down := _tearing_down m; _test_queue := _test_queue m;
     _filtered_tests := _filtered_tests m; xunit := xunit m |}.

Definition set_count (v : nat) (m : RegressionManager)
    : RegressionManager :=
  {| _test := _test m; _test_task := _test_task m;
     _test_start_time := _test_start_time m;
     _test_start_sim_time := _test_start_sim_time m;
     _regression_start_time := _regression_start_time m;
     _test_results := _test_results m; ntests := ntests m; count := v;
     passed := passed m; skipped := skipped m; failures := failures m;
     _tearing_down := _tearing_down m; _test_queue := _test_queue m;
     _filtered_tests := _filtered_tests m; xunit := xunit m |}.

Definition set_passed (v : nat) (m : RegressionManager)
    : RegressionManager :=
  {| _test := _test m; _test_task := _test_task m;
     _test_start_time := _test_start_time m;
     _test_start_sim_time := _test_start_sim_time m;
     _regression_start_time := _regression_start_time m;
     _test_results := _test_results m; ntests := ntests m; count := count m;
     passed := v; skipped := skipped m; failures := failures m;
     _tearing_down := _tearing_down m; _test_queue := _test_queue m;
     _filtered_tests := _filtered_tests m; xunit := xunit m |}.

Definition set_skipped (v : nat) (m : RegressionManager)
    : RegressionManager :=
  {| _test := _test m; _test_task := _test_task m;
     _test_start_time := _test_start_time m;
     _test_start_sim_time := _test_start_sim_time m;
     _regression_start_time := _regression_start_time m;
     _test_results := _test_results m; ntests := ntests m; count := count m;
     passed := passed m; skipped := v; failures := failures m;
     _tearing_down := _tearing_down m; _test_queue := _test_queue m;
     _filtered_tests := _filtered_tests m; xunit := xunit m |}.

Definition set_failures (v : nat) (m : RegressionManager)
    : RegressionManager :=
  {| _test := _test m; _test_task := _test_task m;
     _test_start_time := _test_start_time m;
     _test_start_sim_time := _test_start_sim_time m;
     _regression_start_time := _regression_start_time m;
     _test_results := _test_results m; ntests := ntests m; count := count m;
     passed := passed m; skipped := skipped m; failures := v;
     _tearing_down := _tearing_down m; _test_queue := _test_queue m;
     _filtered_tests := _filtered_tests m; xunit := xunit m |}.

Definition set__tearing_down (v : bool) (m : RegressionManager)
    : RegressionManager :=
  {| _test := _test m; _test_task := _test_task m;
     _test_start_time := _test_start_time m;
     _test_start_sim_time := _test_start_sim_time m;
     _regression_start_time := _regression_start_time m;
     _test_results := _test_results m; ntests := ntests m; count := count m;
     passed := passed m; skipped := skipped m; failures := failures m;
     _tearing_down := v; _test_queue := _test_queue m;
     _filtered_tests := _filtered_tests m; xunit := xunit m |}.

Definition set__test_queue (v : list Test) (m : RegressionManager)
    : RegressionManager :=
  {| _test := _test m; _test_task := _test_task m;
     _test_start_time := _test_start_time m;
     _test_start_sim_time := _test_start_sim_time m;
     _regression_start_time := _regression_start_time m;
     _test_results := _test_results m; ntests := ntests m; count := count m;
     passed := passed m; skipped := skipped m; failures := failures m;
     _tearing_down := _tearing_down m; _test_queue := v;
     _filtered_tests := _filtered_tests m; xunit := xunit m |}.

Definition set__filtered_tests (v : list Test) (m : RegressionManager)
    : RegressionManager :=
  {| _test := _test m; _test_task := _test_task m;
     _test_start_time := _test_start_time m;
     _test_start_sim_time := _test_start_sim_time m;
     _regression_start_time := _regression_start_time m;
     _test_results := _test_results m; ntests := ntests m; count := count m;
     passed := passed m; skipped := skipped m; failures := failures m;
     _tearing_down := _tearing_down m; _test_queue := _test_queue m;
     _filtered_tests := v; xunit := xunit m |}.

Definition set_xunit (v : XUnitReporter) (m : RegressionManager)
    : RegressionManager :=
  {| _test := _test m; _test_task := _test_task m;
     _test_start_time := _test_start_time m;
     _test_start_sim_time := _test_start_sim_time m;
     _regression_start_time := _regression_start_time m;
     _test_results := _test_results m; ntests := ntests m; count := count m;
     passed := passed m; skipped := skipped m; failures := failures m;
     _tearing_down := _tearing_down m; _test_queue := _test_queue m;
     _filtered_tests := _filtered_tests m; xunit := v |}.

Definition set_time_time (v : Q) (w : World) : World :=
  {| time_time := v; get_sim_time := get_sim_time w;
     random_seed := random_seed w; Test_id_count := Test_id_count w;
     sys_modules := sys_modules w; log := log w; called := called w;
     scheduler_tests := scheduler_tests w;
     stop_simulator := stop_simulator w; stop_coverage := stop_coverage w |}.

Definition set_get_sim_time (v : Q) (w : World) : World :=
  {| time_time := time_time w; get_sim_time := v;
     random_seed := random_seed w; Test_id_count := Test_id_count w;
     sys_modules := sys_modules w; log := log w; called := called w;
     scheduler_tests := scheduler_tests w;
     stop_simulator := stop_simulator w; stop_coverage := stop_coverage w |}.

Definition set_random_seed (v : option Z) (w : World) : World :=
  {| time_time := time_time w; get_sim_time := get_sim_time w;
     random_seed := v; Test_id_count := Test_id_count w;
     sys_modules := sys_modules w; log := log w; called := called w;
     scheduler_tests := scheduler_tests w;
     stop_simulator := stop_simulator w; stop_coverage := stop_coverage w |}.

Definition set_Test_id_count (v : nat) (w : World) : World :=
  {| time_time := time_time w; get_sim_time := get_sim_time w;
     random_seed := random_seed w; Test_id_count := v;
     sys_modules := sys_modules w; log := log w; called := called w;
     scheduler_tests := scheduler_tests w;
     stop_simulator := stop_simulator w; stop_coverage := stop_coverage w |}.

Definition set_sys_modules (v : list (string * PyModule)) (w : World) : World :=
  {| time_time := time_time w; get_sim_time := get_sim_time w;
     random_seed := random_seed w; Test_id_count := Test_id_count w;
     sys_modules := v; log := log w; called := called w;
     scheduler_tests := scheduler_tests w;
     stop_simulator := stop_simulator w; stop_coverage := stop_coverage w |}.

Definition set_log (v : list LogRecord) (w : World) : World :=
  {| time_time := time_time w; get_sim_time := get_sim_time w;
     random_seed := random_seed w; Test_id_count := Test_id_count w;
     sys_modules := sys_modules w; log := v; called := called w;
     scheduler_tests := scheduler_tests w;
     stop_simulator := stop_simulator w; stop_coverage := stop_coverage w |}.

Definition set_called (v : list Test) (w : World) : World :=
  {| time_time := time_time w; get_sim_time := get_sim_time w;
     random_seed := random_seed w; Test_id_count := Test_id_count w;
     sys_modules := sys_modules w; log := log w; called := v;
     scheduler_tests := scheduler_tests w;
     stop_simulator := stop_simulator w; stop_coverage := stop_coverage w |}.

Definition set_scheduler_tests (v : list Task) (w : World) : World :=
  {| time_time := time_time w; get_sim_time := get_sim_time w;
     random_seed := random_seed w; Test_id_count := Test_id_count w;
     sys_modules := sys_modules w; log := log w; called := called w;
     scheduler_tests := v; stop_simulator := stop_simulator w;
     stop_coverage := stop_coverage w |}.

Definition set_stop_simulator (v : nat) (w : World) : World :=
  {| time_time := time_time w; get_sim_time := get_sim_time w;
     random_seed := random_seed w; Test_id_count := Test_id_count w;
     sys_modules := sys_modules w; log := log w; called := called w;
     scheduler_tests := scheduler_tests w; stop_simulator := v;
     stop_coverage := stop_coverage w |}.

Definition set_stop_coverage (v : nat) (w : World) : World :=
  {| time_time := time_time w; get_sim_time := get_sim_time w;
     random_seed := random_seed w; Test_id_count := Test_id_count w;
     sys_modules := sys_modules w; log := log w; called := called w;
     scheduler_tests := scheduler_tests w;
     stop_simulator := stop_simulator w; stop_coverage := v |}.

(** ** The monad of the methods

    A method takes the state to a result and a new state.  A result is the
    returned value, an exception that escapes the method, or [OutOfFuel] when
    a loop modelled with a bound on its iterations ran into the bound. *)
Inductive Res (A : Type) :=
| Ok (a : A)
| Raise (e : PyExc)
| OutOfFuel.
Arguments Ok {A} a.
Arguments Raise {A} e.
Arguments OutOfFuel {A}.

Definition M (A : Type) : Type := State -> Res A * State.

Definition ret {A} (a : A) : M A := fun s => (Ok a, s).

Definition bind {A B} (c : M A) (k : A -> M B) : M B :=
  fun s =>
    match c s with
    | (Ok a, s') => k a s'
    | (Raise e, s') => (Raise e, s')
    | (OutOfFuel, s') => (OutOfFuel, s')
    end.

Definition raise {A} (e : PyExc) : M A := fun s => (Raise e, s).
Definition out_of_fuel {A} : M A := fun s => (OutOfFuel, s).

Declare Scope monad_scope.
Delimit Scope monad_scope with monad.
Notation "x <- c ;; k" := (bind c (fun x => k))
  (at level 61, c at next level, right associativity) : monad_scope.
Notation "c ;; k" := (bind c (fun _ => k))
  (at level 61, right associativity) : monad_scope.
Local Open Scope monad_scope.

Definition gets {A} (f : RegressionManager -> A) : M A :=
  fun s => (Ok (f (mgr s)), s).
Definition gets_world {A} (f : World -> A) : M A :=
  fun s => (Ok (f (world s)), s).
Definition modify (f : RegressionManager -> RegressionManager) : M unit :=
  fun s => (Ok tt, {| mgr := f (mgr s); world := world s |}).
Definition modify_world (f : World -> World) : M unit :=
  fun s => (Ok tt, {| mgr := mgr s; world := f (world s) |}).

(** A call of the logger. *)
Definition logging (r : LogRecord) : M unit :=
  modify_world (fun w => set_log (log w ++ [r]) w).

(** [for x in l: body(x)]. *)
Fixpoint for_each {A} (l : list A) (body : A -> M unit) : M unit :=
  match l with
  | [] => ret tt
  | x :: l' => body x ;; for_each l' body
  end.

(** An exception of a builtin class deriving from [Exception]. *)
Definition exception (cls msg : string) : PyExc :=
  {| exc_mro := [cls; "Exception"; "BaseException"; "object"];
     exc_msg := msg |}.

(** [repr] of a string without quotes or backslashes in it. *)
Definition repr_str (s : string) : string := "'" ++ s ++ "'".

(** [", ".join(l)]. *)
Fixpoint join (sep : string) (l : list string) : string :=
  match l with
  | [] => ""
  | [x] => x
  | x :: l' => x ++ sep ++ join sep l'
  end.

Definition newline : ascii := ascii_of_nat 10.

(** [s.split("\n")[0]]. *)
Fixpoint first_line (s : string) : string :=
  match s with
  | EmptyString => EmptyString
  | String c s' =>
      if Ascii.eqb c newline then EmptyString else String c (first_line s')
  end.

(** [_format_doc]. *)
Definition _format_doc (docstring : option string) : string :=
  match docstring with
  | None => ""
  | Some d => String newline ("    " ++ first_line d)
  end.

(** [list.sort(key=...)]: a stable sort, here by insertion, on keys
    [(stage, _id)] compared as tuples. *)
Definition key_ltb (k1 k2 : Z * nat) : bool :=
  (fst k1 <? fst k2)%Z || ((fst k1 =? fst k2)%Z && (snd k1 <? snd k2)%nat).

Section Sort.
Variable A : Type.
Variable key : A -> Z * nat.

(** [x] goes before the first element whose key is greater. *)
Fixpoint insert_by_key (x : A) (l : list A) : list A :=
  match l with
  | [] => [x]
  | y :: l' =>
      if key_ltb (key x) (key y) then x :: y :: l'
      else y :: insert_by_key x l'
  end.

Definition sort_by_key (l : list A) : list A :=
  fold_left (fun sorted x => insert_by_key x sorted) l [].
End Sort.

Section WithEnv.

Variable E : Env.

(** The class names the module tests against. *)
Definition TestSuccess := "TestSuccess".
Definition SimFailure := "SimFailure".
Definition AssertionError := "AssertionError".
Definition KeyboardInterrupt := "KeyboardInterrupt".
Definition SystemExit := "SystemExit".
Definition RuntimeError := "RuntimeError".
Definition ValueError := "ValueError".

(** [TestSuccess()] and [SimFailure()]. *)
Definition TestSuccess_new : PyExc :=
  {| exc_mro := TestSuccess :: TestSuccess_bases E; exc_msg := "" |}.
Definition SimFailure_new : PyExc :=
  {| exc_mro := SimFailure :: SimFailure_bases E; exc_msg := "" |}.

(** Module level, lines 78-90: [_Failed] is [AssertionError] without pytest
    and the type raised by an empty [pytest.raises] block with it. *)
Definition _Failed : string :=
  match pytest_Failed E with
  | None => AssertionError
  | Some failed => failed
  end.

(** [Test.__init__] with the class counter [_id_count] threaded through.
    With a timeout the stored function is the wrapper: calling it never
    raises, the call of the wrapped function happens inside the new
    coroutine, under [with_timeout].  The wrapper is defined in
    [regression.py], which is the file [inspect.getfile] gives for it;
    [functools.wraps] gives it the names and the docstring of the wrapped
    function, and [inspect.getsourcelines] unwraps it. *)
Definition Test__init__ (_id_count : nat) (func0 : PyFunc)
    (name0 module0 doc0 : option string) (timeout_time0 : option Q)
    (timeout_unit0 : string) (expect_fail0 : bool)
    (expect_error0 : list string) (skip0 : bool) (stage0 : Z) : Test * nat :=
  let func1 :=
    match timeout_time0 with
    | None => func0
    | Some t =>
        {| __qualname__ := __qualname__ func0;
           __module__ := __module__ func0;
           __doc__ := __doc__ func0;
           __defaults__ := [];
           getfile := regression_file E;
           getsourcelines := getsourcelines func0;
           call :=
             Value (match call func0 with
                    | Value co => with_timeout E co t timeout_unit0
                    | Error e =>
                        {| co_outcome := Error e; co_wall := 0; co_sim := 0 |}
                    end) |}
    end in
  let name1 := match name0 with None => __qualname__ func1 | Some n => n end in
  let module1 := match module0 with None => __module__ func1 | Some m => m end in
  let doc1 := match doc0 with None => __doc__ func1 | Some d => Some d end in
  let doc2 := option_map (cleandoc E) doc1 in
  ({| _id := _id_count;
      func := func1;
      timeout_time := timeout_time0;
      timeout_unit := timeout_unit0;
      expect_fail := expect_fail0;
      expect_error := expect_error0;
      skip := skip0;
      stage := stage0;
      name := name1;
      module := module1;
      doc := doc2;
      fullname := module1 ++ "." ++ name1 |},
   S _id_count).

(** ** class RegressionManager *)

(** [RegressionManager.__init__]: nothing run, nothing queued, an empty
    report (its file name, suite and seed property are not modelled); the
    current test, its task and the start time of the regression are not
    assigned. *)
Definition RegressionManager__init__ : RegressionManager :=
  {| _test := None; _test_task := None;
     _test_start_time := 0; _test_start_sim_time := 0;
     _regression_start_time := None;
     _test_results := [];
     ntests := 0; count := 0; passed := 0; skipped := 0; failures := 0;
     _tearing_down := false;
     _test_queue := []; _filtered_tests := [];
     xunit := {| testcases := []; writes := 0 |} |}.

Definition register_test (test : Test) : M unit :=
  logging (log_registered (fullname test)) ;;
  modify (fun m => set__test_queue (_test_queue m ++ [test]) m).

(** [importlib.import_module]: the module of that name. *)
Definition import_module (module_name : string) : M PyModule :=
  mods <- gets_world sys_modules ;;
  match dict_get String.eqb module_name mods with
  | Some md => ret md
  | None =>
      raise {| exc_mro := ["ModuleNotFoundError"; "ImportError"; "Exception";
                           "BaseException"; "object"];
               exc_msg := "No module named " ++ repr_str module_name |}
  end.

(** [discover_tests]; the debug messages of the search are left out. *)
Definition discover_tests (modules : list string) : M unit :=
  for_each modules (fun module_name =>
    md <- import_module module_name ;;
    match dict_get String.eqb "__cocotb_tests__" md with
    | None =>
        raise (exception RuntimeError
                 ("No tests were discovered in module: "
                    ++ repr_str module_name))
    | Some (ObjTests tests) => for_each tests register_test
    | Some _ => raise (exception "TypeError" "object is not iterable")
    end) ;;
  (* error if no tests were discovered *)
  queue <- gets _test_queue ;;
  if negb (truthy queue) then
    raise (exception RuntimeError
             ("No tests were discovered in any module: "
                ++ join ", " (map repr_str modules)))
  else ret tt.

(** The loop of [filter_tests] over the queue, with its two lists. *)
Fixpoint filter_loop (filters : list string) (queue included excluded : list Test)
    : M (list Test * list Test) :=
  match queue with
  | [] => ret (included, excluded)
  | test :: queue' =>
      if existsb (fun filter => re_search E filter (fullname test)) filters
      then filter_loop filters queue' (included ++ [test]) excluded
      else
        logging (log_filtered_out (fullname test)) ;;
        filter_loop filters queue' included (excluded ++ [test])
  end.

Definition filter_tests (filters : list string) : M unit :=
  queue <- gets _test_queue ;;
  lists <- filter_loop filters queue [] [] ;;
  let '(included, excluded) := lists in
  (if negb (truthy included) then logging (log_no_tests_left filters)
   else ret tt) ;;
  modify (set__test_queue included) ;;
  modify (set__filtered_tests excluded).

Definition _next_test : M (option Test) :=
  queue <- gets _test_queue ;;
  match queue with
  | [] => ret None
  | test :: rest => modify (set__test_queue rest) ;; ret (Some test)
  end.

Definition _get_lineno (test : Test) : nat :=
  match getsourcelines (func test) with
  | Some lineno => lineno
  | None => 1
  end.

Definition _log_test_passed (test : Test) (result : option PyExc)
    (msg : option string) : M unit :=
  logging (log_passed (name test) result msg).

Definition _log_test_failed (test : Test) (result : option PyExc)
    (msg : option string) : M unit :=
  logging (log_failed (name test) result msg).

(** [_score_test].  [outcome.get()] gives the value or raises the stored
    exception; [KeyboardInterrupt] and [SystemExit] are raised again, any
    other exception is the result, and a value makes the result a fresh
    [TestSuccess].  The removal of traceback frames and the post-mortem
    debugger of the last branch leave the returned pair as it is. *)
Definition _score_test {A} (test : Test) (outcome : Outcome A)
    : M (bool * bool) :=
  result <- match outcome with
            | Error e =>
                if isinstance e [KeyboardInterrupt; SystemExit] then raise e
                else ret e
            | Value _ => ret TestSuccess_new
            end ;;
  if isinstance result [TestSuccess]
     && negb (expect_fail test) && negb (truthy (expect_error test))
  then
    _log_test_passed test None None ;;
    ret (true, false)
  else if isinstance result [TestSuccess] && truthy (expect_error test) then
    _log_test_failed test None (Some "passed but we expected an error") ;;
    ret (false, false)
  else if isinstance result [TestSuccess] then
    _log_test_failed test None (Some "passed but we expected a failure") ;;
    ret (false, false)
  else if isinstance result [SimFailure] then
    (* whether we expected it or not, the simulation has failed
       unrecoverably *)
    if isinstance result (expect_error test) then
      _log_test_passed test (Some result) (Some "errored as expected") ;;
      ret (true, true)
    else
      logging log_sim_shutdown ;;
      ret (false, true)
  else if isinstance result [AssertionError; _Failed] && expect_fail test then
    _log_test_passed test (Some result) (Some "failed as expected") ;;
    ret (true, false)
  else if truthy (expect_error test) then
    if isinstance result (expect_error test) then
      _log_test_passed test (Some result) (Some "errored as expected") ;;
      ret (true, false)
    else
      _log_test_failed test (Some result)
        (Some "errored with unexpected type ") ;;
      ret (false, false)
  else
    _log_test_failed test (Some result) None ;;
    ret (false, false).

Definition _record_test_excluded (test : Test) : M unit :=
  let lineno := _get_lineno test in
  modify (fun m => set_xunit (add_testcase
    {| tc_name := name test; tc_classname := module test;
       tc_file := getfile (func test); tc_lineno := lineno;
       tc_time := 0; tc_sim_time_ns := 0; tc_ratio_time := RNum 0;
       tc_skipped := false; tc_failure := [] |} (xunit m)) m) ;;
  modify (fun m => set_xunit (add_skipped (xunit m)) m).

Definition _record_test_skipped (test : Test) : M unit :=
  count_ <- gets count ;;
  ntests_ <- gets ntests ;;
  logging (log_skipping (name test) count_ ntests_ (_format_doc (doc test))) ;;
  let lineno := _get_lineno test in
  modify (fun m => set_xunit (add_testcase
    {| tc_name := name test; tc_classname := module test;
       tc_file := getfile (func test); tc_lineno := lineno;
       tc_time := 0; tc_sim_time_ns := 0; tc_ratio_time := RNum 0;
       tc_skipped := false; tc_failure := [] |} (xunit m)) m) ;;
  modify (fun m => set_xunit (add_skipped (xunit m)) m) ;;
  modify (fun m => set__test_results (_test_results m ++
    [{| r_test := fullname test; r_pass := None; r_sim := 0; r_real := 0;
        r_ratio := None |}]) m) ;;
  modify (fun m => set_skipped (skipped m + 1) m) ;;
  modify (fun m => set_count (count m + 1) m).

(** [_safe_divide]: the division raises [ZeroDivisionError] when the divisor
    is zero. *)
Definition _safe_divide (a b : Q) : Ratio :=
  if Qeq_bool b 0 then
    if Qeq_bool a 0 then RNaN else RInf
  else RNum (a / b).

(** [_log_test_summary] reads the start time of the regression before
    anything else: on a manager on which [start_regression] has not run the
    attribute does not exist.  The rendering of the table is kept as the
    values it is rendered from. *)
Definition _log_test_summary : M unit :=
  now <- gets_world time_time ;;
  start <- gets _regression_start_time ;;
  match start with
  | None =>
      raise (exception "AttributeError"
               "'RegressionManager' object has no attribute '_regression_start_time'")
  | Some start =>
      let real_time := now - start in
      sim_time_ns <- gets_world get_sim_time ;;
      let ratio_time := _safe_divide sim_time_ns real_time in
      results <- gets _test_results ;;
      if (List.length results =? 0)%nat then ret tt
      else
        m <- gets (fun m => m) ;;
        logging (log_summary (ntests m) (passed m) (failures m) (skipped m)
                   results sim_time_ns real_time ratio_time)
  end.

(** [_record_result] and [_tear_down] call each other, and [_tear_down]
    loops until the queue is empty: the three are defined together, each call
    and each iteration taking one unit of [fuel]. *)
Fixpoint _tear_down (fuel : nat) : M unit :=
  match fuel with
  | O => out_of_fuel
  | S fuel' =>
      (* prevent re-entering the tear down procedure *)
      tearing_down <- gets _tearing_down ;;
      if negb tearing_down then
        modify (set__tearing_down true) ;;
        (* fail remaining tests *)
        _tear_down_loop fuel' ;;
        (* Write out final log messages *)
        _log_test_summary ;;
        (* Generate output reports *)
        modify (fun m => set_xunit (xunit_write (xunit m)) m) ;;
        (* Setup simulator finalization *)
        modify_world (fun w => set_stop_simulator (stop_simulator w + 1) w) ;;
        modify_world (fun w => set_stop_coverage (stop_coverage w + 2) w)
      else ret tt
  end

with _tear_down_loop (fuel : nat) : M unit :=
  match fuel with
  | O => out_of_fuel
  | S fuel' =>
      test <- _next_test ;;
      match test with
      | None => ret tt
      | Some test =>
          _record_result fuel' test (Error SimFailure_new) 0 0 ;;
          _tear_down_loop fuel'
      end
  end

with _record_result (fuel : nat) (test : Test) (outcome : Outcome unit)
    (wall_time_s sim_time_ns : Q) : M unit :=
  match fuel with
  | O => out_of_fuel
  | S fuel' =>
      let ratio_time := _safe_divide sim_time_ns wall_time_s in
      let lineno := _get_lineno test in
      modify (fun m => set_xunit (add_testcase
        {| tc_name := name test; tc_classname := module test;
           tc_file := getfile (func test); tc_lineno := lineno;
           tc_time := wall_time_s; tc_sim_time_ns := sim_time_ns;
           tc_ratio_time := ratio_time;
           tc_skipped := false; tc_failure := [] |} (xunit m)) m) ;;
      score <- _score_test test outcome ;;
      let '(test_pass, sim_failed) := score in
      (if negb test_pass then
         modify (fun m => set_xunit (add_failure (RANDOM_SEED E) (xunit m)) m) ;;
         modify (fun m => set_failures (failures m + 1) m)
       else
         modify (fun m => set_passed (passed m + 1) m)) ;;
      modify (fun m => set_count (count m + 1) m) ;;
      modify (fun m => set__test_results (_test_results m ++
        [{| r_test := fullname test; r_pass := Some test_pass;
            r_sim := sim_time_ns; r_real := wall_time_s;
            r_ratio := Some ratio_time |}]) m) ;;
      if sim_failed then _tear_down fuel' else ret tt
  end.

(** The outcome of [capture(test.func, cocotb.top)] with the coroutine
    replaced by nothing, as [_record_result] takes it. *)
Definition forget {A} (o : Outcome A) : Outcome unit :=
  match o with
  | Value _ => Value tt
  | Error e => Error e
  end.

(** The seed [_init_test] gives to [random.seed]. *)
Definition test_seed (test : Test) : Z :=
  (RANDOM_SEED E + int16 (Sha1.hexdigest (encode (fullname test))))%Z.

Definition _init_test (fuel : nat) (test : Test) : M (option Task) :=
  if skip test then
    _record_test_skipped test ;;
    ret None
  else
    modify_world (fun w => set_called (called w ++ [test]) w) ;;
    let test_init_outcome := call (func test) in
    match test_init_outcome with
    | Error e =>
        logging (log_init_failed (name test) e) ;;
        _record_result fuel test (forget test_init_outcome) 0 0 ;;
        ret None
    | Value coro =>
        (* seed random number generator based on test module, name, and
           RANDOM_SEED *)
        let seed := test_seed test in
        modify_world (set_random_seed (Some seed)) ;;
        ret (Some {| task_coro := coro; task_name := name test;
                     _outcome := None |})
    end.

Definition _start_test : M unit :=
  test <- gets _test ;;
  task <- gets _test_task ;;
  match test, task with
  | Some test, Some task =>
      count_ <- gets count ;;
      ntests_ <- gets ntests ;;
      logging (log_running (name test) count_ ntests_ (_format_doc (doc test))) ;;
      now <- gets_world time_time ;;
      modify (set__test_start_time now) ;;
      sim_now <- gets_world get_sim_time ;;
      modify (set__test_start_sim_time sim_now) ;;
      modify_world (fun w => set_scheduler_tests (scheduler_tests w ++ [task]) w)
  | _, _ => raise (exception "AttributeError" "'NoneType' object")
  end.

(** The loop of [_execute], one unit of [fuel] for each test taken from the
    queue. *)
Fixpoint _execute (fuel : nat) : M unit :=
  match fuel with
  | O => out_of_fuel
  | S fuel' =>
      test <- _next_test ;;
      modify (set__test test) ;;
      match test with
      | None => _tear_down fuel'
      | Some test =>
          task <- _init_test fuel' test ;;
          modify (set__test_task task) ;;
          match task with
          | Some _ => _start_test
          | None => _execute fuel'
          end
      end
  end.

(** [_handle_result], entered by the scheduler with the task that
    completed.  The scheduler passes the task it was given, which is the
    object [_test_task] refers to; without a current task, or with a task
    that has no outcome yet, the method fails. *)
Definition _handle_result (fuel : nat) : M unit :=
  test <- gets _test ;;
  task <- gets _test_task ;;
  match test, task with
  | Some test, Some task =>
      match _outcome task with
      | Some outcome =>
          now <- gets_world time_time ;;
          start <- gets _test_start_time ;;
          let real_time := now - start in
          sim_now <- gets_world get_sim_time ;;
          sim_start <- gets _test_start_sim_time ;;
          let sim_time_ns := sim_now - sim_start in
          _record_result fuel test outcome real_time sim_time_ns ;;
          _execute fuel
      | None => raise (exception "AttributeError" "'NoneType' object")
      end
  | _, _ => raise (exception AssertionError "")
  end.

Definition test_key (test : Test) : Z * nat := (stage test, _id test).

Definition start_regression (fuel : nat) : M unit :=
  modify (fun m => set__test_queue (sort_by_key test_key (_test_queue m)) m) ;;
  modify (fun m => set_ntests (List.length (_test_queue m)) m) ;;
  modify (set_count 1) ;;
  (* record exclusions *)
  filtered <- gets _filtered_tests ;;
  for_each filtered _record_test_excluded ;;
  now <- gets_world time_time ;;
  modify (set__regression_start_time (Some now)) ;;
  _execute fuel.

(** Modelled from the spec: the task runtime is not in the source.  A
    submitted unit runs to completion, which advances the two clocks and
    stores the outcome in the task, the object the manager holds as
    [_test_task]; the runtime then signals completion once, by
    [_handle_result]. *)
Fixpoint scheduler_run (fuel : nat) : M unit :=
  match fuel with
  | O => out_of_fuel
  | S fuel' =>
      pending <- gets_world scheduler_tests ;;
      match pending with
      | [] => ret tt
      | task :: rest =>
          modify_world (set_scheduler_tests rest) ;;
          modify_world (fun w =>
            set_time_time (time_time w + co_wall (task_coro task)) w) ;;
          modify_world (fun w =>
            set_get_sim_time (get_sim_time w + co_sim (task_coro task)) w) ;;
          modify (set__test_task
            (Some {| task_coro := task_coro task; task_name := task_name task;
                     _outcome := Some (co_outcome (task_coro task)) |})) ;;
          _handle_result fuel' ;;
          scheduler_run fuel'
      end
  end.

(** A whole regression: [start_regression], then the runtime until nothing
    is pending. *)
Definition regression (fuel : nat) : M unit :=
  start_regression fuel ;;
  scheduler_run fuel.

(** ** class TestFactory *)

(** A key of [TestFactory.kwargs]: one option name, or the tuple of names
    of a group of options. *)
Inductive OptName :=
| OptStr (name : string)
| OptNames (names : list string).

Definition OptName_eqb (a b : OptName) : bool :=
  match a, b with
  | OptStr x, OptStr y => String.eqb x y
  | OptNames xs, OptNames ys =>
      if list_eq_dec string_dec xs ys then true else false
  | _, _ => false
  end.

(** The test function of a factory: the function object, and what calling it
    with the design under test, the constant positional arguments and the
    keyword arguments gives. *)
Record TestFactory := {
  test_function : PyFunc;
  test_function_call : list PyVal -> list (string * PyVal) -> Outcome Coroutine;
  args : list PyVal;
  kwargs_constant : list (string * PyVal);
  kwargs : list (OptName * list PyVal)
}.

Definition TestFactory__init__ (test_function0 : PyFunc)
    (call0 : list PyVal -> list (string * PyVal) -> Outcome Coroutine)
    (args0 : list PyVal) (kwargs0 : list (string * PyVal)) : TestFactory :=
  {| test_function := test_function0; test_function_call := call0;
     args := args0; kwargs_constant := kwargs0; kwargs := [] |}.

(** A string is kept as the bytes of its UTF-8 encoding, and [len] and
    [iter] go by characters: a character is a byte that is not a
    continuation byte ([10xxxxxx]) with the continuation bytes after it. *)
Definition is_continuation (a : ascii) : bool :=
  let n := nat_of_ascii a in ((128 <=? n) && (n <? 192))%nat.

Definition continues (s : string) : bool :=
  match s with
  | String c _ => is_continuation c
  | EmptyString => false
  end.

Fixpoint utf8_chars (s : string) : list string :=
  match s with
  | EmptyString => []
  | String c s' =>
      match utf8_chars s' with
      | first :: rest =>
          if continues s' then String c first :: rest
          else String c EmptyString :: first :: rest
      | [] => [String c EmptyString]
      end
  end.

(** [len(v)] and [iter(v)] for the values that have them. *)
Definition py_len (v : PyVal) : option nat :=
  match v with
  | VTuple items => Some (List.length items)
  | VStr s => Some (List.length (utf8_chars s))
  | _ => None
  end.

Definition py_iter (v : PyVal) : option (list PyVal) :=
  match v with
  | VTuple items => Some items
  | VStr s => Some (map VStr (utf8_chars s))
  | _ => None
  end.

(** [type(v).__name__], and the [TypeError] of [len(v)] for a value without
    a length; a [VFunc] is a function object. *)
Definition type_name (v : PyVal) : string :=
  match v with
  | VNone => "NoneType"
  | VBool _ => "bool"
  | VInt _ => "int"
  | VStr _ => "str"
  | VTuple _ => "tuple"
  | VFunc _ _ => "function"
  end.

Definition no_len (v : PyVal) : PyExc :=
  exception "TypeError"
    ("object of type '" ++ type_name v ++ "' has no len()")%string.

(** The check of [add_option] on a group: every entry has as many values as
    there are names. *)
Fixpoint check_group (names : list string) (optionlist : list PyVal)
    : option PyExc :=
  match optionlist with
  | [] => None
  | opt :: rest =>
      match py_len opt with
      | None => Some (no_len opt)
      | Some n =>
          if negb (List.length names =? n)%nat then
            Some (exception ValueError
              "Mismatch between number of options and number of option values in group")
          else check_group names rest
      end
  end.

(** [add_option]: the factory with the option set, or the exception. *)
Definition add_option (name : OptName) (optionlist : list PyVal)
    (self : TestFactory) : PyExc + TestFactory :=
  let set :=
    inr {| test_function := test_function self;
           test_function_call := test_function_call self;
           args := args self; kwargs_constant := kwargs_constant self;
           kwargs := dict_set OptName_eqb name optionlist (kwargs self) |} in
  match name with
  | OptStr _ => set
  | OptNames names =>
      match check_group names optionlist with
      | Some e => inl e
      | None => set
      end
  end.

(** [itertools.product] of the lists: the last list varies fastest. *)
Fixpoint product {A} (lists : list (list A)) : list (list A) :=
  match lists with
  | [] => [[]]
  | l :: rest => flat_map (fun x => map (cons x) (product rest)) l
  end.

(** Decimal digits of a number, and ["%03d"]. *)
Fixpoint decimal_digits (fuel n : nat) (acc : string) : string :=
  match fuel with
  | O => acc
  | S fuel' =>
      let acc' := String (ascii_of_nat (48 + n mod 10)) acc in
      if (n / 10 =? 0)%nat then acc' else decimal_digits fuel' (n / 10) acc'
  end.

Definition str_of_nat (n : nat) : string := decimal_digits (S n) n "".

Definition format_03d (n : nat) : string :=
  let digits := str_of_nat n in
  string_of_list_ascii (repeat "0"%char (3 - String.length digits)) ++ digits.

(** The dictionaries the loop of [_generate_tests] enumerates:
    for each [v] of the product of the values of [self.kwargs], in the order
    of the keys, the dictionary [dict(zip(self.kwargs, v))]. *)
Definition testoptions_list (self : TestFactory)
    : list (list (OptName * PyVal)) :=
  map (fun v => combine (map fst (kwargs self)) v)
      (product (map snd (kwargs self))).

(** The preprocessing that splits the tuples of a group into one entry per
    name. *)
Fixpoint split_testoptions (testoptions : list (OptName * PyVal))
    (testoptions_split : list (string * PyVal))
    : PyExc + list (string * PyVal) :=
  match testoptions with
  | [] => inr testoptions_split
  | (OptStr optname, optvalue) :: rest =>
      split_testoptions rest
        (dict_set String.eqb optname optvalue testoptions_split)
  | (OptNames optname, optvalue) :: rest =>
      match py_len optvalue, py_iter optvalue with
      | Some n, Some values =>
          (* previously checked in add_option; ensure nothing has changed *)
          if (List.length optname =? n)%nat then
            split_testoptions rest
              (dict_update String.eqb testoptions_split
                 (combine optname values))
          else inl (exception AssertionError "")
      | _, _ => inl (no_len optvalue)
      end
  end.

Definition tab : ascii := ascii_of_nat 9.

(** The lines of the generated docstring, one per option. *)
Definition doc_line (opt : string * PyVal) : string :=
  let '(optname, optvalue) := opt in
  match optvalue with
  | VFunc qualname fdoc =>
      let desc : string :=
        match fdoc with
        | None | Some EmptyString => "No docstring supplied"
        | Some d => first_line d
        end in
      String tab (optname ++ ": " ++ qualname ++ " (" ++ desc ++ ")"
                    ++ String newline EmptyString)%string
  | _ =>
      String tab (optname ++ ": " ++ repr E optvalue
                    ++ String newline EmptyString)%string
  end.

(** The body of the loop of [_generate_tests] for the element [index] of
    the enumeration: the test it yields.  The yielded test function awaits
    the call of [test_function] with the design under test, [self.args] and
    the keyword arguments: a failing call fails the coroutine, not the call
    of the test function. *)
Definition _generate_test (self : TestFactory) (prefix postfix : string)
    (test_func_name : string) (module0 : option string)
    (timeout_time0 : option Q) (timeout_unit0 : string) (expect_fail0 : bool)
    (expect_error0 : list string) (skip0 : bool) (stage0 : Z)
    (index : nat) (testoptions : list (OptName * PyVal)) : M Test :=
  let name :=
    (prefix ++ test_func_name ++ postfix ++ "_" ++ format_03d (index + 1))%string in
  match split_testoptions testoptions [] with
  | inl e => raise e
  | inr testoptions_split =>
      let doc :=
        ("Automatically generated test"
           ++ String newline (String newline EmptyString)
           ++ String.concat "" (map doc_line testoptions_split))%string in
      let kwargs :=
        dict_update String.eqb
          (dict_update String.eqb [] (kwargs_constant self)) testoptions_split in
      let _my_test :=
        {| __qualname__ := name;
           __module__ := __module__ (test_function self);
           __doc__ := Some doc;
           __defaults__ := [kwargs];
           getfile := regression_file E;
           getsourcelines := getsourcelines (test_function self);
           call :=
             Value (match test_function_call self (args self) kwargs with
                    | Value co => co
                    | Error e =>
                        {| co_outcome := Error e; co_wall := 0; co_sim := 0 |}
                    end) |} in
      id_count <- gets_world Test_id_count ;;
      let '(test, id_count') :=
        Test__init__ id_count _my_test (Some name) module0 None timeout_time0
          timeout_unit0 expect_fail0 expect_error0 skip0 stage0 in
      modify_world (set_Test_id_count id_count') ;;
      ret test
  end.

(** [enumerate]. *)
Fixpoint enumerate {A} (start : nat) (l : list A) : list (nat * A) :=
  match l with
  | [] => []
  | x :: l' => (start, x) :: enumerate (S start) l'
  end.

(** [_generate_tests]: a generator, that is the list of the computations
    that yield its elements.  The deprecation warnings are not modelled. *)
Definition _generate_tests (self : TestFactory) (prefix postfix name : option string)
    (module0 : option string) (timeout_time0 : option Q)
    (timeout_unit0 : string) (expect_fail0 : bool)
    (expect_error0 : list string) (skip0 : bool) (stage0 : Z)
    : list (M Test) :=
  let prefix := match prefix with Some p => p | None => "" end in
  let postfix := match postfix with Some p => p | None => "" end in
  let test_func_name :=
    match name with
    | None => __qualname__ (test_function self)
    | Some n => n
    end in
  map (fun it =>
         _generate_test self prefix postfix test_func_name module0
           timeout_time0 timeout_unit0 expect_fail0 expect_error0 skip0 stage0
           (fst it) (snd it))
      (enumerate 0 (testoptions_list self)).

(** [glbs[key] = value] on the globals of the module [caller]. *)
Definition glbs_set (caller key : string) (value : PyObject) : M unit :=
  modify_world (fun w =>
    set_sys_modules
      (match dict_get String.eqb caller (sys_modules w) with
       | Some glbs =>
           dict_set String.eqb caller (dict_set String.eqb key value glbs)
             (sys_modules w)
       | None => sys_modules w
       end) w).

(** [generate_tests], called from the module [caller], whose globals are
    [inspect.currentframe().f_back.f_globals]. *)
Definition generate_tests (self : TestFactory) (caller : string)
    (prefix postfix name0 : option string) (timeout_time0 : option Q)
    (timeout_unit0 : string) (expect_fail0 : bool)
    (expect_error0 : list string) (skip0 : bool) (stage0 : Z) : M unit :=
  glbs <- import_module caller ;;
  (if negb (dict_in String.eqb "__cocotb_tests__" glbs) then
     glbs_set caller "__cocotb_tests__" (ObjTests [])
   else ret tt) ;;
  match dict_get String.eqb "__name__" glbs with
  | Some (ObjStr module_name) =>
      for_each
        (_generate_tests self prefix postfix name0 (Some module_name)
           timeout_time0 timeout_unit0 expect_fail0 expect_error0 skip0 stage0)
        (fun next =>
           test <- next ;;
           glbs <- import_module caller ;;
           (if dict_in String.eqb (name test) glbs then
              logging (log_overwriting name0 module_name)
            else ret tt) ;;
           match dict_get String.eqb "__cocotb_tests__" glbs with
           | Some (ObjTests tests) =>
               glbs_set caller "__cocotb_tests__" (ObjTests (tests ++ [test])) ;;
               glbs_set caller (name test) (ObjTest test)
           | _ => raise (exception "AttributeError" "no attribute 'append'")
           end)
  | _ => raise (exception "KeyError" "'__name__'")
  end.

End WithEnv.

(** ** Vocabulary of the properties *)

(** The exceptions [_score_test] raises again instead of scoring. *)
Definition interrupt (e : PyExc) : bool :=
  isinstance e [KeyboardInterrupt; SystemExit].

(** A raised failure: an exception [_score_test] scores as one, that is
    neither raised again nor the [TestSuccess] a test raises to end early. *)
Definition raised_failure (e : PyExc) : bool :=
  negb (interrupt e) && negb (isinstance e [TestSuccess]).

(** A fatal simulator failure, and an assertion-style failure. *)
Definition fatal (e : PyExc) : bool := isinstance e [SimFailure].
Definition assertion_style (E : Env) (e : PyExc) : bool :=
  isinstance e [AssertionError; _Failed E].

(** The environment declares [SimFailure] as a failure: its instances are
    neither interrupts nor instances of [TestSuccess]. *)
Definition SimFailure_ok (E : Env) : bool :=
  raised_failure (SimFailure_new E).

(** No interrupt comes out of the test: neither its function nor its
    coroutine raises [KeyboardInterrupt] or [SystemExit]. *)
Definition no_interrupt (test : Test) : bool :=
  match call (func test) with
  | Error e => negb (interrupt e)
  | Value co =>
      match co_outcome co with
      | Error e => negb (interrupt e)
      | Value _ => true
      end
  end.

(** The state of a fresh interpreter with the given modules, and of a fresh
    manager in it. *)
Definition World_init (modules : list (string * PyModule)) : World :=
  {| time_time := 0; get_sim_time := 0; random_seed := None;
     Test_id_count := 0; sys_modules := modules; log := []; called := [];
     scheduler_tests := []; stop_simulator := 0; stop_coverage := 0 |}.

Definition State_init (modules : list (string * PyModule)) : State :=
  {| mgr := RegressionManager__init__; world := World_init modules |}.

(** The pair [_score_test] returns, which no state changes. *)
Definition score (E : Env) (test : Test) (outcome : Outcome unit)
    : Res (bool * bool) :=
  fst (_score_test E test outcome (State_init [])).

(** What a module of the given name exports, in the imported modules: a
    list of tests under [__cocotb_tests__], or no such attribute. *)
Definition has_tests (modules : list (string * PyModule)) (module_name : string)
    (tests : list Test) : Prop :=
  exists md,
    dict_get String.eqb module_name modules = Some md /\
    dict_get String.eqb "__cocotb_tests__" md = Some (ObjTests tests).

Definition has_no_tests (modules : list (string * PyModule))
    (module_name : string) : Prop :=
  exists md,
    dict_get String.eqb module_name modules = Some md /\
    dict_get String.eqb "__cocotb_tests__" md = None.

(** Between two states the tests were put at the end of the queue and
    nothing was run or recorded. *)
Definition registers (tests : list Test) (s s' : State) : Prop :=
  _test_queue (mgr s') = _test_queue (mgr s) ++ tests /\
  sys_modules (world s') = sys_modules (world s) /\
  called (world s') = called (world s) /\
  scheduler_tests (world s') = scheduler_tests (world s) /\
  _test_results (mgr s') = _test_results (mgr s) /\
  testcases (xunit (mgr s')) = testcases (xunit (mgr s)).

(** The number of summaries sent to the logger. *)
Definition is_summary (r : LogRecord) : bool :=
  match r with
  | log_summary _ _ _ _ _ _ _ _ => true
  | _ => false
  end.

Definition summaries (l : list LogRecord) : nat :=
  List.length (filter is_summary l).

(** What the properties of a run observe of a state: the queue, the result
    log, the cases of the report, the tests called, the tasks pending in the
    scheduler, the latch, how often the simulator was stopped, the report
    written and the summary logged, and the start time of the regression
    if it is assigned. *)
Record Obs := mkObs {
  obs_queue : list Test;
  obs_results : list TestResult;
  obs_cases : list TestCase;
  obs_called : list Test;
  obs_pending : list Task;
  obs_tearing_down : bool;
  obs_stops : nat;
  obs_writes : nat;
  obs_summaries : nat;
  obs_start : option Q
}.

Definition obs (s : State) : Obs :=
  {| obs_queue := _test_queue (mgr s);
     obs_results := _test_results (mgr s);
     obs_cases := testcases (xunit (mgr s));
     obs_called := called (world s);
     obs_pending := scheduler_tests (world s);
     obs_tearing_down := _tearing_down (mgr s);
     obs_stops := stop_simulator (world s);
     obs_writes := writes (xunit (mgr s));
     obs_summaries := summaries (log (world s));
     obs_start := _regression_start_time (mgr s) |}.

(** The record and the report case [_record_result] adds for a test with
    the given verdict and times. *)
Definition result_record (test : Test) (test_pass : bool)
    (wall_time_s sim_time_ns : Q) : TestResult :=
  {| r_test := fullname test; r_pass := Some test_pass;
     r_sim := sim_time_ns; r_real := wall_time_s;
     r_ratio := Some (_safe_divide sim_time_ns wall_time_s) |}.

Definition result_case (E : Env) (test : Test) (test_pass : bool)
    (wall_time_s sim_time_ns : Q) : TestCase :=
  {| tc_name := name test; tc_classname := module test;
     tc_file := getfile (func test); tc_lineno := _get_lineno test;
     tc_time := wall_time_s; tc_sim_time_ns := sim_time_ns;
     tc_ratio_time := _safe_divide sim_time_ns wall_time_s;
     tc_skipped := false;
     tc_failure := if test_pass then [] else [RANDOM_SEED E] |}.

(** The record and the case of a test failed by the tear down: the verdict
    of a [SimFailure] with no time spent. *)
Definition drained_record (E : Env) (test : Test) : TestResult :=
  result_record test (isinstance (SimFailure_new E) (expect_error test)) 0 0.

Definition drained_case (E : Env) (test : Test) : TestCase :=
  result_case E test (isinstance (SimFailure_new E) (expect_error test)) 0 0.

(** The record of a skipped test, and the case of a skipped or excluded
    test. *)
Definition skipped_record (test : Test) : TestResult :=
  {| r_test := fullname test; r_pass := None; r_sim := 0; r_real := 0;
     r_ratio := None |}.

Definition skipped_case (test : Test) : TestCase :=
  {| tc_name := name test; tc_classname := module test;
     tc_file := getfile (func test); tc_lineno := _get_lineno test;
     tc_time := 0; tc_sim_time_ns := 0; tc_ratio_time := RNum 0;
     tc_skipped := true; tc_failure := [] |}.

(** The verdict of the test carries the fatal flag: the exception its
    function raises, or the outcome of its coroutine, is scored as a fatal
    simulator failure. *)
Definition crashes (E : Env) (test : Test) : bool :=
  let outcome :=
    match call (func test) with
    | Error e => Error e
    | Value co => co_outcome co
    end in
  match score E test outcome with
  | Ok (_, sim_failed) => sim_failed
  | _ => false
  end.

(** How many tests of a queue are taken by [_execute]: all of them, or
    those up to the first test that is not skipped and crashes. *)
Fixpoint reached (E : Env) (queue : list Test) : nat :=
  match queue with
  | [] => 0
  | test :: rest =>
      if negb (skip test) && crashes E test then 1 else S (reached E rest)
  end.

(** The tests of a queue that are called: those taken by [_execute] and not
    skipped. *)
Definition executed (E : Env) (queue : list Test) : list Test :=
  filter (fun t => negb (skip t)) (firstn (reached E queue) queue).

(** One summary more if there is a result to report. *)
Definition summary_of (results : list TestResult) : nat :=
  match results with [] => 0 | _ :: _ => 1 end.

(** The order of the keys [(stage, _id)]. *)
Definition key_lt (t1 t2 : Test) : Prop :=
  (stage t1 < stage t2)%Z \/ (stage t1 = stage t2 /\ (_id t1 < _id t2)%nat).

(** [t1] does not come after [t2] in the order of the keys. *)
Definition key_le (t1 t2 : Test) : Prop := ~ key_lt t2 t1.

(** The full name of the test matches one of the filters. *)
Definition matches (E : Env) (filters : list string) (test : Test) : bool :=
  existsb (fun filter => re_search E filter (fullname test)) filters.

(** A byte. *)
Definition byte_range (b : Z) : Prop := (0 <= b < 256)%Z.

(** [list(generator)]: the elements of a generator, run to its end. *)
Fixpoint collect {A} (gen : list (M A)) : M (list A) :=
  match gen with
  | [] => ret []
  | next :: gen' =>
      x <- next ;;
      xs <- collect gen' ;;
      ret (x :: xs)
  end.

(** ** Vocabulary of the properties of the rest of the code *)

(** The records of a log that passed, failed, and were skipped. *)
Definition is_pass (r : TestResult) : bool :=
  match r_pass r with Some true => true | _ => false end.
Definition is_fail (r : TestResult) : bool :=
  match r_pass r with Some false => true | _ => false end.
Definition is_skip (r : TestResult) : bool :=
  match r_pass r with None => true | _ => false end.





(** The result log of [s'] is the log of [s] with records after it, and a
    computation that only appends to the log, whatever it returns or
    raises. *)
Definition grows (s s' : State) : Prop :=
  exists rs, _test_results (mgr s') = _test_results (mgr s) ++ rs.

Definition appends {A} (c : M A) : Prop := forall s, grows s (snd (c s)).

(** The counters of the manager agree with its result log: [passed],
    [failures] and [skipped] count the records of each kind, and [count] is
    the number of the next test. *)
Definition tallied (s : State) : Prop :=
  passed (mgr s) = List.length (filter is_pass (_test_results (mgr s))) /\
  failures (mgr s) = List.length (filter is_fail (_test_results (mgr s))) /\
  skipped (mgr s) = List.length (filter is_skip (_test_results (mgr s))) /\
  count (mgr s) = S (List.length (_test_results (mgr s))).

(** Between two states nothing was handed to or taken from the scheduler,
    the current test and the number of tests are the same, and the counters
    still agree with the log if they did. *)
Definition steady (s s' : State) : Prop :=
  scheduler_tests (world s') = scheduler_tests (world s) /\
  _test (mgr s') = _test (mgr s) /\
  ntests (mgr s') = ntests (mgr s) /\
  (tallied s -> tallied s').

(** What the scheduler holds when the manager returns to it: nothing, or
    one task, which is the task of the current test, made from the coroutine
    of its function, named after it and without an outcome. *)
Definition in_flight (s : State) : Prop :=
  scheduler_tests (world s) = [] \/
  exists test task,
    scheduler_tests (world s) = [task] /\
    _test (mgr s) = Some test /\
    _test_task (mgr s) = Some task /\
    skip test = false /\
    call (func test) = Value (task_coro task) /\
    task_name task = name test /\
    _outcome task = None.

(** A manager that has recorded nothing yet, as [__init__] leaves it. *)
Definition unscored (s : State) : Prop :=
  _test_results (mgr s) = [] /\
  passed (mgr s) = 0%nat /\ failures (mgr s) = 0%nat /\
  skipped (mgr s) = 0%nat.

(** Moreover no test was called, skipped or seeded: what holds across the
    recording of a result and across the tear down. *)
Definition settled (s s' : State) : Prop :=
  steady s s' /\
  skipped (mgr s') = skipped (mgr s) /\
  called (world s') = called (world s) /\
  random_seed (world s') = random_seed (world s).

(** Every group of options of the factory has, in each of its entries, as
    many values as names: what [add_option] checks. *)
Definition group_ok (entry : OptName * list PyVal) : Prop :=
  match fst entry with
  | OptStr _ => True
  | OptNames names =>
      Forall (fun opt => py_len opt = Some (List.length names)) (snd entry)
  end.

Definition options_ok (self : TestFactory) : Prop :=
  Forall group_ok (kwargs self).

(** An entry of the dictionary of one combination of options has the
    length [_generate_tests] asserts. *)
Definition entry_ok (entry : OptName * PyVal) : Prop :=
  match fst entry with
  | OptStr _ => True
  | OptNames names => py_len (snd entry) = Some (List.length names)
  end.

(** What every test of one generation shares: the arguments of
    [generate_tests], and a function whose call gives a coroutine. *)
Definition generated_with (timeout_time0 : option Q) (expect_fail0 : bool)
    (expect_error0 : list string) (skip0 : bool) (stage0 : Z) (test : Test)
    : Prop :=
  stage test = stage0 /\ skip test = skip0 /\
  expect_fail test = expect_fail0 /\ expect_error test = expect_error0 /\
  timeout_time test = timeout_time0 /\
  exists coro, call (func test) = Value coro.


(** The number a string of decimal digits denotes. *)
Definition digit_value (c : ascii) : nat := (nat_of_ascii c - 48)%nat.

Definition nat_of_digits (s : string) : nat :=
  fold_left (fun acc c => (acc * 10 + digit_value c)%nat)
    (list_ascii_of_string s) 0%nat.

(** ** Inputs of the examples *)

Module Examples.

Definition env : Env :=
  {| RANDOM_SEED := 1234;
     pytest_Failed := None;
     TestSuccess_bases := ["Exception"; "BaseException"; "object"];
     SimFailure_bases := ["Exception"; "BaseException"; "object"];
     re_search := fun pattern s => String.eqb pattern s;
     cleandoc := fun s => s;
     with_timeout := fun co _ _ => co;
     repr := fun _ => "<value>";
     regression_file := "cocotb/regression.py" |}.

Definition passes : Coroutine :=
  {| co_outcome := Value tt; co_wall := 1; co_sim := 10 |}.
Definition fails (e : PyExc) : Coroutine :=
  {| co_outcome := Error e; co_wall := 2; co_sim := 5 |}.

Definition function (qualname : string) (result : Outcome Coroutine) : PyFunc :=
  {| __qualname__ := qualname; __module__ := "tests"; __doc__ := None;
     __defaults__ := []; getfile := "tests.py"; getsourcelines := Some 1%nat;
     call := result |}.

(** [Test(func=..., expect_fail=..., expect_error=..., skip=..., stage=...)]
    as the [id]-th test constructed. *)
Definition test (id : nat) (qualname : string) (result : Outcome Coroutine)
    (expect_fail0 : bool) (expect_error0 : list string) (skip0 : bool)
    (stage0 : Z) : Test :=
  fst (Test__init__ env id (function qualname result) None None None None
         "step" expect_fail0 expect_error0 skip0 stage0).

Definition assertion_error : PyExc := exception AssertionError "".
Definition value_error : PyExc := exception ValueError "".
Definition type_error : PyExc := exception "TypeError" "".

Definition plain : Test := test 0 "plain" (Value passes) false [] false 0.
Definition expects_fail : Test :=
  test 1 "expects_fail" (Value (fails assertion_error)) true [] false 0.
Definition expects_value_error : Test :=
  test 2 "expects_value_error" (Value (fails value_error)) false [ValueError]
    false 0.
Definition crashes : Test :=
  test 3 "crashes" (Value (fails (SimFailure_new env))) false [] false 0.
Definition skipped_test : Test :=
  test 4 "skipped_test" (Value passes) false [] true 0.
Definition early : Test := test 5 "early" (Value passes) false [] false (-1).
Definition expects_sim_failure : Test :=
  test 6 "expects_sim_failure" (Value passes) false [SimFailure] false 0.
Definition expects_exception : Test :=
  test 7 "expects_exception" (Value (fails value_error)) false ["Exception"]
    false 0.

(** A module [tests] with nothing but its name. *)
Definition tests_module : PyModule := [("__name__", ObjStr "tests")].

Definition run_test : PyFunc := function "run_test" (Value passes).


(** [tf = TestFactory(f); tf.add_option(("x", "y"), [(1, 2), (3, 4)]);
    tf.add_option("z", [5, 6])]: a group of two options, then one option. *)
Definition grouped_factory_of (f : PyFunc) : TestFactory :=
  let tf := TestFactory__init__ f (fun _ _ => Value passes) [] [] in
  match add_option (OptNames ["x"; "y"])
          [VTuple [VInt 1; VInt 2]; VTuple [VInt 3; VInt 4]] tf with
  | inl _ => tf
  | inr tf1 =>
      match add_option (OptStr "z") [VInt 5; VInt 6] tf1 with
      | inl _ => tf
      | inr tf2 => tf2
      end
  end.

(** [TestFactory(run_test)], without options. *)
Definition bare_factory : TestFactory :=
  TestFactory__init__ run_test (fun _ _ => Value passes) [] [].

(** A module that exports one test, and one that exports an empty list. *)
Definition suite_module : PyModule :=
  [("__name__", ObjStr "suite"); ("__cocotb_tests__", ObjTests [plain])].
Definition hollow_module : PyModule :=
  [("__name__", ObjStr "hollow"); ("__cocotb_tests__", ObjTests [])].

(** A fresh manager with the given tests registered. *)
Definition registered (tests : list Test) : State :=
  {| mgr := set__test_queue tests RegressionManager__init__;
     world := World_init [] |}.

(** A manager of a started regression whose current test has just ended
    with the given outcome. *)
Definition keyboard_interrupt : PyExc :=
  {| exc_mro := ["KeyboardInterrupt"; "BaseException"; "object"];
     exc_msg := "" |}.

Definition ended (test : Test) (outcome : Outcome unit) (queue : list Test)
    : State :=
  {| mgr :=
       set__test_task
         (Some {| task_coro :=
                    {| co_outcome := outcome; co_wall := 0; co_sim := 0 |};
                  task_name := name test; _outcome := Some outcome |})
         (set__test (Some test)
            (set__regression_start_time (Some 0)
               (set__test_queue queue RegressionManager__init__)));
     world := World_init [] |}.

End Examples.

(** * Properties *)

Close Scope Q_scope.

(** ** The monad *)

Lemma bind_ok {A B} (c : M A) (k : A -> M B) (s s1 : State) (a : A) :
  c s = (Ok a, s1) -> bind c k s = k a s1.
Proof. intros H. unfold bind. rewrite H. reflexivity. Qed.

Lemma bind_assoc {A B C} (c : M A) (k : A -> M B) (k' : B -> M C) (s : State) :
  bind (bind c k) k' s = bind c (fun a => bind (k a) k') s.
Proof.
  unfold bind. destruct (c s) as [[a | e |] s1]; reflexivity.
Qed.

(** ** Scoring *)

Ltac unfold_monad :=
  unfold logging in *;
  unfold bind, ret, raise, out_of_fuel, gets, gets_world, modify,
    modify_world in *.

(** [_score_test] returns a pair or raises without touching the manager;
    the pair depends only on the test and the outcome. *)
Lemma _score_test_state E (test : Test) (outcome : Outcome unit) (s : State) :
  (exists p r,
      score E test outcome = Ok p /\
      summaries [r] = 0%nat /\
      _score_test E test outcome s
      = (Ok p, {| mgr := mgr s;
                  world := set_log (log (world s) ++ [r]) (world s) |}))
  \/ (exists e,
      outcome = Error e /\ interrupt e = true /\
      score E test outcome = Raise e /\
      _score_test E test outcome s = (Raise e, s)).
Proof.
  unfold score, _score_test, interrupt, _log_test_passed, _log_test_failed.
  unfold_monad.
  destruct outcome as [v | e].
  - left.
    destruct (expect_fail test), (truthy (expect_error test)); cbn;
      do 2 eexists; repeat split; reflexivity.
  - destruct (isinstance e [KeyboardInterrupt; SystemExit]) eqn:Hi.
    + right. exists e. auto.
    + left.
      destruct (isinstance e [TestSuccess]);
        destruct (expect_fail test);
        destruct (truthy (expect_error test));
        destruct (isinstance e [SimFailure]);
        destruct (isinstance e (expect_error test));
        destruct (isinstance e [AssertionError; _Failed E]);
        cbn; do 2 eexists; repeat split; reflexivity.
Qed.

Ltac score_cases :=
  unfold _score_test, _log_test_passed, _log_test_failed;
  unfold raised_failure, interrupt, fatal, assertion_style in *;
  unfold_monad;
  repeat match goal with
         | H : _ && _ = true |- _ => apply andb_true_iff in H; destruct H
         | H : negb _ = true |- _ => apply negb_true_iff in H
         end.

(** C1.  The verdict of [_score_test], row by row of the table of outcome
    scoring, the rows read from the top: a value is a pass without declared
    expectations and a failure with [expect_fail] or a non-empty
    [expect_error]; a fatal simulator failure sets the fatal flag and passes
    exactly when it is of a declared kind; an assertion-style failure passes
    with [expect_fail] and fails with no expectation declared; with
    [expect_error] declared, a failure of a declared kind passes, and one of
    no declared kind fails unless it is the assertion-style failure that
    [expect_fail] asks for; any failure fails with no expectation declared. *)
Theorem score_test_table (E : Env) (test : Test) (s : State) :
  let verdict (o : Outcome unit) := fst (_score_test E test o s) in
  (forall v, expect_fail test = false -> expect_error test = [] ->
     verdict (Value v) = Ok (true, false)) /\
  (forall v, expect_fail test = true \/ expect_error test <> [] ->
     verdict (Value v) = Ok (false, false)) /\
  (forall e, raised_failure e = true -> fatal e = true ->
     verdict (Error e) = Ok (isinstance e (expect_error test), true)) /\
  (forall e, raised_failure e = true -> fatal e = false ->
     assertion_style E e = true -> expect_fail test = true ->
     verdict (Error e) = Ok (true, false)) /\
  (forall e, raised_failure e = true -> fatal e = false ->
     assertion_style E e = true ->
     expect_fail test = false -> expect_error test = [] ->
     verdict (Error e) = Ok (false, false)) /\
  (forall e, raised_failure e = true -> expect_error test <> [] ->
     isinstance e (expect_error test) = true ->
     verdict (Error e) = Ok (true, fatal e)) /\
  (forall e, raised_failure e = true -> expect_error test <> [] ->
     isinstance e (expect_error test) = false ->
     fatal e = true \/ assertion_style E e && expect_fail test = false ->
     verdict (Error e) = Ok (false, fatal e)) /\
  (forall e, raised_failure e = true -> fatal e = false ->
     expect_fail test = false -> expect_error test = [] ->
     verdict (Error e) = Ok (false, false)).
Proof.
  cbv zeta. repeat split.
  - intros v Hf He. score_cases. rewrite Hf, He. reflexivity.
  - intros v [Hf | He]; score_cases.
    + rewrite Hf. destruct (truthy (expect_error test)); reflexivity.
    + destruct (expect_error test); [congruence |].
      destruct (expect_fail test); reflexivity.
  - intros e Hr Hfatal. score_cases. rewrite H, H0, Hfatal.
    destruct (isinstance e (expect_error test)); reflexivity.
  - intros e Hr Hfatal Ha Hf. score_cases. rewrite H, H0, Hfatal, Ha, Hf.
    reflexivity.
  - intros e Hr Hfatal Ha Hf He. score_cases.
    rewrite H, H0, Hfatal, Ha, Hf, He. reflexivity.
  - intros e Hr He Hi. score_cases. rewrite H, H0, Hi.
    destruct (expect_error test); [congruence |].
    destruct (isinstance e [SimFailure]); [reflexivity |].
    destruct (isinstance e [AssertionError; _Failed E] && expect_fail test);
      reflexivity.
  - intros e Hr He Hi Hc. score_cases. rewrite H, H0, Hi.
    destruct (expect_error test); [congruence |].
    destruct Hc as [Hc | Hc]; rewrite Hc; [reflexivity |].
    destruct (isinstance e [SimFailure]); reflexivity.
  - intros e Hr Hfatal Hf He. score_cases. rewrite H, H0, Hfatal, Hf, He.
    destruct (isinstance e [AssertionError; _Failed E]); reflexivity.
Qed.

(** C10.  A raised failure that is neither a fatal simulator failure nor an
    assertion-style failure, scored against an empty [expect_error], is a
    failure without the fatal flag, whatever [expect_fail] is. *)
Theorem expect_fail_rescues_only_assertions (E : Env) (test : Test)
    (e : PyExc) (s : State) :
  raised_failure e = true ->
  fatal e = false ->
  assertion_style E e = false ->
  expect_error test = [] ->
  fst (_score_test E test (Error e : Outcome unit) s) = Ok (false, false).
Proof.
  intros Hr Hfatal Ha He. score_cases. rewrite H, H0, Hfatal, Ha, He.
  reflexivity.
Qed.

Lemma score_test_table_witness :
  let s := State_init [] in
  fst (_score_test Examples.env Examples.plain (Value tt) s) = Ok (true, false)
  /\ fst (_score_test Examples.env Examples.expects_fail (Value tt) s)
     = Ok (false, false)
  /\ fst (_score_test Examples.env Examples.expects_sim_failure
            (Error (SimFailure_new Examples.env) : Outcome unit) s)
     = Ok (true, true)
  /\ fst (_score_test Examples.env Examples.expects_fail
            (Error Examples.assertion_error : Outcome unit) s)
     = Ok (true, false)
  /\ fst (_score_test Examples.env Examples.plain
            (Error Examples.assertion_error : Outcome unit) s)
     = Ok (false, false)
  /\ fst (_score_test Examples.env Examples.expects_value_error
            (Error Examples.value_error : Outcome unit) s)
     = Ok (true, false)
  /\ fst (_score_test Examples.env Examples.expects_value_error
            (Error Examples.type_error : Outcome unit) s)
     = Ok (false, false)
  /\ fst (_score_test Examples.env Examples.plain
            (Error Examples.type_error : Outcome unit) s)
     = Ok (false, false).
Proof.
  cbv zeta.
  pose proof (score_test_table Examples.env Examples.plain (State_init []))
    as Hplain.
  pose proof (score_test_table Examples.env Examples.expects_fail
                (State_init [])) as Hfail.
  pose proof (score_test_table Examples.env Examples.expects_value_error
                (State_init [])) as Hvalue.
  pose proof (score_test_table Examples.env Examples.expects_sim_failure
                (State_init [])) as Hsim.
  cbv zeta in Hplain, Hfail, Hvalue, Hsim.
  destruct Hplain as (P1 & _ & _ & _ & P5 & _ & _ & P8).
  destruct Hfail as (_ & F2 & _ & F4 & _).
  destruct Hvalue as (_ & _ & _ & _ & _ & V6 & V7 & _).
  destruct Hsim as (_ & _ & S3 & _).
  refine (conj _ (conj _ (conj _ (conj _ (conj _ (conj _ (conj _ _))))))).
  - apply P1; reflexivity.
  - apply F2. left. reflexivity.
  - apply (S3 (SimFailure_new Examples.env)); reflexivity.
  - apply F4; reflexivity.
  - apply P5; reflexivity.
  - apply (V6 Examples.value_error); [reflexivity | discriminate | reflexivity].
  - apply (V7 Examples.type_error);
      [reflexivity | discriminate | reflexivity | right; reflexivity].
  - apply P8; reflexivity.
Defined.

Lemma expect_fail_rescues_only_assertions_witness :
  fst (_score_test Examples.env
         (Examples.test 0 "t" (Value Examples.passes) true [] false 0)
         (Error Examples.type_error : Outcome unit) (State_init []))
  = Ok (false, false).
Proof.
  apply expect_fail_rescues_only_assertions; reflexivity.
Defined.

(** ** The seed of a test *)

(** SHA-1 on the test vectors of FIPS 180 and on a well-known sentence. *)
Example sha1_empty :
  Sha1.hexdigest (encode "") = "da39a3ee5e6b4b0d3255bfef95601890afd80709".
Proof. vm_compute. reflexivity. Qed.

Example sha1_abc :
  Sha1.hexdigest (encode "abc") = "a9993e364706816aba3e25717850c26c9cd0d89d".
Proof. vm_compute. reflexivity. Qed.

Example sha1_fox :
  int16 (Sha1.hexdigest (encode "The quick brown fox jumps over the lazy dog"))
  = 0x2fd4e1c67a2d28fced849ee1bb76e7391b93eb12%Z.
Proof. vm_compute. reflexivity. Qed.

Example sha1_two_blocks :
  Sha1.hexdigest
    (encode "abcdbcdecdefdefgefghfghighijhijkijkljklmklmnlmnomnopnopq")
  = "84983e441c3bd26ebaae4aa1f95129e5e54670f1".
Proof. vm_compute. reflexivity. Qed.


Section Seed.

Local Open Scope Z_scope.

Lemma be_bytes_range (n : nat) : forall x, Forall byte_range (Sha1.be_bytes n x).
Proof.
  induction n as [| n IH]; intros x; cbn.
  - constructor.
  - apply Forall_app. split; [apply IH |].
    constructor; [| constructor]. unfold byte_range.
    apply Z.mod_pos_bound. lia.
Qed.

Lemma be_bytes_length (n : nat) : forall x, List.length (Sha1.be_bytes n x) = n.
Proof.
  induction n as [| n IH]; intros x; cbn; [reflexivity |].
  rewrite length_app, IH. cbn. lia.
Qed.

Lemma digest_bytes (msg : list Z) :
  List.length (Sha1.digest msg) = 20%nat /\ Forall byte_range (Sha1.digest msg).
Proof.
  unfold Sha1.digest.
  destruct (fold_left Sha1.compress _ Sha1.init) as [[[[h0 h1] h2] h3] h4].
  split.
  - rewrite !length_app, !be_bytes_length. reflexivity.
  - do 4 (apply Forall_app; split; [apply be_bytes_range |]).
    apply be_bytes_range.
Qed.

Lemma hex_value_digit (d : Z) :
  0 <= d < 16 -> hex_value (Sha1.hex_digit d) = d.
Proof.
  intros Hd.
  assert (d = 0 \/ d = 1 \/ d = 2 \/ d = 3 \/ d = 4 \/ d = 5 \/ d = 6 \/ d = 7
          \/ d = 8 \/ d = 9 \/ d = 10 \/ d = 11 \/ d = 12 \/ d = 13 \/ d = 14
          \/ d = 15) as H by lia.
  repeat (destruct H as [H | H]; [subst d; reflexivity |]).
  subst d. reflexivity.
Qed.

Lemma fold_hex (bs : list Z) :
  Forall byte_range bs ->
  forall acc,
    fold_left (fun a d => a * 16 + d)
      (map hex_value
         (flat_map (fun b => [Sha1.hex_digit (b / 16); Sha1.hex_digit (b mod 16)])
            bs)) acc
    = fold_left (fun a d => a * 256 + d) bs acc.
Proof.
  induction 1 as [| b bs Hb _ IH]; intros acc; cbn; [reflexivity |].
  unfold byte_range in Hb.
  rewrite !hex_value_digit.
  - rewrite IH. f_equal.
    pose proof (Z.div_mod b 16 ltac:(lia)). lia.
  - apply Z.mod_pos_bound. lia.
  - split; [apply Z.div_pos; lia | apply Z.div_lt_upper_bound; lia].
Qed.

(** Reading the hexadecimal digest as a number gives the digest as a number
    in base 256. *)
Lemma int16_hexdigest (msg : list Z) :
  int16 (Sha1.hexdigest msg) = Sha1.be_value 256 (Sha1.digest msg).
Proof.
  unfold int16, Sha1.hexdigest, Sha1.be_value.
  rewrite list_ascii_of_string_of_list_ascii.
  apply fold_hex, digest_bytes.
Qed.

Lemma be_value_inj (l1 : list Z) :
  forall l2,
    List.length l1 = List.length l2 ->
    Forall byte_range l1 -> Forall byte_range l2 ->
    Sha1.be_value 256 l1 = Sha1.be_value 256 l2 -> l1 = l2.
Proof.
  unfold Sha1.be_value.
  induction l1 as [| d1 l1 IH] using rev_ind; intros l2 Hlen H1 H2 Hv.
  - destruct l2; [reflexivity | discriminate].
  - destruct l2 as [| d2 l2 _] using rev_ind.
    + rewrite length_app in Hlen. cbn in Hlen. lia.
    + rewrite !length_app in Hlen. cbn in Hlen.
      rewrite !fold_left_app in Hv. cbn in Hv.
      apply Forall_app in H1. destruct H1 as [H1 Hd1].
      apply Forall_app in H2. destruct H2 as [H2 Hd2].
      inversion Hd1 as [| ? ? Hr1 _]; subst.
      inversion Hd2 as [| ? ? Hr2 _]; subst.
      unfold byte_range in Hr1, Hr2.
      assert (d1 = d2 /\
              fold_left (fun acc d => acc * 256 + d) l1 0
              = fold_left (fun acc d => acc * 256 + d) l2 0) as [Hd Hf] by lia.
      subst d2. f_equal. apply IH; auto. lia.
Qed.

(** Different digests give different seeds under one global seed. *)
Lemma test_seed_inj (E1 E2 : Env) (t1 t2 : Test) :
  RANDOM_SEED E1 = RANDOM_SEED E2 ->
  Sha1.digest (encode (fullname t1)) <> Sha1.digest (encode (fullname t2)) ->
  test_seed E1 t1 <> test_seed E2 t2.
Proof.
  intros Hseed Hd Heq. apply Hd. unfold test_seed in Heq.
  rewrite !int16_hexdigest, Hseed in Heq.
  apply be_value_inj; try apply digest_bytes; [| lia].
  destruct (digest_bytes (encode (fullname t1))) as [-> _].
  destruct (digest_bytes (encode (fullname t2))) as [-> _]. reflexivity.
Qed.

End Seed.

(** [_init_test] on a test that is not skipped and whose function returns a
    coroutine: the test is marked as called, the generator is seeded, and the
    task is returned. *)
Lemma _init_test_value (E : Env) (fuel : nat) (test : Test) (co : Coroutine)
    (s : State) :
  skip test = false ->
  call (func test) = Value co ->
  _init_test E fuel test s
  = (Ok (Some {| task_coro := co; task_name := name test; _outcome := None |}),
     {| mgr := mgr s;
        world := set_random_seed (Some (test_seed E test))
                   (set_called (called (world s) ++ [test]) (world s)) |}).
Proof.
  intros Hskip Hcall. unfold _init_test. rewrite Hskip, Hcall.
  reflexivity.
Qed.

(** C4.  Under one global seed, the seed [_init_test] gives to the random
    generator is a function of the full name of the test alone: two
    initialisations of tests with the same full name, in any two states of
    any two runs, leave the same seed, [RANDOM_SEED] plus the SHA-1 digest
    read as a number; and tests whose full names have different digests get
    different seeds. *)
Theorem test_seed_deterministic (E1 E2 : Env) (t1 t2 : Test) :
  RANDOM_SEED E1 = RANDOM_SEED E2 ->
  (fullname t1 = fullname t2 ->
   forall fuel1 fuel2 s1 s2 co1 co2,
     skip t1 = false -> call (func t1) = Value co1 ->
     skip t2 = false -> call (func t2) = Value co2 ->
     exists task1 s1' task2 s2',
       _init_test E1 fuel1 t1 s1 = (Ok (Some task1), s1') /\
       _init_test E2 fuel2 t2 s2 = (Ok (Some task2), s2') /\
       random_seed (world s1') = Some (test_seed E1 t1) /\
       random_seed (world s2') = Some (test_seed E2 t2) /\
       test_seed E1 t1 = test_seed E2 t2)
  /\ (Sha1.digest (encode (fullname t1)) <> Sha1.digest (encode (fullname t2)) ->
      test_seed E1 t1 <> test_seed E2 t2).
Proof.
  intros Hseed. split.
  - intros Hname fuel1 fuel2 s1 s2 co1 co2 Hs1 Hc1 Hs2 Hc2.
    do 4 eexists.
    rewrite (_init_test_value E1 fuel1 t1 s1 Hs1 Hc1).
    rewrite (_init_test_value E2 fuel2 t2 s2 Hs2 Hc2).
    repeat split; try reflexivity.
    unfold test_seed. rewrite Hseed, Hname. reflexivity.
  - apply test_seed_inj, Hseed.
Qed.

Lemma test_seed_deterministic_witness :
  (exists task1 s1' task2 s2',
      _init_test Examples.env 1 Examples.plain (State_init [])
      = (Ok (Some task1), s1') /\
      _init_test Examples.env 2 Examples.plain
        {| mgr := set_count 7 RegressionManager__init__;
           world := World_init [] |}
      = (Ok (Some task2), s2') /\
      random_seed (world s1') = Some (test_seed Examples.env Examples.plain) /\
      random_seed (world s2') = Some (test_seed Examples.env Examples.plain) /\
      test_seed Examples.env Examples.plain
      = test_seed Examples.env Examples.plain)
  /\ test_seed Examples.env Examples.plain
     <> test_seed Examples.env Examples.expects_fail.
Proof.
  destruct (test_seed_deterministic Examples.env Examples.env Examples.plain
              Examples.plain eq_refl) as [Hsame _].
  destruct (test_seed_deterministic Examples.env Examples.env Examples.plain
              Examples.expects_fail eq_refl) as [_ Hdiff].
  split.
  - apply (Hsame eq_refl 1%nat 2%nat _ _ Examples.passes Examples.passes);
      reflexivity.
  - apply Hdiff. vm_compute. discriminate.
Defined.

(** ** The test factory *)

Lemma product_length {A} (lists : list (list A)) :
  List.length (product lists)
  = fold_right Nat.mul 1%nat (map (@List.length A) lists).
Proof.
  induction lists as [| l lists IH]; cbn [product map fold_right];
    [reflexivity |].
  rewrite <- IH. clear IH.
  induction l as [| x l IHl]; cbn [flat_map]; [reflexivity |].
  rewrite length_app, length_map, IHl. cbn. reflexivity.
Qed.

Lemma product_In {A} (lists : list (list A)) :
  forall v, In v (product lists) <-> Forall2 (fun x l => In x l) v lists.
Proof.
  induction lists as [| l lists IH]; intros v; cbn [product].
  - split.
    + intros [<- | []]. constructor.
    + intros H. inversion H. left. reflexivity.
  - rewrite in_flat_map. split.
    + intros (x & Hx & Hv). apply in_map_iff in Hv.
      destruct Hv as (v' & <- & Hv'). constructor; [assumption |].
      apply IH, Hv'.
    + intros H. inversion H as [| x ? v' ? Hx Hv']; subst.
      exists x. split; [assumption |].
      apply in_map. apply IH, Hv'.
Qed.

Lemma _generate_test_name (E : Env) (self : TestFactory)
    (prefix postfix fname : string) (module0 : option string)
    (timeout_time0 : option Q) (timeout_unit0 : string) (expect_fail0 : bool)
    (expect_error0 : list string) (skip0 : bool) (stage0 : Z) (index : nat)
    (testoptions : list (OptName * PyVal)) (s s' : State) (test : Test) :
  _generate_test E self prefix postfix fname module0 timeout_time0
    timeout_unit0 expect_fail0 expect_error0 skip0 stage0 index testoptions s
  = (Ok test, s') ->
  name test = (prefix ++ fname ++ postfix ++ "_" ++ format_03d (index + 1))%string.
Proof.
  unfold _generate_test.
  generalize (prefix ++ fname ++ postfix ++ "_" ++ format_03d (index + 1))%string.
  intros generated.
  destruct (split_testoptions testoptions []) as [e | split].
  - discriminate.
  - unfold_monad. unfold Test__init__. cbn. intros [= <- _]. reflexivity.
Qed.

Lemma collect_names (E : Env) (self : TestFactory)
    (prefix postfix fname : string) (module0 : option string)
    (timeout_time0 : option Q) (timeout_unit0 : string) (expect_fail0 : bool)
    (expect_error0 : list string) (skip0 : bool) (stage0 : Z)
    (options : list (list (OptName * PyVal))) :
  forall (start : nat) (s s' : State) (tests : list Test),
    collect
      (map (fun it =>
              _generate_test E self prefix postfix fname module0 timeout_time0
                timeout_unit0 expect_fail0 expect_error0 skip0 stage0
                (fst it) (snd it))
           (enumerate start options)) s
    = (Ok tests, s') ->
    map name tests
    = map (fun index =>
             (prefix ++ fname ++ postfix ++ "_" ++ format_03d (index + 1))%string)
          (seq start (List.length options)).
Proof.
  induction options as [| o options IH]; intros start s s' tests; cbn.
  - unfold ret. intros H. inversion H. reflexivity.
  - unfold bind at 1.
    destruct (_generate_test _ _ _ _ _ _ _ _ _ _ _ _ _ _ s) as [[t | e |] s1]
      eqn:Ht; try discriminate.
    unfold bind at 1.
    destruct (collect _ s1) as [[ts | e |] s2] eqn:Hts; try discriminate.
    unfold ret. intros H. inversion H; subst. cbn. f_equal.
    + eapply _generate_test_name, Ht.
    + eapply IH, Hts.
Qed.

Lemma split_testoptions_ok (testoptions : list (OptName * PyVal)) :
  Forall entry_ok testoptions ->
  forall acc, exists split, split_testoptions testoptions acc = inr split.
Proof.
  induction 1 as [| [[optname | names] optvalue] rest Hx Hrest IH];
    intros acc; cbn [split_testoptions].
  - eexists. reflexivity.
  - apply IH.
  - unfold entry_ok in Hx. cbn in Hx. rewrite Hx.
    assert (exists values, py_iter optvalue = Some values) as [values ->].
    { destruct optvalue; try discriminate; cbn; eexists; reflexivity. }
    rewrite Nat.eqb_refl. apply IH.
Qed.

Lemma combine_entry_ok (options : list (OptName * list PyVal)) :
  Forall group_ok options ->
  forall v,
    Forall2 (fun x l => In x l) v (map snd options) ->
    Forall entry_ok (combine (map fst options) v).
Proof.
  induction 1 as [| [k l] options Hk Hoptions IH]; intros v Hv;
    inversion Hv as [| x l' v' ls Hx Hv' Ev El]; subst; cbn.
  - constructor.
  - constructor; [| apply IH; assumption].
    unfold group_ok in Hk. unfold entry_ok. cbn in *.
    destruct k as [optname | names]; [exact I |].
    rewrite Forall_forall in Hk. apply Hk. exact Hx.
Qed.

Lemma testoptions_list_ok (self : TestFactory) :
  options_ok self -> Forall (Forall entry_ok) (testoptions_list self).
Proof.
  intros Hok. unfold testoptions_list. rewrite Forall_map.
  apply Forall_forall. intros v Hv.
  apply combine_entry_ok; [exact Hok |]. apply product_In. exact Hv.
Qed.

Lemma _generate_test_runs (E : Env) (self : TestFactory)
    (prefix postfix fname : string) (module0 : option string)
    (timeout_time0 : option Q) (timeout_unit0 : string) (expect_fail0 : bool)
    (expect_error0 : list string) (skip0 : bool) (stage0 : Z) (index : nat)
    (testoptions : list (OptName * PyVal)) (s : State) :
  Forall entry_ok testoptions ->
  exists test,
    _generate_test E self prefix postfix fname module0 timeout_time0
      timeout_unit0 expect_fail0 expect_error0 skip0 stage0 index testoptions s
    = (Ok test,
       {| mgr := mgr s;
          world := set_Test_id_count (S (Test_id_count (world s))) (world s) |})
    /\ _id test = Test_id_count (world s)
    /\ generated_with timeout_time0 expect_fail0 expect_error0 skip0 stage0
         test.
Proof.
  intros Hok. unfold _generate_test.
  generalize (prefix ++ fname ++ postfix ++ "_" ++ format_03d (index + 1))%string.
  intros generated.
  destruct (split_testoptions_ok Hok []) as [split ->].
  unfold_monad. unfold Test__init__. cbn.
  eexists. split; [reflexivity |]. unfold generated_with. cbn.
  repeat (split; [reflexivity |]).
  destruct timeout_time0; cbn; eexists; reflexivity.
Qed.

Lemma collect_generate (E : Env) (self : TestFactory)
    (prefix postfix fname : string) (module0 : option string)
    (timeout_time0 : option Q) (timeout_unit0 : string) (expect_fail0 : bool)
    (expect_error0 : list string) (skip0 : bool) (stage0 : Z)
    (options : list (list (OptName * PyVal))) :
  Forall (Forall entry_ok) options ->
  forall (start : nat) (s : State),
  exists tests s',
    collect
      (map (fun it =>
              _generate_test E self prefix postfix fname module0 timeout_time0
                timeout_unit0 expect_fail0 expect_error0 skip0 stage0
                (fst it) (snd it))
           (enumerate start options)) s
    = (Ok tests, s') /\
    mgr s' = mgr s /\
    world s' = set_Test_id_count (Test_id_count (world s')) (world s) /\
    Test_id_count (world s')
    = Test_id_count (world s) + List.length options /\
    map _id tests = seq (Test_id_count (world s)) (List.length options) /\
    Forall (generated_with timeout_time0 expect_fail0 expect_error0 skip0
              stage0) tests.
Proof.
  induction 1 as [| o options Ho Hoptions IH]; intros start s;
    cbn [enumerate map collect List.length seq].
  - exists [], s. split; [reflexivity |]. split; [reflexivity |].
    split; [destruct s as [m []]; reflexivity |].
    split; [lia |]. split; [reflexivity | constructor].
  - destruct (@_generate_test_runs E self prefix postfix fname module0
                timeout_time0 timeout_unit0 expect_fail0 expect_error0 skip0
                stage0 start o s Ho) as (test & Hrun & Hid & Hwith).
    cbn [fst snd]. erewrite bind_ok; [| exact Hrun]. cbv beta iota.
    match goal with |- context [bind (collect _) _ ?s0] =>
      destruct (IH (S start) s0) as (tests & s' & Hrest & Hm & Hw & Hc & Hids & Hall)
    end.
    erewrite bind_ok; [| exact Hrest]. cbv beta iota.
    exists (test :: tests), s'. split; [reflexivity |].
    cbn in Hm, Hw, Hc, Hids.
    split; [exact Hm |]. split; [exact Hw |]. split; [lia |].
    split; [cbn [map]; rewrite Hid, Hids; reflexivity |].
    constructor; assumption.
Qed.











(** C9, on the code.  Two calls of [generate_tests] on one factory in one
    module synthesize the name [run_test_001] twice.  The second call logs
    the error and rebinds the name in the module, but both tests stay in
    [__cocotb_tests__], are registered by [discover_tests], and run. *)
Theorem generate_tests_collision_runs_both :
  let generate :=
    generate_tests Examples.env Examples.bare_factory "tests" None None None
      None "steps" false [] false 0 in
  let out :=
    (generate ;; generate ;; discover_tests ["tests"] ;;
     regression Examples.env 10)
      (State_init [("tests", Examples.tests_module)]) in
  fst out = Ok tt /\
  filter (fun r => match r with log_overwriting _ _ => true | _ => false end)
    (log (world (snd out))) = [log_overwriting None "tests"] /\
  map (fun t => (_id t, name t)) (called (world (snd out)))
  = [(0%nat, "run_test_001"); (1%nat, "run_test_001")] /\
  map (fun r => (r_test r, r_pass r)) (_test_results (mgr (snd out)))
  = [("tests.run_test_001", Some true); ("tests.run_test_001", Some true)].
Proof.
  vm_compute. repeat split.
Qed.

(** ** Discovery *)

Lemma registers_refl (s : State) : registers [] s s.
Proof.
  unfold registers. rewrite app_nil_r. repeat split.
Qed.

Lemma registers_trans (ts1 ts2 : list Test) (s1 s2 s3 : State) :
  registers ts1 s1 s2 -> registers ts2 s2 s3 -> registers (ts1 ++ ts2) s1 s3.
Proof.
  unfold registers.
  intros (Q1 & M1 & C1 & S1 & R1 & X1) (Q2 & M2 & C2 & S2 & R2 & X2).
  rewrite Q2, Q1, M2, M1, C2, C1, S2, S1, R2, R1, X2, X1, app_assoc.
  repeat split.
Qed.

Lemma for_each_register_test (tests : list Test) :
  forall s, exists s',
    for_each tests register_test s = (Ok tt, s') /\ registers tests s s'.
Proof.
  induction tests as [| t tests IH]; intros s; cbn [for_each].
  - exists s. split; [reflexivity | apply registers_refl].
  - unfold bind at 1. unfold register_test at 1. unfold_monad. cbn.
    match goal with |- context [for_each tests register_test ?s1] =>
      destruct (IH s1) as (s' & -> & Hreg) end.
    exists s'. split; [reflexivity |].
    unfold registers in *. cbn in Hreg.
    destruct Hreg as (Q & M0 & C & S0 & R & X).
    rewrite Q, M0, C, S0, R, X, <- app_assoc. repeat split.
Qed.

(** The loop of [discover_tests] over modules that all export tests. *)
Lemma discover_loop_ok (modules : list string) (lists : list (list Test)) :
  forall s,
    Forall2 (has_tests (sys_modules (world s))) modules lists ->
    exists s',
      for_each modules (fun module_name =>
        md <- import_module module_name ;;
        match dict_get String.eqb "__cocotb_tests__" md with
        | None =>
            raise (exception RuntimeError
                     ("No tests were discovered in module: "
                        ++ repr_str module_name))
        | Some (ObjTests tests) => for_each tests register_test
        | Some _ => raise (exception "TypeError" "object is not iterable")
        end) s = (Ok tt, s') /\
      registers (List.concat lists) s s'.
Proof.
  intros s H. remember (sys_modules (world s)) as mods eqn:Hm.
  revert s Hm.
  induction H as [| m ts modules lists (md & Hmd & Hts) _ IH]; intros s Hm.
  - exists s. split; [reflexivity | apply registers_refl].
  - cbn [for_each List.concat].
    unfold bind at 1. unfold bind at 1. unfold import_module at 1.
    unfold bind at 1. unfold gets_world at 1.
    rewrite <- Hm, Hmd. unfold ret at 1. rewrite Hts.
    destruct (for_each_register_test ts s) as (s1 & -> & Hreg1).
    destruct (IH s1) as (s2 & -> & Hreg2).
    { destruct Hreg1 as (_ & -> & _). exact Hm. }
    exists s2. split; [reflexivity |].
    eapply registers_trans; eassumption.
Qed.

(** The loop of [discover_tests] stops at the first module that exports no
    tests. *)
Lemma discover_loop_raise (pre : list string) (lists : list (list Test))
    (bad : string) (post : list string) :
  forall s,
    Forall2 (has_tests (sys_modules (world s))) pre lists ->
    has_no_tests (sys_modules (world s)) bad ->
    exists s',
      for_each (pre ++ bad :: post) (fun module_name =>
        md <- import_module module_name ;;
        match dict_get String.eqb "__cocotb_tests__" md with
        | None =>
            raise (exception RuntimeError
                     ("No tests were discovered in module: "
                        ++ repr_str module_name))
        | Some (ObjTests tests) => for_each tests register_test
        | Some _ => raise (exception "TypeError" "object is not iterable")
        end) s
      = (Raise (exception RuntimeError
                  ("No tests were discovered in module: " ++ repr_str bad)),
         s') /\
      registers (List.concat lists) s s'.
Proof.
  intros s H. remember (sys_modules (world s)) as mods eqn:Hm.
  revert s Hm.
  induction H as [| m ts pre lists (md & Hmd & Hts) _ IH];
    intros s Hm (md' & Hbad & Hnone).
  - exists s. split; [| apply registers_refl].
    cbn [app for_each].
    unfold bind at 1. unfold bind at 1. unfold import_module at 1.
    unfold bind at 1. unfold gets_world at 1.
    rewrite <- Hm, Hbad. unfold ret at 1. rewrite Hnone. reflexivity.
  - cbn [app for_each List.concat].
    unfold bind at 1. unfold bind at 1. unfold import_module at 1.
    unfold bind at 1. unfold gets_world at 1.
    rewrite <- Hm, Hmd. unfold ret at 1. rewrite Hts.
    destruct (for_each_register_test ts s) as (s1 & -> & Hreg1).
    destruct (IH s1) as (s2 & -> & Hreg2).
    { destruct Hreg1 as (_ & -> & _). exact Hm. }
    { exists md'. split; assumption. }
    exists s2. split; [reflexivity |].
    eapply registers_trans; eassumption.
Qed.

(** C7, as amended.  [discover_tests] fails with a [RuntimeError] naming
    the module at the first referenced module that has no attribute
    [__cocotb_tests__], and with a [RuntimeError] naming all modules when
    every module was processed and the queue is still empty; otherwise it
    returns with the exported tests at the end of the queue, a module that
    exports an empty list being accepted like any other.  In each case no
    test was called, scheduled or recorded. *)
Theorem discover_tests_errors (s : State) :
  (forall pre lists bad post,
     Forall2 (has_tests (sys_modules (world s))) pre lists ->
     has_no_tests (sys_modules (world s)) bad ->
     exists s',
       discover_tests (pre ++ bad :: post) s
       = (Raise (exception RuntimeError
                   ("No tests were discovered in module: " ++ repr_str bad)),
          s') /\
       registers (List.concat lists) s s')
  /\ (forall modules lists,
        Forall2 (has_tests (sys_modules (world s))) modules lists ->
        _test_queue (mgr s) ++ List.concat lists = [] ->
        exists s',
          discover_tests modules s
          = (Raise (exception RuntimeError
                      ("No tests were discovered in any module: "
                         ++ join ", " (map repr_str modules))),
             s') /\
          registers [] s s')
  /\ (forall modules lists,
        Forall2 (has_tests (sys_modules (world s))) modules lists ->
        _test_queue (mgr s) ++ List.concat lists <> [] ->
        exists s',
          discover_tests modules s = (Ok tt, s') /\
          registers (List.concat lists) s s').
Proof.
  split; [| split].
  - intros pre lists bad post Hpre Hbad.
    destruct (@discover_loop_raise pre lists bad post s Hpre Hbad) as (s' & Hrun & Hreg).
    exists s'. split; [| exact Hreg].
    unfold discover_tests. unfold bind at 1. rewrite Hrun. reflexivity.
  - intros modules lists Hall Hempty.
    destruct (@discover_loop_ok modules lists s Hall) as (s' & Hrun & Hreg).
    exists s'.
    assert (List.concat lists = []) as Hnil
      by (destruct (_test_queue (mgr s)); [exact Hempty | discriminate]).
    rewrite Hnil in Hreg. split; [| exact Hreg].
    unfold discover_tests. unfold bind at 1. rewrite Hrun.
    unfold bind at 1. unfold gets at 1.
    destruct Hreg as (-> & _). rewrite app_nil_r.
    apply app_eq_nil in Hempty. destruct Hempty as [-> _]. reflexivity.
  - intros modules lists Hall Hsome.
    destruct (@discover_loop_ok modules lists s Hall) as (s' & Hrun & Hreg).
    exists s'. split; [| exact Hreg].
    unfold discover_tests. unfold bind at 1. rewrite Hrun.
    unfold bind at 1. unfold gets at 1.
    destruct Hreg as (-> & _).
    destruct (_test_queue (mgr s) ++ List.concat lists); [congruence |].
    reflexivity.
Qed.

Lemma discover_tests_errors_witness :
  (exists s',
      discover_tests (["suite"] ++ "tests" :: ["hollow"])
        (State_init [("suite", Examples.suite_module);
                     ("tests", Examples.tests_module);
                     ("hollow", Examples.hollow_module)])
      = (Raise (exception RuntimeError
                  "No tests were discovered in module: 'tests'"), s') /\
      called (world s') = [] /\ scheduler_tests (world s') = [])
  /\ (exists s',
         discover_tests ["hollow"] (State_init [("hollow", Examples.hollow_module)])
         = (Raise (exception RuntimeError
                     "No tests were discovered in any module: 'hollow'"), s') /\
         called (world s') = [] /\ scheduler_tests (world s') = [])
  /\ (exists s',
         discover_tests ["suite"] (State_init [("suite", Examples.suite_module)])
         = (Ok tt, s') /\
         _test_queue (mgr s') = [Examples.plain]).
Proof.
  refine (conj _ (conj _ _)).
  - destruct (discover_tests_errors
                (State_init [("suite", Examples.suite_module);
                             ("tests", Examples.tests_module);
                             ("hollow", Examples.hollow_module)]))
      as (Hbad & _).
    destruct (Hbad ["suite"] [[Examples.plain]] "tests" ["hollow"])
      as (s' & Hrun & Hreg).
    + constructor; [| constructor].
      exists Examples.suite_module. split; reflexivity.
    + exists Examples.tests_module. split; reflexivity.
    + exists s'. split; [exact Hrun |].
      destruct Hreg as (_ & _ & Hc & Hs & _). split; assumption.
  - destruct (discover_tests_errors
                (State_init [("hollow", Examples.hollow_module)]))
      as (_ & Hnone & _).
    destruct (Hnone ["hollow"] [[]]) as (s' & Hrun & Hreg).
    + constructor; [| constructor].
      exists Examples.hollow_module. split; reflexivity.
    + reflexivity.
    + exists s'. split; [exact Hrun |].
      destruct Hreg as (_ & _ & Hc & Hs & _). split; assumption.
  - destruct (discover_tests_errors
                (State_init [("suite", Examples.suite_module)]))
      as (_ & _ & Hok).
    destruct (Hok ["suite"] [[Examples.plain]]) as (s' & Hrun & Hreg).
    + constructor; [| constructor].
      exists Examples.suite_module. split; reflexivity.
    + discriminate.
    + exists s'. split; [exact Hrun |].
      destruct Hreg as (Hq & _). exact Hq.
Defined.

(** C7, as the claim words it, fails: the module [hollow] exports no tests,
    its [__cocotb_tests__] being the empty list, and [discover_tests] on it
    and on a module that exports one test returns, with this test queued. *)
Lemma empty_export_is_accepted :
  let s :=
    State_init [("hollow", Examples.hollow_module);
                ("suite", Examples.suite_module)] in
  has_tests (sys_modules (world s)) "hollow" [] /\
  exists s',
    discover_tests ["hollow"; "suite"] s = (Ok tt, s') /\
    _test_queue (mgr s') = [Examples.plain].
Proof.
  split.
  - exists Examples.hollow_module. split; reflexivity.
  - eexists. split; reflexivity.
Qed.

(** ** The run *)

Lemma on_last_app {A} (f : A -> A) (l : list A) (x : A) :
  on_last f (l ++ [x]) = l ++ [f x].
Proof.
  unfold on_last. rewrite rev_app_distr. cbn. rewrite rev_involutive.
  reflexivity.
Qed.

Lemma summaries_app (l1 l2 : list LogRecord) :
  summaries (l1 ++ l2) = (summaries l1 + summaries l2)%nat.
Proof.
  unfold summaries. rewrite filter_app, length_app. reflexivity.
Qed.

(** The verdict of the [SimFailure] the tear down gives to the tests left. *)
Lemma score_SimFailure (E : Env) (test : Test) :
  SimFailure_ok E = true ->
  score E test (Error (SimFailure_new E))
  = Ok (isinstance (SimFailure_new E) (expect_error test), true).
Proof.
  intros Hok. unfold score.
  assert (fatal (SimFailure_new E) = true) as Hfatal.
  { unfold fatal, isinstance, isinstance1, SimFailure_new. cbn.
    reflexivity. }
  unfold SimFailure_ok in Hok. revert Hok Hfatal.
  generalize (SimFailure_new E). intros e Hr Hfatal.
  score_cases. rewrite H, H0, Hfatal.
  destruct (isinstance e (expect_error test)); reflexivity.
Qed.

(** [_tear_down] with the latch set does nothing. *)
Lemma _tear_down_latched (E : Env) (fuel : nat) (s : State) :
  _tearing_down (mgr s) = true ->
  _tear_down E (S fuel) s = (Ok tt, s).
Proof.
  intros H. cbn [_tear_down]. unfold bind at 1. unfold gets at 1.
  rewrite H. reflexivity.
Qed.

(** [_record_result] up to its last statement: one case and one record
    more, the verdict being the one of [_score_test]. *)
Lemma _record_result_step (E : Env) (fuel : nat) (test : Test)
    (outcome : Outcome unit) (wall_time_s sim_time_ns : Q) (s : State)
    (p : bool * bool) :
  score E test outcome = Ok p ->
  exists s1,
    _record_result E (S fuel) test outcome wall_time_s sim_time_ns s
    = (if snd p then _tear_down E fuel else ret tt) s1 /\
    obs s1
    = mkObs (_test_queue (mgr s))
        (_test_results (mgr s)
           ++ [result_record test (fst p) wall_time_s sim_time_ns])
        (testcases (xunit (mgr s))
           ++ [result_case E test (fst p) wall_time_s sim_time_ns])
        (called (world s)) (scheduler_tests (world s))
        (_tearing_down (mgr s)) (stop_simulator (world s))
        (writes (xunit (mgr s))) (summaries (log (world s)))
        (_regression_start_time (mgr s)).
Proof.
  intros Hscore. cbn [_record_result].
  erewrite bind_ok; [| reflexivity].
  unfold bind at 1.
  match goal with |- context [_score_test E test outcome ?s0] =>
    destruct (_score_test_state E test outcome s0)
      as [(p' & r & Hp & Hr & Hrun) | (e & _ & _ & Hraise & _)] end;
    [| congruence].
  rewrite Hscore in Hp. injection Hp as <-.
  rewrite Hrun. clear Hrun.
  destruct p as [test_pass sim_failed]. cbn [fst snd].
  destruct test_pass; unfold_monad; cbn [negb];
    eexists; (split; [reflexivity |]);
    unfold obs; cbn -[summaries on_last _safe_divide];
    rewrite ?on_last_app, summaries_app, Hr, Nat.add_0_r;
    reflexivity.
Qed.

Lemma _next_test_nil (s : State) :
  _test_queue (mgr s) = [] -> _next_test s = (Ok None, s).
Proof.
  intros H. unfold _next_test, bind, gets. rewrite H. reflexivity.
Qed.

Lemma _next_test_cons (s : State) (test : Test) (rest : list Test) :
  _test_queue (mgr s) = test :: rest ->
  _next_test s
  = (Ok (Some test),
     {| mgr := set__test_queue rest (mgr s); world := world s |}).
Proof.
  intros H. unfold _next_test, bind, gets. rewrite H. reflexivity.
Qed.

Lemma summaries_snoc (l : list LogRecord) (r : LogRecord) :
  is_summary r = false -> summaries (l ++ [r]) = summaries l.
Proof.
  intros H. rewrite summaries_app. unfold summaries at 2. cbn.
  rewrite H. cbn. lia.
Qed.

Ltac obs_inv H :=
  unfold obs in H; cbn -[summaries summary_of] in H;
  rewrite ?summaries_snoc in H by reflexivity;
  first [ injection H as ?HQ ?HR ?HX ?HC ?HP ?HT ?HSt ?HW ?HSm ?HB
        | injection H as ?HQ ?HR ?HX ?HC ?HP ?HT ?HSt ?HW ?HSm ].

(** The loop of the tear down: every test left in the queue gets the record
    and the case of a [SimFailure]; nothing else changes. *)
Lemma _tear_down_loop_drains (E : Env) :
  SimFailure_ok E = true ->
  forall (queue : list Test) (fuel : nat) (s : State),
    _test_queue (mgr s) = queue ->
    _tearing_down (mgr s) = true ->
    List.length queue + 2 <= fuel ->
    exists s',
      _tear_down_loop E fuel s = (Ok tt, s') /\
      obs s'
      = mkObs [] (_test_results (mgr s) ++ map (drained_record E) queue)
          (testcases (xunit (mgr s)) ++ map (drained_case E) queue)
          (called (world s)) (scheduler_tests (world s)) true
          (stop_simulator (world s)) (writes (xunit (mgr s)))
          (summaries (log (world s)))
        (_regression_start_time (mgr s)).
Proof.
  intros Hok queue.
  induction queue as [| test rest IH]; intros fuel s Hq Hlatch Hfuel;
    (destruct fuel as [| fuel]; [cbn in Hfuel; lia |]);
    cbn [_tear_down_loop].
  - erewrite bind_ok; [| apply _next_test_nil; assumption].
    exists s. split; [reflexivity |].
    unfold obs. cbn [map]. rewrite Hq, Hlatch, !app_nil_r. reflexivity.
  - erewrite bind_ok; [| apply _next_test_cons; eassumption].
    cbv beta iota. cbn [List.length] in Hfuel.
    destruct fuel as [| fuel]; [lia |].
    destruct fuel as [| fuel]; [lia |].
    match goal with |- context [bind _ _ ?s0] =>
      destruct (_record_result_step E (S fuel) test (Error (SimFailure_new E))
                  0 0 s0 (score_SimFailure E test Hok))
        as (s1 & Hrun & Hobs) end.
    cbn [fst snd] in Hrun. obs_inv Hobs.
    rewrite _tear_down_latched in Hrun by congruence.
    erewrite bind_ok; [| exact Hrun].
    destruct (IH (S (S fuel)) s1) as (s' & Hloop & Hobs');
      [assumption | congruence | lia |].
    exists s'. split; [exact Hloop |].
    rewrite Hobs'. rewrite HR, HX, HC, HP, HSt, HW, HSm, ?HB, <- !app_assoc.
    reflexivity.
Qed.

Lemma summary_of_app (l1 l2 : list TestResult) (r : TestResult) :
  summary_of (l1 ++ r :: l2) = 1.
Proof. destruct l1; reflexivity. Qed.

Lemma _log_test_summary_obs (s : State) :
  _regression_start_time (mgr s) <> None ->
  exists s',
    _log_test_summary s = (Ok tt, s') /\
    obs s'
    = mkObs (_test_queue (mgr s)) (_test_results (mgr s))
        (testcases (xunit (mgr s))) (called (world s))
        (scheduler_tests (world s)) (_tearing_down (mgr s))
        (stop_simulator (world s)) (writes (xunit (mgr s)))
        (summaries (log (world s)) + summary_of (_test_results (mgr s)))
        (_regression_start_time (mgr s)).
Proof.
  intros Hstart. unfold _log_test_summary. unfold_monad. cbn -[summaries].
  destruct (_regression_start_time (mgr s)) as [start |] eqn:Hst;
    [| congruence].
  destruct (_test_results (mgr s)) as [| r rs] eqn:Hr; cbn -[summaries];
    eexists; (split; [reflexivity |]); unfold obs; cbn -[summaries];
    rewrite ?summaries_app, ?Nat.add_0_r, Hr, ?Hst; reflexivity.
Qed.

(** The tear down, entered for the first time: the latch is set, the queue
    drained, the summary logged if there is a result, the report written
    and the simulator stopped, each once. *)
Lemma _tear_down_runs (E : Env) :
  SimFailure_ok E = true ->
  forall (fuel : nat) (s : State),
    _tearing_down (mgr s) = false ->
    _regression_start_time (mgr s) <> None ->
    List.length (_test_queue (mgr s)) + 3 <= fuel ->
    exists s',
      _tear_down E fuel s = (Ok tt, s') /\
      obs s'
      = mkObs []
          (_test_results (mgr s) ++ map (drained_record E) (_test_queue (mgr s)))
          (testcases (xunit (mgr s)) ++ map (drained_case E) (_test_queue (mgr s)))
          (called (world s)) (scheduler_tests (world s)) true
          (stop_simulator (world s) + 1) (writes (xunit (mgr s)) + 1)
          (summaries (log (world s))
           + summary_of (_test_results (mgr s)
                           ++ map (drained_record E) (_test_queue (mgr s))))
        (_regression_start_time (mgr s)).
Proof.
  intros Hok fuel s Hlatch Hstart Hfuel.
  destruct fuel as [| fuel]; [lia |]. cbn [_tear_down].
  erewrite bind_ok; [| reflexivity]. rewrite Hlatch. cbn [negb].
  erewrite bind_ok; [| reflexivity].
  match goal with |- context [bind _ _ ?s0] =>
    destruct (@_tear_down_loop_drains E Hok (_test_queue (mgr s)) fuel s0)
      as (s1 & Hloop & Hobs1) end; [reflexivity | reflexivity | lia |].
  erewrite bind_ok; [| exact Hloop].
  obs_inv Hobs1.
  destruct (_log_test_summary_obs s1) as (s2 & Hsum & Hobs2);
    [congruence |].
  erewrite bind_ok; [| exact Hsum].
  obs_inv Hobs2.
  unfold_monad. eexists. split; [reflexivity |].
  unfold obs. cbn -[summaries].
  rewrite HQ0, HR0, HX0, HC0, HP0, HT0, HSt0, HW0, HSm0, ?HB0.
  rewrite HQ, HR, HX, HC, HP, HT, HSt, HW, HSm, ?HB.
  rewrite (Nat.add_comm (writes _)). reflexivity.
Qed.

(** [_record_result] while the regression is not torn down: the record and
    the case of the test; if the verdict carries the fatal flag, the tear
    down with everything it does, otherwise nothing more. *)
Lemma _record_result_runs (E : Env) :
  SimFailure_ok E = true ->
  forall (fuel : nat) (test : Test) (outcome : Outcome unit)
    (wall_time_s sim_time_ns : Q) (s : State) (p : bool * bool),
    score E test outcome = Ok p ->
    _tearing_down (mgr s) = false ->
    _regression_start_time (mgr s) <> None ->
    List.length (_test_queue (mgr s)) + 4 <= fuel ->
    exists s',
      _record_result E fuel test outcome wall_time_s sim_time_ns s
      = (Ok tt, s') /\
      obs s'
      = if snd p then
          mkObs []
            (_test_results (mgr s)
               ++ result_record test (fst p) wall_time_s sim_time_ns
               :: map (drained_record E) (_test_queue (mgr s)))
            (testcases (xunit (mgr s))
               ++ result_case E test (fst p) wall_time_s sim_time_ns
               :: map (drained_case E) (_test_queue (mgr s)))
            (called (world s)) (scheduler_tests (world s)) true
            (stop_simulator (world s) + 1) (writes (xunit (mgr s)) + 1)
            (summaries (log (world s)) + 1)
        (_regression_start_time (mgr s))
        else
          mkObs (_test_queue (mgr s))
            (_test_results (mgr s)
               ++ [result_record test (fst p) wall_time_s sim_time_ns])
            (testcases (xunit (mgr s))
               ++ [result_case E test (fst p) wall_time_s sim_time_ns])
            (called (world s)) (scheduler_tests (world s)) false
            (stop_simulator (world s)) (writes (xunit (mgr s)))
            (summaries (log (world s)))
        (_regression_start_time (mgr s)).
Proof.
  intros Hok fuel test outcome wall_time_s sim_time_ns s p Hscore Hlatch
    Hstart Hfuel.
  destruct fuel as [| fuel]; [lia |].
  destruct (_record_result_step E fuel test outcome wall_time_s sim_time_ns s
              Hscore)
    as (s1 & Hrun & Hobs).
  rewrite Hrun. obs_inv Hobs.
  destruct (snd p).
  - destruct (@_tear_down_runs E Hok fuel s1) as (s' & Htd & Hobs');
      [congruence | congruence | rewrite HQ; lia |].
    exists s'. split; [exact Htd |].
    rewrite Hobs', HQ, HR, HX, HC, HP, HSt, HW, HSm, ?HB, <- !app_assoc.
    cbn [app]. rewrite summary_of_app. reflexivity.
  - exists s1. split; [reflexivity |].
    unfold obs. rewrite HQ, HR, HX, HC, HP, HT, HSt, HW, HSm, HB, Hlatch.
    reflexivity.
Qed.

(** [_record_result] once the regression is torn down adds the record and
    the case, and neither logs a summary nor stops the simulator again. *)
Lemma _record_result_latched (E : Env) (fuel : nat) (test : Test)
    (outcome : Outcome unit) (wall_time_s sim_time_ns : Q) (s : State)
    (p : bool * bool) :
  score E test outcome = Ok p ->
  _tearing_down (mgr s) = true ->
  exists s',
    _record_result E (S (S fuel)) test outcome wall_time_s sim_time_ns s
    = (Ok tt, s') /\
    obs s'
    = mkObs (_test_queue (mgr s))
        (_test_results (mgr s)
           ++ [result_record test (fst p) wall_time_s sim_time_ns])
        (testcases (xunit (mgr s))
           ++ [result_case E test (fst p) wall_time_s sim_time_ns])
        (called (world s)) (scheduler_tests (world s)) true
        (stop_simulator (world s)) (writes (xunit (mgr s)))
        (summaries (log (world s)))
        (_regression_start_time (mgr s)).
Proof.
  intros Hscore Hlatch.
  destruct (_record_result_step E (S fuel) test outcome wall_time_s sim_time_ns
              s Hscore)
    as (s1 & Hrun & Hobs).
  rewrite Hrun. exists s1. obs_inv Hobs. split.
  - destruct (snd p); [| reflexivity].
    apply _tear_down_latched. congruence.
  - unfold obs. rewrite HQ, HR, HX, HC, HP, HT, HSt, HW, HSm, HB, Hlatch.
    reflexivity.
Qed.

(** [_execute] when the queue is empty and the regression torn down, and
    the scheduler when nothing is pending. *)
Lemma _execute_done (E : Env) (fuel : nat) (s : State) :
  _test_queue (mgr s) = [] ->
  _tearing_down (mgr s) = true ->
  exists s',
    _execute E (S (S fuel)) s = (Ok tt, s') /\ obs s' = obs s.
Proof.
  intros Hq Hlatch. cbn [_execute].
  erewrite bind_ok; [| apply _next_test_nil; assumption].
  erewrite bind_ok; [| reflexivity].
  eexists. split; [apply _tear_down_latched; exact Hlatch | reflexivity].
Qed.

Lemma scheduler_run_idle (E : Env) (fuel : nat) (s : State) :
  scheduler_tests (world s) = [] ->
  scheduler_run E (S fuel) s = (Ok tt, s).
Proof.
  intros H. cbn [scheduler_run]. unfold bind at 1. unfold gets_world at 1.
  rewrite H. reflexivity.
Qed.

(** Projections of states built by the setters. *)
Ltac state_simpl :=
  cbn [
    mgr world _test _test_task _test_start_time _test_start_sim_time
    _regression_start_time _test_results ntests count passed skipped
    failures _tearing_down _test_queue _filtered_tests xunit time_time
    get_sim_time random_seed Test_id_count sys_modules log called
    scheduler_tests stop_simulator stop_coverage set__test
    set__test_task set__test_start_time set__test_start_sim_time
    set__regression_start_time set__test_results set_ntests set_count
    set_passed set_skipped set_failures set__tearing_down
    set__test_queue set__filtered_tests set_xunit set_time_time
    set_get_sim_time set_random_seed set_Test_id_count set_sys_modules
    set_log set_called set_scheduler_tests set_stop_simulator
    set_stop_coverage testcases writes add_testcase add_skipped
    add_failure xunit_write task_coro task_name _outcome fst snd negb
  ] in *.

Lemma score_ok (E : Env) (test : Test) (outcome : Outcome unit) :
  match outcome with
  | Error e => interrupt e = false
  | Value _ => True
  end ->
  exists p, score E test outcome = Ok p.
Proof.
  intros H.
  destruct (_score_test_state E test outcome (State_init []))
    as [(p & _ & Hp & _) | (e & -> & He & _)].
  - exists p. exact Hp.
  - congruence.
Qed.

(** [_init_test] on a skipped test: the record and the case of a skip. *)
Lemma _init_test_skip (E : Env) (fuel : nat) (test : Test) (s : State) :
  skip test = true ->
  exists s',
    _init_test E fuel test s = (Ok None, s') /\
    obs s'
    = mkObs (_test_queue (mgr s))
        (_test_results (mgr s) ++ [skipped_record test])
        (testcases (xunit (mgr s)) ++ [skipped_case test])
        (called (world s)) (scheduler_tests (world s))
        (_tearing_down (mgr s)) (stop_simulator (world s))
        (writes (xunit (mgr s))) (summaries (log (world s)))
        (_regression_start_time (mgr s)).
Proof.
  intros Hskip. unfold _init_test. rewrite Hskip.
  unfold _record_test_skipped. unfold_monad. cbn -[summaries on_last].
  eexists. split; [reflexivity |].
  unfold obs. cbn -[summaries on_last].
  rewrite on_last_app, summaries_app, Nat.add_0_r. reflexivity.
Qed.

(** [_init_test] on a test whose function raises: the test was called, and
    [_record_result] records the failure. *)
Lemma _init_test_error (E : Env) :
  SimFailure_ok E = true ->
  forall (fuel : nat) (test : Test) (e : PyExc) (s : State),
    skip test = false ->
    call (func test) = Error e ->
    interrupt e = false ->
    _tearing_down (mgr s) = false ->
    _regression_start_time (mgr s) <> None ->
    List.length (_test_queue (mgr s)) + 4 <= fuel ->
    exists s' pass fatal_flag,
      score E test (Error e) = Ok (pass, fatal_flag) /\
      _init_test E fuel test s = (Ok None, s') /\
      obs s'
      = if (fatal_flag : bool) then
          mkObs []
            (_test_results (mgr s)
               ++ result_record test pass 0 0
               :: map (drained_record E) (_test_queue (mgr s)))
            (testcases (xunit (mgr s))
               ++ result_case E test pass 0 0
               :: map (drained_case E) (_test_queue (mgr s)))
            (called (world s) ++ [test]) (scheduler_tests (world s)) true
            (stop_simulator (world s) + 1) (writes (xunit (mgr s)) + 1)
            (summaries (log (world s)) + 1)
        (_regression_start_time (mgr s))
        else
          mkObs (_test_queue (mgr s))
            (_test_results (mgr s) ++ [result_record test pass 0 0])
            (testcases (xunit (mgr s)) ++ [result_case E test pass 0 0])
            (called (world s) ++ [test]) (scheduler_tests (world s)) false
            (stop_simulator (world s)) (writes (xunit (mgr s)))
            (summaries (log (world s)))
        (_regression_start_time (mgr s)).
Proof.
  intros Hok fuel test e s Hskip Hcall He Hlatch Hstart Hfuel.
  unfold _init_test. rewrite Hskip, Hcall. cbn [forget].
  destruct (@score_ok E test (Error e) He) as ([pass fatal_flag] & Hscore).
  erewrite bind_ok; [| reflexivity].
  erewrite bind_ok; [| reflexivity].
  match goal with |- context [bind _ _ ?s0] =>
    destruct (@_record_result_runs E Hok fuel test (Error e) 0%Q 0%Q s0 _
                Hscore Hlatch Hstart Hfuel) as (s' & Hrun & Hobs) end.
  erewrite bind_ok; [| exact Hrun].
  exists s', pass, fatal_flag. split; [exact Hscore |].
  split; [reflexivity |].
  rewrite Hobs. cbn [fst snd].
  destruct fatal_flag; unfold obs; cbn -[summaries];
    rewrite summaries_app, Nat.add_0_r; reflexivity.
Qed.

Lemma map_drained_record (E : Env) (queue : list Test) :
  map r_test (map (drained_record E) queue) = map fullname queue.
Proof. rewrite map_map. reflexivity. Qed.

Lemma map_drained_case (E : Env) (queue : list Test) :
  map tc_name (map (drained_case E) queue) = map name queue.
Proof. rewrite map_map. reflexivity. Qed.

Ltac step :=
  rewrite ?bind_assoc; erewrite bind_ok; [| reflexivity]; cbv beta iota.

(** The loop of the regression from [_execute] on, the scheduler running
    each test that is started: every test of the queue gets one record and
    one case, in the order of the queue; the tests called are the tests not
    skipped of a prefix of the queue; the regression ends torn down, once. *)
Lemma run_queue (E : Env) :
  SimFailure_ok E = true ->
  forall (queue : list Test) (fuel1 fuel2 : nat) (s : State),
    _test_queue (mgr s) = queue ->
    _tearing_down (mgr s) = false ->
    scheduler_tests (world s) = [] ->
    _regression_start_time (mgr s) <> None ->
    Forall (fun t => no_interrupt t = true) queue ->
    List.length queue + 4 <= fuel1 ->
    List.length queue + 5 <= fuel2 ->
    exists s' rs cs,
      (_execute E fuel1 ;; scheduler_run E fuel2) s = (Ok tt, s') /\
      obs s'
      = mkObs [] (_test_results (mgr s) ++ rs) (testcases (xunit (mgr s)) ++ cs)
          (called (world s) ++ executed E queue)
          [] true (stop_simulator (world s) + 1) (writes (xunit (mgr s)) + 1)
          (summaries (log (world s)) + summary_of (_test_results (mgr s) ++ rs))
        (_regression_start_time (mgr s))
      /\ map r_test rs = map fullname queue
      /\ map tc_name cs = map name queue.
Proof.
  intros Hok queue.
  induction queue as [| test rest IH];
    intros fuel1 fuel2 s Hq Hlatch Hpending Hstart Hsafe Hfuel1 Hfuel2;
    cbn [List.length] in Hfuel1, Hfuel2;
    (destruct fuel1 as [| fuel1]; [lia |]);
    (destruct fuel2 as [| fuel2]; [lia |]);
    cbn [_execute]; rewrite bind_assoc.
  - (* the queue is empty: tear down *)
    erewrite bind_ok; [| apply _next_test_nil; assumption].
    cbv beta iota. rewrite bind_assoc.
    erewrite bind_ok; [| reflexivity]. cbv beta iota.
    match goal with |- context [bind _ _ ?s0] =>
      destruct (@_tear_down_runs E Hok fuel1 s0) as (s1 & Htd & Hobs) end;
      [exact Hlatch | exact Hstart | cbn; rewrite Hq; cbn; lia |].
    erewrite bind_ok; [| exact Htd].
    obs_inv Hobs. rewrite Hq in *. cbn [map] in *. rewrite app_nil_r in *.
    rewrite scheduler_run_idle by congruence.
    exists s1, [], []. split; [reflexivity |].
    unfold executed. cbn [reached firstn filter]. rewrite ?app_nil_r.
    split; [| split; reflexivity].
    unfold obs. rewrite HQ, HR, HX, HC, HP, HT, HSt, HW, HSm, HB, Hpending.
    reflexivity.
  - (* a test is taken from the queue *)
    inversion Hsafe as [| ? ? Hsafe_test Hsafe_rest]; subst.
    erewrite bind_ok; [| apply _next_test_cons; eassumption].
    cbv beta iota. rewrite bind_assoc.
    erewrite bind_ok; [| reflexivity]. cbv beta iota. rewrite bind_assoc.
    destruct (skip test) eqn:Hskip.
    + (* skipped *)
      match goal with |- context [bind _ _ ?s0] =>
        destruct (@_init_test_skip E fuel1 test s0 Hskip)
          as (s1 & Hinit & Hobs) end.
      erewrite bind_ok; [| exact Hinit]. cbv beta iota.
      rewrite bind_assoc. erewrite bind_ok; [| reflexivity]. cbv beta iota.
      obs_inv Hobs.
      match goal with |- context [bind _ _ ?s0] =>
        assert (_test_queue (mgr s0) = rest) as Hq1 by (cbn; congruence);
        assert (_tearing_down (mgr s0) = false) as Hl1 by (cbn; congruence);
        assert (scheduler_tests (world s0) = []) as Hp1 by (cbn; congruence);
        assert (_regression_start_time (mgr s0) <> None) as Hs1
          by (cbn; congruence);
        destruct (IH fuel1 (S fuel2) s0 Hq1 Hl1 Hp1 Hs1 Hsafe_rest
                    ltac:(lia) ltac:(lia))
          as (s' & rs & cs & Hrun & Hobs' & Hrs & Hcs)
      end.
      exists s', (skipped_record test :: rs), (skipped_case test :: cs).
      split; [exact Hrun |].
      split; [| split; cbn [map]; f_equal; first [assumption | reflexivity]].
      rewrite Hobs'. unfold executed. cbn [reached]. rewrite Hskip.
           cbn [negb andb firstn filter]. rewrite Hskip. cbn [negb].
      cbn -[summaries summary_of].
      rewrite HR, HX, HC, HSt, HW, HSm, ?HB, <- !app_assoc. reflexivity.
    + destruct (call (func test)) as [co | e] eqn:Hcall.
      * (* started, run by the scheduler *)
        erewrite bind_ok; [| eapply _init_test_value; eassumption].
        cbv beta iota. rewrite bind_assoc.
        erewrite bind_ok; [| reflexivity]. cbv beta iota.
        erewrite bind_ok; [| unfold _start_test; unfold_monad; reflexivity].
        cbn [scheduler_run].
        erewrite bind_ok; [| reflexivity]. state_simpl. rewrite Hpending.
        cbn [app]. cbv beta iota.
        do 4 (erewrite bind_ok; [| reflexivity]).
        state_simpl. unfold _handle_result.
        do 2 step. state_simpl. cbv beta iota.
        do 4 step. rewrite bind_assoc. state_simpl.
        assert (exists p, score E test (co_outcome co) = Ok p) as (p & Hscore).
        { apply score_ok. unfold no_interrupt in Hsafe_test.
          rewrite Hcall in Hsafe_test.
          destruct (co_outcome co); [exact I |].
          apply negb_true_iff. exact Hsafe_test. }
        match goal with |- context [bind (_record_result E fuel2 test _ ?w ?t) _ ?s0] =>
          destruct (@_record_result_runs E Hok fuel2 test (co_outcome co) w t s0
                      p Hscore) as (s1 & Hrec & Hobs) end;
          [exact Hlatch | exact Hstart | cbn; lia |].
        erewrite bind_ok; [| exact Hrec]. clear Hrec.
        assert (crashes E test = snd p) as Hcrash.
        { unfold crashes. rewrite Hcall, Hscore. destruct p. reflexivity. }
        destruct p as [test_pass [|]]; cbn [fst snd] in Hobs, Hcrash;
          obs_inv Hobs.
        -- (* a fatal failure: torn down *)
           destruct fuel2 as [| [| fuel2]]; [lia | lia |].
           destruct (@_execute_done E fuel2 s1) as (s2 & Hex & Hobs2);
             [congruence | congruence |].
           erewrite bind_ok; [| exact Hex].
           assert (scheduler_tests (world s2) = []) as Hidle.
           { apply (f_equal obs_pending) in Hobs2. cbn in Hobs2. congruence. }
           rewrite scheduler_run_idle by exact Hidle.
           eexists s2,
             (result_record test test_pass _ _ :: map (drained_record E) rest),
             (result_case E test test_pass _ _ :: map (drained_case E) rest).
           split; [reflexivity |].
           split; [| split; cbn [map];
                     rewrite ?map_drained_record, ?map_drained_case;
                     reflexivity].
           rewrite Hobs2. unfold obs.
           rewrite HQ, HR, HX, HC, HP, HT, HSt, HW, HSm, ?HB.
           unfold executed. cbn [reached]. rewrite Hcrash, Hskip.
           cbn [negb andb firstn filter]. rewrite Hskip. cbn [negb].
           rewrite summary_of_app, ?Hpending. reflexivity.
        -- (* the regression goes on *)
           assert (_test_queue (mgr s1) = rest) as Hq1 by congruence.
           assert (_tearing_down (mgr s1) = false) as Hl1 by congruence.
           assert (scheduler_tests (world s1) = []) as Hp1 by congruence.
           assert (_regression_start_time (mgr s1) <> None) as Hs1
             by congruence.
           destruct (IH fuel2 fuel2 s1 Hq1 Hl1 Hp1 Hs1 Hsafe_rest
                       ltac:(lia) ltac:(lia))
             as (s' & rs & cs & Hrun & Hobs' & Hrs & Hcs).
           eexists s', (result_record test test_pass _ _ :: rs),
             (result_case E test test_pass _ _ :: cs).
           split; [exact Hrun |].
           split; [| split; cbn [map]; f_equal;
                     first [assumption | reflexivity]].
           rewrite Hobs'. unfold executed. cbn [reached]. rewrite Hcrash, Hskip.
           cbn [negb andb firstn filter]. rewrite Hskip. cbn [negb].
           rewrite HR, HX, HC, HSt, HW, HSm, ?HB, <- !app_assoc. reflexivity.
      * (* the call of the test function fails *)
        assert (interrupt e = false) as He.
        { unfold no_interrupt in Hsafe_test. rewrite Hcall in Hsafe_test.
          apply negb_true_iff. exact Hsafe_test. }
        match goal with |- context [bind _ _ ?s0] =>
          destruct (@_init_test_error E Hok fuel1 test e s0 Hskip Hcall He)
            as (s1 & test_pass & fatal_flag & Hscore & Hinit & Hobs) end;
          [exact Hlatch | exact Hstart | cbn; lia |].
        erewrite bind_ok; [| exact Hinit]. cbv beta iota.
        rewrite bind_assoc. erewrite bind_ok; [| reflexivity]. cbv beta iota.
        assert (crashes E test = fatal_flag) as Hcrash.
        { unfold crashes. rewrite Hcall, Hscore. reflexivity. }
        destruct fatal_flag; obs_inv Hobs.
        -- destruct fuel1 as [| [| fuel1]]; [lia | lia |].
           match goal with |- context [bind _ _ ?s0] =>
             destruct (@_execute_done E fuel1 s0) as (s2 & Hex & Hobs2) end;
             [cbn; congruence | cbn; congruence |].
           erewrite bind_ok; [| exact Hex].
           assert (scheduler_tests (world s2) = []) as Hidle.
           { apply (f_equal obs_pending) in Hobs2. cbn in Hobs2. congruence. }
           rewrite scheduler_run_idle by exact Hidle.
           eexists s2,
             (result_record test test_pass _ _ :: map (drained_record E) rest),
             (result_case E test test_pass _ _ :: map (drained_case E) rest).
           split; [reflexivity |].
           split; [| split; cbn [map];
                     rewrite ?map_drained_record, ?map_drained_case;
                     reflexivity].
           rewrite Hobs2. unfold obs. cbn -[summaries summary_of].
           rewrite HQ, HR, HX, HC, HP, HT, HSt, HW, HSm, ?HB.
           unfold executed. cbn [reached]. rewrite Hcrash, Hskip.
           cbn [negb andb firstn filter]. rewrite Hskip. cbn [negb].
           rewrite summary_of_app, ?Hpending. reflexivity.
        -- match goal with |- context [bind _ _ ?s0] =>
             assert (_test_queue (mgr s0) = rest) as Hq1
               by (cbn; congruence);
             assert (_tearing_down (mgr s0) = false) as Hl1
               by (cbn; congruence);
             assert (scheduler_tests (world s0) = []) as Hp1
               by (cbn; congruence);
             assert (_regression_start_time (mgr s0) <> None) as Hs1
               by (cbn; congruence);
             destruct (IH fuel1 (S fuel2) s0 Hq1 Hl1 Hp1 Hs1 Hsafe_rest
                         ltac:(lia) ltac:(lia))
               as (s' & rs & cs & Hrun & Hobs' & Hrs & Hcs) end.
           eexists s', (result_record test test_pass _ _ :: rs),
             (result_case E test test_pass _ _ :: cs).
           split; [exact Hrun |].
           split; [| split; cbn [map]; f_equal;
                     first [assumption | reflexivity]].
           rewrite Hobs'. unfold executed. cbn [reached]. rewrite Hcrash, Hskip.
           cbn [negb andb firstn filter]. rewrite Hskip. cbn [negb].
           cbn -[summaries summary_of].
           rewrite HR, HX, HC, HSt, HW, HSm, ?HB, <- !app_assoc. reflexivity.
Qed.

(** ** Sorting the queue *)

Lemma key_ltb_lt (t1 t2 : Test) :
  key_ltb (test_key t1) (test_key t2) = true <-> key_lt t1 t2.
Proof.
  unfold key_ltb, key_lt, test_key. cbn [fst snd].
  rewrite orb_true_iff, andb_true_iff, Z.ltb_lt, Z.eqb_eq, Nat.ltb_lt.
  reflexivity.
Qed.

Lemma key_le_trans (t1 t2 t3 : Test) :
  key_le t1 t2 -> key_le t2 t3 -> key_le t1 t3.
Proof. unfold key_le, key_lt. lia. Qed.

Lemma insert_by_key_perm (x : Test) (l : list Test) :
  Permutation (insert_by_key test_key x l) (x :: l).
Proof.
  induction l as [| y l IH]; cbn [insert_by_key]; [reflexivity |].
  destruct (key_ltb (test_key x) (test_key y)); [reflexivity |].
  rewrite IH. apply perm_swap.
Qed.

Lemma insert_by_key_sorted (x : Test) (l : list Test) :
  StronglySorted key_le l ->
  StronglySorted key_le (insert_by_key test_key x l).
Proof.
  induction 1 as [| y l Hl IH Hy]; cbn [insert_by_key].
  - repeat constructor.
  - destruct (key_ltb (test_key x) (test_key y)) eqn:Hlt.
    + apply key_ltb_lt in Hlt.
      constructor; [constructor; assumption |].
      constructor.
      * unfold key_le, key_lt in *. lia.
      * eapply Forall_impl; [| exact Hy].
        intros z Hz. unfold key_le, key_lt in *. lia.
    + constructor; [exact IH |].
      assert (key_le y x) as Hyx.
      { unfold key_le. rewrite <- key_ltb_lt, Hlt. discriminate. }
      eapply Permutation_Forall; [symmetry; apply insert_by_key_perm |].
      constructor; assumption.
Qed.

Lemma sort_by_key_spec (l : list Test) :
  Permutation (sort_by_key test_key l) l /\
  StronglySorted key_le (sort_by_key test_key l).
Proof.
  unfold sort_by_key.
  assert (forall acc,
             StronglySorted key_le acc ->
             Permutation
               (fold_left (fun sorted x => insert_by_key test_key x sorted) l acc)
               (acc ++ l) /\
             StronglySorted key_le
               (fold_left (fun sorted x => insert_by_key test_key x sorted) l acc))
    as H.
  { induction l as [| x l IH]; intros acc Hacc; cbn [fold_left].
    - rewrite app_nil_r. split; [reflexivity | exact Hacc].
    - destruct (IH (insert_by_key test_key x acc)) as [Hp Hs].
      + apply insert_by_key_sorted, Hacc.
      + split; [| exact Hs].
        rewrite Hp, insert_by_key_perm. apply Permutation_middle. }
  destruct (H []) as [Hp Hs]; [constructor |].
  split; assumption.
Qed.

(** ** The whole regression *)

Lemma for_each_excluded (tests : list Test) :
  forall s, exists s',
    for_each tests _record_test_excluded s = (Ok tt, s') /\
    obs s'
    = mkObs (_test_queue (mgr s)) (_test_results (mgr s))
        (testcases (xunit (mgr s)) ++ map skipped_case tests)
        (called (world s)) (scheduler_tests (world s))
        (_tearing_down (mgr s)) (stop_simulator (world s))
        (writes (xunit (mgr s))) (summaries (log (world s)))
        (_regression_start_time (mgr s)).
Proof.
  induction tests as [| test tests IH]; intros s; cbn [for_each map].
  - exists s. split; [reflexivity |]. unfold obs. rewrite app_nil_r.
    reflexivity.
  - erewrite bind_ok;
      [| unfold _record_test_excluded; unfold_monad; reflexivity].
    match goal with |- context [for_each tests _ ?s0] =>
      destruct (IH s0) as (s' & Hrun & Hobs) end.
    exists s'. split; [exact Hrun |].
    rewrite Hobs. cbn -[summaries on_last].
    rewrite on_last_app, <- app_assoc. reflexivity.
Qed.

(** A whole regression from a state that is not torn down and has nothing
    pending: the excluded tests get their cases first; then every test of
    the sorted queue gets one record and one case, in this order; the tests
    called are the tests executed of the sorted queue; the tear down runs
    once. *)
Lemma regression_runs (E : Env) :
  SimFailure_ok E = true ->
  forall (fuel : nat) (s : State),
    _tearing_down (mgr s) = false ->
    scheduler_tests (world s) = [] ->
    Forall (fun t => no_interrupt t = true) (_test_queue (mgr s)) ->
    List.length (_test_queue (mgr s)) + 5 <= fuel ->
    exists s' rs cs,
      regression E fuel s = (Ok tt, s') /\
      obs s'
      = mkObs [] (_test_results (mgr s) ++ rs)
          (testcases (xunit (mgr s))
             ++ map skipped_case (_filtered_tests (mgr s)) ++ cs)
          (called (world s)
             ++ executed E (sort_by_key test_key (_test_queue (mgr s))))
          [] true (stop_simulator (world s) + 1) (writes (xunit (mgr s)) + 1)
          (summaries (log (world s)) + summary_of (_test_results (mgr s) ++ rs))
          (_regression_start_time (mgr s'))
      /\ map r_test rs
         = map fullname (sort_by_key test_key (_test_queue (mgr s)))
      /\ map tc_name cs
         = map name (sort_by_key test_key (_test_queue (mgr s))).
Proof.
  intros Hok fuel s Hlatch Hpending Hsafe Hfuel.
  destruct (sort_by_key_spec (_test_queue (mgr s))) as [Hperm _].
  unfold regression, start_regression.
  do 4 step. state_simpl. rewrite !bind_assoc.
  match goal with |- context [bind (for_each _ _) _ ?s0] =>
    destruct (for_each_excluded (_filtered_tests (mgr s)) s0)
      as (s1 & Hexcl & Hobs1) end.
  erewrite bind_ok; [| exact Hexcl].
  do 2 step. obs_inv Hobs1.
  match goal with |- context [bind _ _ ?s0] =>
    destruct (@run_queue E Hok (sort_by_key test_key (_test_queue (mgr s)))
                fuel fuel s0) as (s' & rs & cs & Hrun & Hobs' & Hrs & Hcs) end.
  - exact HQ.
  - cbn. congruence.
  - cbn. congruence.
  - cbn. discriminate.
  - eapply Permutation_Forall; [symmetry; exact Hperm | exact Hsafe].
  - rewrite (Permutation_length Hperm). lia.
  - rewrite (Permutation_length Hperm). lia.
  - exists s', rs, cs. split; [exact Hrun |].
    split; [| split; assumption].
    pose proof (f_equal obs_start Hobs') as Hstart'. cbn in Hstart'.
    rewrite Hobs'. cbn -[summaries summary_of].
    rewrite Hstart', HR, HX, HC, HSt, HW, HSm, <- app_assoc. reflexivity.
Qed.

Lemma sorted_nth_error (l : list Test) :
  StronglySorted key_le l ->
  forall i j t1 t2,
    i < j -> nth_error l i = Some t1 -> nth_error l j = Some t2 ->
    key_le t1 t2.
Proof.
  induction 1 as [| x l Hl IH Hx]; intros i j t1 t2 Hij H1 H2.
  - destruct i; discriminate.
  - destruct j as [| j]; [lia |].
    destruct i as [| i]; cbn in H1, H2.
    + injection H1 as <-. rewrite Forall_forall in Hx.
      apply Hx. eapply nth_error_In, H2.
    + apply (IH i j); [lia | assumption | assumption].
Qed.

Lemma In_firstn {A} (k : nat) (l : list A) (x : A) :
  In x (firstn k l) -> In x l.
Proof.
  intros H. rewrite <- (firstn_skipn k l). apply in_or_app. left. exact H.
Qed.

Lemma sorted_firstn (l : list Test) (k : nat) :
  StronglySorted key_le l -> StronglySorted key_le (firstn k l).
Proof.
  intros H. revert k.
  induction H as [| x l Hl IH Hx]; intros [| k]; cbn; try constructor.
  - apply IH.
  - rewrite Forall_forall in *. intros y Hy. apply Hx.
    eapply In_firstn, Hy.
Qed.

Lemma sorted_filter (f : Test -> bool) (l : list Test) :
  StronglySorted key_le l -> StronglySorted key_le (filter f l).
Proof.
  induction 1 as [| x l Hl IH Hx]; cbn; [constructor |].
  destruct (f x); [| exact IH].
  constructor; [exact IH |].
  rewrite Forall_forall in *. intros y Hy. apply Hx.
  apply filter_In in Hy. apply Hy.
Qed.

(** In a list sorted by key, two tests with different identifiers stand in
    the order of their keys. *)
Lemma sorted_positions (l : list Test) :
  StronglySorted key_le l ->
  forall i j t1 t2,
    nth_error l i = Some t1 -> nth_error l j = Some t2 ->
    _id t1 <> _id t2 ->
    (i < j <-> key_lt t1 t2).
Proof.
  intros Hs i j t1 t2 H1 H2 Hid. split.
  - intros Hij. pose proof (sorted_nth_error Hs Hij H1 H2) as Hle.
    unfold key_le, key_lt in *. lia.
  - intros Hlt. destruct (Nat.lt_trichotomy i j) as [Hij | [Hij | Hij]].
    + exact Hij.
    + subst j. congruence.
    + pose proof (sorted_nth_error Hs Hij H2 H1) as Hle.
      unfold key_le in Hle. contradiction.
Qed.

Lemma executed_sorted (E : Env) (l : list Test) :
  StronglySorted key_le l -> StronglySorted key_le (executed E l).
Proof.
  intros H. unfold executed. apply sorted_filter, sorted_firstn, H.
Qed.

Lemma executed_In (E : Env) (l : list Test) (t : Test) :
  In t (executed E l) -> In t l /\ skip t = false.
Proof.
  unfold executed. intros H. apply filter_In in H. destruct H as [H Hs].
  split; [eapply In_firstn, H | apply negb_true_iff, Hs].
Qed.

(** C2.  A started regression takes the tests in the order of the keys
    [(stage, _id)]: the queue it runs is the registered queue sorted by key;
    the result log gets the records of its tests in this order; the tests
    executed are the tests of this queue that are not skipped, up to the
    first fatal failure, in this order; and of two tests executed, with
    different identifiers, the first is executed before the second exactly
    when its key is smaller.  The identifier of a test is the value of the
    class counter when it was constructed, which the construction
    increments. *)
Theorem execution_order (E : Env) (fuel : nat) (s : State) :
  SimFailure_ok E = true ->
  _tearing_down (mgr s) = false ->
  scheduler_tests (world s) = [] ->
  Forall (fun t => no_interrupt t = true) (_test_queue (mgr s)) ->
  List.length (_test_queue (mgr s)) + 5 <= fuel ->
  let queue := sort_by_key test_key (_test_queue (mgr s)) in
  exists s' rs,
    regression E fuel s = (Ok tt, s') /\
    Permutation queue (_test_queue (mgr s)) /\
    _test_results (mgr s') = _test_results (mgr s) ++ rs /\
    map r_test rs = map fullname queue /\
    called (world s') = called (world s) ++ executed E queue /\
    (forall i j t1 t2,
        nth_error queue i = Some t1 -> nth_error queue j = Some t2 ->
        _id t1 <> _id t2 ->
        (i < j <-> key_lt t1 t2)) /\
    (forall i j t1 t2,
        nth_error (executed E queue) i = Some t1 ->
        nth_error (executed E queue) j = Some t2 ->
        _id t1 <> _id t2 ->
        (i < j <-> key_lt t1 t2)) /\
    (forall id_count func0 name0 module0 doc0 timeout_time0 timeout_unit0
        expect_fail0 expect_error0 skip0 stage0,
        let constructed :=
          Test__init__ E id_count func0 name0 module0 doc0 timeout_time0
            timeout_unit0 expect_fail0 expect_error0 skip0 stage0 in
        _id (fst constructed) = id_count /\ snd constructed = S id_count).
Proof.
  intros Hok Hlatch Hpending Hsafe Hfuel queue.
  destruct (@regression_runs E Hok fuel s Hlatch Hpending Hsafe Hfuel)
    as (s' & rs & cs & Hrun & Hobs & Hrs & _).
  destruct (sort_by_key_spec (_test_queue (mgr s))) as [Hperm Hsorted].
  obs_inv Hobs.
  exists s', rs.
  split; [exact Hrun |]. split; [exact Hperm |]. split; [exact HR |].
  split; [exact Hrs |]. split; [exact HC |].
  split; [| split].
  - intros i j t1 t2 H1 H2 Hid.
    apply @sorted_positions with (l := queue); assumption.
  - intros i j t1 t2 H1 H2 Hid.
    apply @sorted_positions with (l := executed E queue);
      [apply executed_sorted |..]; assumption.
  - intros. split; reflexivity.
Qed.

Lemma execution_order_witness :
  exists s',
    regression Examples.env 10
      (Examples.registered [Examples.plain; Examples.skipped_test; Examples.early])
    = (Ok tt, s') /\
    called (world s') = [Examples.early; Examples.plain] /\
    (0 < 1 <-> key_lt Examples.early Examples.plain).
Proof.
  destruct (@execution_order Examples.env 10
              (Examples.registered
                 [Examples.plain; Examples.skipped_test; Examples.early]))
    as (s' & rs & Hrun & _ & _ & _ & Hcalled & _ & Horder & _).
  - reflexivity.
  - reflexivity.
  - reflexivity.
  - repeat constructor.
  - cbn. lia.
  - exists s'. split; [exact Hrun |]. split; [exact Hcalled |].
    apply Horder; [reflexivity | reflexivity | cbn; lia].
Defined.

(** ** Fatal failures and the tear down *)

(** The verdict of a fatal simulator failure. *)
Lemma score_fatal (E : Env) (test : Test) (e : PyExc) :
  raised_failure e = true ->
  fatal e = true ->
  score E test (Error e) = Ok (isinstance e (expect_error test), true).
Proof.
  intros Hr Hfatal. unfold score. score_cases. rewrite H, H0, Hfatal.
  destruct (isinstance e (expect_error test)); reflexivity.
Qed.

(** A fatal simulator failure recorded for a test of a started regression,
    whatever the expectations of the test and so whether it passes or fails,
    tears the regression down: the latch is set, every test left in the queue gets the
    record and the report case of a [SimFailure] with no time spent (a
    failure, unless the test declares a kind of [SimFailure] in
    [expect_error]), the summary is logged once, the report written once and
    the simulator stopped once.  Triggered again, by [_tear_down] itself or
    by another fatal failure, the tear down does nothing: no queue is
    drained, no summary logged, no report written, no stop sent.  So a
    whole regression, with or without fatal failures, ends torn down with
    an empty queue, the report written once, the simulator stopped once and
    at most one summary. *)
Lemma _record_result_fatal (E : Env) (fuel : nat) (test : Test)
    (e : PyExc) (wall_time_s sim_time_ns : Q) (s : State) :
  SimFailure_ok E = true ->
  raised_failure e = true ->
  fatal e = true ->
  _tearing_down (mgr s) = false ->
  _regression_start_time (mgr s) <> None ->
  List.length (_test_queue (mgr s)) + 4 <= fuel ->
  exists s',
    _record_result E fuel test (Error e) wall_time_s sim_time_ns s = (Ok tt, s')
    /\ obs s'
       = mkObs []
           (_test_results (mgr s)
              ++ result_record test (isinstance e (expect_error test))
                   wall_time_s sim_time_ns
              :: map (drained_record E) (_test_queue (mgr s)))
           (testcases (xunit (mgr s))
              ++ result_case E test (isinstance e (expect_error test))
                   wall_time_s sim_time_ns
              :: map (drained_case E) (_test_queue (mgr s)))
           (called (world s)) (scheduler_tests (world s)) true
           (stop_simulator (world s) + 1) (writes (xunit (mgr s)) + 1)
           (summaries (log (world s)) + 1)
        (_regression_start_time (mgr s))
    /\ (forall fuel', _tear_down E (S fuel') s' = (Ok tt, s'))
    /\ (forall fuel' test' e' wall_time_s' sim_time_ns',
           raised_failure e' = true ->
           fatal e' = true ->
           exists s'',
             _record_result E (S (S fuel')) test' (Error e') wall_time_s'
               sim_time_ns' s' = (Ok tt, s'')
             /\ obs s''
                = mkObs []
                    (_test_results (mgr s')
                       ++ [result_record test'
                             (isinstance e' (expect_error test'))
                             wall_time_s' sim_time_ns'])
                    (testcases (xunit (mgr s'))
                       ++ [result_case E test'
                             (isinstance e' (expect_error test'))
                             wall_time_s' sim_time_ns'])
                    (called (world s')) (scheduler_tests (world s')) true
                    (stop_simulator (world s')) (writes (xunit (mgr s')))
                    (summaries (log (world s')))
        (_regression_start_time (mgr s')))
    /\ (forall fuel0 s0,
           _tearing_down (mgr s0) = false ->
           scheduler_tests (world s0) = [] ->
           Forall (fun t => no_interrupt t = true) (_test_queue (mgr s0)) ->
           List.length (_test_queue (mgr s0)) + 5 <= fuel0 ->
           exists s1,
             regression E fuel0 s0 = (Ok tt, s1) /\
             _tearing_down (mgr s1) = true /\
             _test_queue (mgr s1) = [] /\
             stop_simulator (world s1) = stop_simulator (world s0) + 1 /\
             writes (xunit (mgr s1)) = writes (xunit (mgr s0)) + 1 /\
             summaries (log (world s1))
             = summaries (log (world s0))
               + summary_of (_test_results (mgr s1))).
Proof.
  intros Hok Hr Hfatal Hlatch Hstart Hfuel.
  destruct (@_record_result_runs E Hok fuel test (Error e) wall_time_s
              sim_time_ns s _ (score_fatal E test e Hr Hfatal) Hlatch Hstart
              Hfuel)
    as (s' & Hrun & Hobs).
  cbn [fst snd] in Hobs.
  exists s'. split; [exact Hrun |]. split; [exact Hobs |].
  obs_inv Hobs. split; [| split].
  - intros fuel'. apply _tear_down_latched. exact HT.
  - intros fuel' test' e' wall_time_s' sim_time_ns' Hr' Hfatal'.
    destruct (@_record_result_latched E fuel' test' (Error e') wall_time_s'
                sim_time_ns' s' _ (score_fatal E test' e' Hr' Hfatal') HT)
      as (s'' & Hrun' & Hobs').
    exists s''. split; [exact Hrun' |].
    rewrite Hobs'. cbn [fst]. rewrite HQ. reflexivity.
  - intros fuel0 s0 Hlatch0 Hpending0 Hsafe0 Hfuel0.
    destruct (@regression_runs E Hok fuel0 s0 Hlatch0 Hpending0 Hsafe0 Hfuel0)
      as (s1 & rs & cs & Hrun0 & Hobs0 & _).
    obs_inv Hobs0.
    exists s1. rewrite HR0. repeat split; assumption.
Qed.

(** C3, on the code.  A fatal simulator failure tears the regression down
    once, but the tests left in the queue are not all recorded as failures:
    each gets the verdict [_score_test] gives a [SimFailure], which is a
    pass for a test that declares [SimFailure], or a base of it such as
    [Exception], in [expect_error].  In the regression of [crashes], which
    ends with a [SimFailure], [expects_sim_failure] and [expects_exception],
    the two tests left are never called and are recorded as passed, with no
    failure in their cases of the report, and the summary counts two passed
    tests and one failure; the tear down itself runs once. *)
Theorem drained_tests_recorded_as_passed :
  let out :=
    regression Examples.env 10
      (Examples.registered
         [Examples.crashes; Examples.expects_sim_failure;
          Examples.expects_exception]) in
  fst out = Ok tt /\
  map name (called (world (snd out))) = ["crashes"] /\
  map (fun r => (r_test r, r_pass r)) (_test_results (mgr (snd out)))
  = [("tests.crashes", Some false); ("tests.expects_sim_failure", Some true);
     ("tests.expects_exception", Some true)] /\
  map (fun tc => (tc_name tc, tc_failure tc)) (testcases (xunit (mgr (snd out))))
  = [("crashes", [1234%Z]); ("expects_sim_failure", []);
     ("expects_exception", [])] /\
  (passed (mgr (snd out)), failures (mgr (snd out))) = (2, 1) /\
  (stop_simulator (world (snd out)), writes (xunit (mgr (snd out))),
   summaries (log (world (snd out)))) = (1, 1, 1) /\
  _test_queue (mgr (snd out)) = [].
Proof.
  vm_compute. repeat split.
Qed.


(** ** Filtering *)

Lemma filter_loop_spec (E : Env) (filters : list string) (queue : list Test) :
  forall (included excluded : list Test) (s : State),
  exists s',
    filter_loop E filters queue included excluded s
    = (Ok (included ++ filter (matches E filters) queue,
           excluded ++ filter (fun t => negb (matches E filters t)) queue),
       s') /\
    mgr s' = mgr s /\ obs s' = obs s.
Proof.
  induction queue as [| test queue IH]; intros included excluded s;
    cbn [filter_loop filter].
  - exists s. rewrite !app_nil_r. repeat split.
  - fold (matches E filters test).
    destruct (matches E filters test); cbn [negb].
    + destruct (IH (included ++ [test]) excluded s) as (s' & Hrun & Hm & Hobs).
      exists s'. rewrite Hrun, <- app_assoc. repeat split; assumption.
    + erewrite bind_ok; [| reflexivity].
      match goal with |- context [filter_loop E filters queue _ _ ?s0] =>
        destruct (IH included (excluded ++ [test]) s0)
          as (s' & Hrun & Hm & Hobs) end.
      exists s'. rewrite Hrun, <- app_assoc.
      split; [reflexivity |]. split; [exact Hm |].
      rewrite Hobs. unfold obs. cbn -[summaries].
      rewrite summaries_snoc by reflexivity. reflexivity.
Qed.

(** [filter_tests]: the queue keeps the tests that match a filter, the
    others become the filtered tests; nothing is run or recorded. *)
Lemma filter_tests_spec (E : Env) (filters : list string) (s : State) :
  exists s',
    filter_tests E filters s = (Ok tt, s') /\
    _filtered_tests (mgr s')
    = filter (fun t => negb (matches E filters t)) (_test_queue (mgr s)) /\
    obs s'
    = mkObs (filter (matches E filters) (_test_queue (mgr s)))
        (_test_results (mgr s)) (testcases (xunit (mgr s)))
        (called (world s)) (scheduler_tests (world s))
        (_tearing_down (mgr s)) (stop_simulator (world s))
        (writes (xunit (mgr s))) (summaries (log (world s)))
        (_regression_start_time (mgr s)).
Proof.
  unfold filter_tests. step.
  destruct (filter_loop_spec E filters (_test_queue (mgr s)) [] [] s)
    as (s1 & Hrun & Hm & Hobs).
  erewrite bind_ok; [| exact Hrun]. cbn [app].
  obs_inv Hobs.
  destruct (filter (matches E filters) (_test_queue (mgr s))) eqn:Hincl;
    cbn [truthy negb]; unfold_monad; cbn -[summaries];
    eexists; (split; [reflexivity |]); (split; [reflexivity |]);
    unfold obs; cbn -[summaries];
    rewrite ?summaries_snoc by reflexivity;
    rewrite HR, HX, HC, HP, HT, HSt, HW, HSm, HB; reflexivity.
Qed.

(** C5.  After [filter_tests] and a whole regression, every test of the
    queue whose full name matches no filter has a case in the report, put
    there before any case of a test that ran, with no wall time, no
    simulated time and the skipped marker; it is not among the tests that
    were called, and no record of the result log carries its name. *)
Theorem excluded_tests_recorded (E : Env) (fuel : nat) (filters : list string)
    (s : State) :
  SimFailure_ok E = true ->
  _tearing_down (mgr s) = false ->
  scheduler_tests (world s) = [] ->
  Forall (fun t => no_interrupt t = true) (_test_queue (mgr s)) ->
  List.length (_test_queue (mgr s)) + 5 <= fuel ->
  exists s' excluded run_cases run_tests run_records,
    (filter_tests E filters ;; regression E fuel) s = (Ok tt, s') /\
    excluded
    = filter (fun t => negb (matches E filters t)) (_test_queue (mgr s)) /\
    testcases (xunit (mgr s'))
    = testcases (xunit (mgr s)) ++ map skipped_case excluded ++ run_cases /\
    called (world s') = called (world s) ++ run_tests /\
    _test_results (mgr s') = _test_results (mgr s) ++ run_records /\
    forall test,
      In test (_test_queue (mgr s)) ->
      (forall filter, In filter filters ->
                      re_search E filter (fullname test) = false) ->
      In test excluded /\
      In (skipped_case test) (testcases (xunit (mgr s'))) /\
      tc_time (skipped_case test) = 0%Q /\
      tc_sim_time_ns (skipped_case test) = 0%Q /\
      tc_skipped (skipped_case test) = true /\
      ~ In test run_tests /\
      ~ In (fullname test) (map r_test run_records).
Proof.
  intros Hok Hlatch Hpending Hsafe Hfuel.
  destruct (filter_tests_spec E filters s) as (s1 & Hfilter & Hexcl & Hobs1).
  obs_inv Hobs1.
  assert (Forall (fun t => no_interrupt t = true) (_test_queue (mgr s1)))
    as Hsafe1.
  { rewrite HQ. rewrite Forall_forall in *. intros t Ht.
    apply filter_In in Ht. apply Hsafe, Ht. }
  assert (List.length (_test_queue (mgr s1)) + 5 <= fuel) as Hfuel1.
  { rewrite HQ. pose proof (filter_length_le (matches E filters)
                              (_test_queue (mgr s))). lia. }
  destruct (@regression_runs E Hok fuel s1)
    as (s' & rs & cs & Hrun & Hobs & Hrs & _);
    [congruence | congruence | exact Hsafe1 | exact Hfuel1 |].
  obs_inv Hobs.
  destruct (sort_by_key_spec (_test_queue (mgr s1))) as [Hperm _].
  exists s', (filter (fun t => negb (matches E filters t)) (_test_queue (mgr s))),
    cs, (executed E (sort_by_key test_key (_test_queue (mgr s1)))), rs.
  split; [erewrite bind_ok; [exact Hrun | exact Hfilter] |].
  split; [reflexivity |].
  split; [rewrite HX0, HX, Hexcl; reflexivity |].
  split; [rewrite HC0, HC; reflexivity |].
  split; [rewrite HR0, HR; reflexivity |].
  intros test Hin Hnone.
  assert (matches E filters test = false) as Hno.
  { unfold matches. apply not_true_is_false. intros Hm.
    apply existsb_exists in Hm. destruct Hm as (f & Hf & Hm).
    rewrite (Hnone f Hf) in Hm. discriminate. }
  assert (In test (filter (fun t => negb (matches E filters t))
                     (_test_queue (mgr s)))) as Hex.
  { apply filter_In. split; [exact Hin | rewrite Hno; reflexivity]. }
  split; [exact Hex |].
  split.
  { rewrite HX0, HX, Hexcl. apply in_or_app. right. apply in_or_app. left.
    apply in_map, Hex. }
  do 3 (split; [reflexivity |]).
  split.
  - intros Hrun_test. apply executed_In in Hrun_test.
    destruct Hrun_test as [Hqueue _].
    apply (Permutation_in _ Hperm) in Hqueue.
    rewrite HQ in Hqueue. apply filter_In in Hqueue.
    destruct Hqueue as [_ Hm]. congruence.
  - rewrite Hrs. intros Hname. apply in_map_iff in Hname.
    destruct Hname as (other & Hsame & Hqueue).
    apply (Permutation_in _ Hperm) in Hqueue.
    rewrite HQ in Hqueue. apply filter_In in Hqueue.
    destruct Hqueue as [_ Hm].
    unfold matches in Hm, Hno. rewrite Hsame in Hm. congruence.
Qed.

Lemma excluded_tests_recorded_witness :
  exists s',
    (filter_tests Examples.env ["tests.plain"] ;; regression Examples.env 10)
      (Examples.registered [Examples.plain; Examples.early])
    = (Ok tt, s') /\
    In (skipped_case Examples.early) (testcases (xunit (mgr s'))) /\
    ~ In Examples.early (called (world s')).
Proof.
  destruct (@excluded_tests_recorded Examples.env 10 ["tests.plain"]
              (Examples.registered [Examples.plain; Examples.early]))
    as (s' & excluded & run_cases & run_tests & run_records & Hrun & _ & _
        & Hcalled & _ & Hall).
  - reflexivity.
  - reflexivity.
  - reflexivity.
  - repeat constructor.
  - cbn. lia.
  - destruct (Hall Examples.early) as (_ & Hcase & _ & _ & _ & Hnot & _).
    + right. left. reflexivity.
    + intros filter [<- | []]. reflexivity.
    + exists s'. split; [exact Hrun |]. split; [exact Hcase |].
      rewrite Hcalled. exact Hnot.
Defined.

(** ** The result log *)

Lemma grows_refl (s : State) : grows s s.
Proof. exists []. rewrite app_nil_r. reflexivity. Qed.

Lemma grows_trans (s1 s2 s3 : State) : grows s1 s2 -> grows s2 s3 -> grows s1 s3.
Proof.
  intros [rs1 H1] [rs2 H2]. exists (rs1 ++ rs2).
  rewrite H2, H1, app_assoc. reflexivity.
Qed.

Lemma appends_bind {A B} (c : M A) (k : A -> M B) :
  appends c -> (forall a, appends (k a)) -> appends (bind c k).
Proof.
  intros Hc Hk s. unfold bind. specialize (Hc s).
  destruct (c s) as [[a | e |] s1]; cbn [snd] in *; [| exact Hc | exact Hc].
  eapply grows_trans; [exact Hc | apply Hk].
Qed.

Lemma appends_modify (f : RegressionManager -> RegressionManager) :
  (forall m, exists rs, _test_results (f m) = _test_results m ++ rs) ->
  appends (modify f).
Proof. intros H s. exact (H (mgr s)). Qed.

Lemma appends_pure {A} (c : M A) :
  (forall s, mgr (snd (c s)) = mgr s) -> appends c.
Proof.
  intros H s. unfold grows. rewrite H. exists []. rewrite app_nil_r.
  reflexivity.
Qed.

Ltac appends_step :=
  lazymatch goal with
  | |- appends (bind _ _) => apply appends_bind; [| intros]
  | |- appends (modify _) =>
      apply appends_modify; intros ?; cbn;
      first [ exists []; rewrite app_nil_r; reflexivity
            | eexists; reflexivity ]
  | |- appends (ret _) => apply appends_pure; reflexivity
  | |- appends (raise _) => apply appends_pure; reflexivity
  | |- appends out_of_fuel => apply appends_pure; reflexivity
  | |- appends (gets _) => apply appends_pure; reflexivity
  | |- appends (gets_world _) => apply appends_pure; reflexivity
  | |- appends (modify_world _) => apply appends_pure; reflexivity
  | |- appends (logging _) => apply appends_pure; reflexivity
  | |- appends (if ?b then _ else _) => destruct b
  | |- appends (match ?x with _ => _ end) => destruct x
  end.

Lemma appends_for_each {A} (l : list A) (body : A -> M unit) :
  (forall x, appends (body x)) -> appends (for_each l body).
Proof.
  intros H. induction l as [| x l IH]; cbn [for_each].
  - appends_step.
  - appends_step; [apply H | exact IH].
Qed.

Lemma appends_score_test (E : Env) (test : Test) (outcome : Outcome unit) :
  appends (_score_test E test outcome).
Proof.
  unfold _score_test, _log_test_passed, _log_test_failed.
  repeat appends_step.
Qed.

Lemma appends_tear_down (E : Env) (fuel : nat) :
  appends (_tear_down E fuel) /\
  appends (_tear_down_loop E fuel) /\
  (forall test outcome wall_time_s sim_time_ns,
      appends (_record_result E fuel test outcome wall_time_s sim_time_ns)).
Proof.
  induction fuel as [| fuel (IHtear & IHloop & IHrecord)].
  { repeat split; intros; cbn; appends_step. }
  split; [| split; [| intros test outcome wall_time_s sim_time_ns]].
  - cbn [_tear_down]. unfold _log_test_summary.
    repeat first [exact IHloop | appends_step].
  - cbn [_tear_down_loop]. unfold _next_test.
    repeat first [exact IHloop | apply IHrecord | appends_step].
  - cbn [_record_result].
    repeat first [exact IHtear | apply appends_score_test | appends_step].
Qed.

Lemma appends_execute (E : Env) (fuel : nat) : appends (_execute E fuel).
Proof.
  induction fuel as [| fuel IH]; cbn [_execute]; [appends_step |].
  unfold _next_test, _init_test, _record_test_skipped, _start_test.
  repeat first [ exact IH
               | apply (appends_tear_down E fuel)
               | appends_step ].
Qed.

Lemma appends_scheduler_run (E : Env) (fuel : nat) :
  appends (scheduler_run E fuel).
Proof.
  induction fuel as [| fuel IH]; cbn [scheduler_run]; [appends_step |].
  unfold _handle_result.
  repeat first [ exact IH
               | apply appends_execute
               | apply (appends_tear_down E fuel)
               | appends_step ].
Qed.

Lemma appends_regression (E : Env) (fuel : nat) : appends (regression E fuel).
Proof.
  unfold regression, start_regression.
  repeat first [ apply appends_scheduler_run
               | apply appends_execute
               | apply appends_for_each; intros ?; unfold _record_test_excluded
               | appends_step ].
Qed.

(** C8, as the claim states it, fails on an excluded test: after a
    regression in which [early] is filtered out, the report has its skipped
    case but the result log has no record of it. *)
Lemma excluded_test_has_no_record :
  let s' :=
    snd ((filter_tests Examples.env ["tests.plain"] ;;
          regression Examples.env 10)
           (Examples.registered [Examples.plain; Examples.early])) in
  _filtered_tests (mgr s') = [Examples.early] /\
  In (skipped_case Examples.early) (testcases (xunit (mgr s'))) /\
  map r_test (_test_results (mgr s')) = ["tests.plain"] /\
  ~ In (fullname Examples.early) (map r_test (_test_results (mgr s'))).
Proof.
  vm_compute. split; [reflexivity |]. split; [left; reflexivity |].
  split; [reflexivity |].
  intros [H | []]. discriminate H.
Qed.

Lemma appends_handle_result (E : Env) (fuel : nat) :
  appends (_handle_result E fuel).
Proof.
  unfold _handle_result.
  repeat first [ apply appends_execute
               | apply (appends_tear_down E fuel)
               | appends_step ].
Qed.

Lemma appends_start_regression (E : Env) (fuel : nat) :
  appends (start_regression E fuel).
Proof.
  unfold start_regression.
  repeat first [ apply appends_execute
               | apply appends_for_each; intros ?; unfold _record_test_excluded
               | appends_step ].
Qed.

(** C8, amended.  The result log only grows: whatever [start_regression],
    [_handle_result] or a whole regression do, return or raise, the records
    the log had are left as they are, with the new ones after them.  A whole
    regression in which no test ends with [KeyboardInterrupt] or
    [SystemExit] adds to it exactly one record per test of the queue
    (executed, skipped, or failed by the tear down), in the order the tests
    are taken.  An excluded test gets no record: [_record_test_excluded]
    leaves the log as it is and adds a skipped case to the report, and these
    cases come before the cases of the tests of the queue, one per test in
    the same order. *)
Theorem result_log_append_only (E : Env) :
  (forall fuel,
      appends (start_regression E fuel) /\
      appends (_handle_result E fuel) /\
      appends (regression E fuel))
  /\ (forall (fuel : nat) (s : State),
        SimFailure_ok E = true ->
        _tearing_down (mgr s) = false ->
        scheduler_tests (world s) = [] ->
        Forall (fun t => no_interrupt t = true) (_test_queue (mgr s)) ->
        List.length (_test_queue (mgr s)) + 5 <= fuel ->
        let queue := sort_by_key test_key (_test_queue (mgr s)) in
        exists s' rs cs,
          regression E fuel s = (Ok tt, s') /\
          _test_results (mgr s') = _test_results (mgr s) ++ rs /\
          map r_test rs = map fullname queue /\
          testcases (xunit (mgr s'))
          = testcases (xunit (mgr s))
              ++ map skipped_case (_filtered_tests (mgr s)) ++ cs /\
          map tc_name cs = map name queue)
  /\ (forall test s0,
         _test_results (mgr (snd (_record_test_excluded test s0)))
         = _test_results (mgr s0))
  /\ (forall test s0,
         _test_results (mgr (snd (_record_test_skipped test s0)))
         = _test_results (mgr s0) ++ [skipped_record test]).
Proof.
  split; [| split; [| split; reflexivity]].
  - intros fuel.
    split; [apply appends_start_regression |].
    split; [apply appends_handle_result | apply appends_regression].
  - intros fuel s Hok Hlatch Hpending Hsafe Hfuel queue.
    destruct (@regression_runs E Hok fuel s Hlatch Hpending Hsafe Hfuel)
      as (s' & rs & cs & Hrun & Hobs & Hrs & Hcs).
    obs_inv Hobs.
    exists s', rs, cs. repeat split; assumption.
Qed.

Lemma result_log_append_only_witness :
  exists s',
    regression Examples.env 10
      (Examples.registered [Examples.plain; Examples.skipped_test; Examples.early])
    = (Ok tt, s') /\
    map r_test (_test_results (mgr s'))
    = ["tests.early"; "tests.plain"; "tests.skipped_test"].
Proof.
  destruct (result_log_append_only Examples.env) as (_ & Hruns & _).
  destruct (Hruns 10
              (Examples.registered
                 [Examples.plain; Examples.skipped_test; Examples.early]))
    as (s' & rs & cs & Hrun & Hlog & Hrs & _).
  - reflexivity.
  - reflexivity.
  - reflexivity.
  - repeat constructor.
  - cbn. lia.
  - exists s'. split; [exact Hrun |].
    rewrite Hlog, map_app, Hrs. reflexivity.
Defined.

(** * Properties of the rest of the code *)

(** ** Inverting the monad *)

Lemma bind_inv {A B} (c : M A) (k : A -> M B) (s s' : State) (b : B) :
  bind c k s = (Ok b, s') ->
  exists a s1, c s = (Ok a, s1) /\ k a s1 = (Ok b, s').
Proof.
  unfold bind. destruct (c s) as [[a | e |] s1]; intros H;
    try discriminate. exists a, s1. split; [reflexivity | exact H].
Qed.

Ltac inv_bind H :=
  apply bind_inv in H;
  let a := fresh "a" in
  let s1 := fresh "s" in
  let Hc := fresh "Hc" in
  destruct H as (a & s1 & Hc & H);
  try match type of a with unit => destruct a end.

Ltac inv_pure H :=
  unfold modify, modify_world, gets, gets_world, logging, ret in H;
  first [injection H as <- <- | injection H as <-].

(** [_score_test] that returns a pair changed only the log. *)
Lemma _score_test_Ok (E : Env) (test : Test) (outcome : Outcome unit)
    (s s' : State) (p : bool * bool) :
  _score_test E test outcome s = (Ok p, s') ->
  score E test outcome = Ok p /\
  exists r, s' = {| mgr := mgr s;
                    world := set_log (log (world s) ++ [r]) (world s) |}.
Proof.
  intros H.
  destruct (_score_test_state E test outcome s)
    as [(p' & r & Hp & _ & Hrun) | (e & _ & _ & _ & Hrun)];
    rewrite Hrun in H; [| discriminate].
  injection H as <- <-. split; [exact Hp | exists r; reflexivity].
Qed.

(** ** Counters, scheduler and seed across the recording methods *)

Lemma steady_refl (s : State) : steady s s.
Proof. unfold steady. auto. Qed.

Lemma steady_trans (s1 s2 s3 : State) :
  steady s1 s2 -> steady s2 s3 -> steady s1 s3.
Proof.
  unfold steady. intros (P1 & C1 & N1 & T1) (P2 & C2 & N2 & T2).
  rewrite P2, P1, C2, C1, N2, N1.
  split; [reflexivity | split; [reflexivity | split; [reflexivity | auto]]].
Qed.

Lemma settled_refl (s : State) : settled s s.
Proof. unfold settled. auto using steady_refl. Qed.

Lemma settled_trans (s1 s2 s3 : State) :
  settled s1 s2 -> settled s2 s3 -> settled s1 s3.
Proof.
  unfold settled. intros (S1 & K1 & C1 & R1) (S2 & K2 & C2 & R2).
  rewrite K2, K1, C2, C1, R2, R1. eauto using steady_trans.
Qed.

Ltac tally :=
  unfold settled, steady, tallied; cbn;
  rewrite ?filter_app, ?length_app; cbn;
  repeat split; auto; try lia.

Lemma _log_test_summary_settled (s s' : State) :
  _log_test_summary s = (Ok tt, s') -> settled s s'.
Proof.
  unfold _log_test_summary. unfold_monad. cbn.
  destruct (_regression_start_time (mgr s)); [| discriminate].
  destruct (_test_results (mgr s)); cbn; intros [= <-]; tally.
Qed.

(** The recording of a result, up to the call of the tear down. *)
Lemma _record_result_inv (E : Env) (fuel : nat) (test : Test)
    (outcome : Outcome unit) (wall_time_s sim_time_ns : Q) (s s' : State) :
  _record_result E (S fuel) test outcome wall_time_s sim_time_ns s
  = (Ok tt, s') ->
  exists test_pass sim_failed s1,
    score E test outcome = Ok (test_pass, sim_failed) /\
    settled s s1 /\
    _test_results (mgr s1)
    = _test_results (mgr s)
        ++ [result_record test test_pass wall_time_s sim_time_ns] /\
    _tearing_down (mgr s1) = _tearing_down (mgr s) /\
    _test_queue (mgr s1) = _test_queue (mgr s) /\
    (if sim_failed then _tear_down E fuel s1 else ret tt s1) = (Ok tt, s').
Proof.
  cbn [_record_result]. intros H.
  inv_bind H. inv_pure Hc.
  inv_bind H. apply _score_test_Ok in Hc. destruct Hc as (Hscore & r & ->).
  destruct a as [test_pass sim_failed].
  exists test_pass, sim_failed.
  inv_bind H. inv_bind H. inv_pure Hc0. inv_bind H. inv_pure Hc0.
  destruct test_pass; cbn [negb] in Hc.
  - inv_pure Hc. cbn in H.
    destruct sim_failed;
      (eexists; split; [exact Hscore |];
       split; [| split; [| split; [| split; [| exact H]]]];
       try reflexivity; tally).
  - inv_bind Hc. inv_pure Hc0. inv_pure Hc. cbn in H.
    destruct sim_failed;
      (eexists; split; [exact Hscore |];
       split; [| split; [| split; [| split; [| exact H]]]];
       try reflexivity; tally).
Qed.

Lemma _next_test_inv (t : option Test) (s s' : State) :
  _next_test s = (Ok t, s') ->
  settled s s' /\
  _tearing_down (mgr s') = _tearing_down (mgr s) /\
  _test_results (mgr s') = _test_results (mgr s) /\
  match t with
  | None => _test_queue (mgr s) = [] /\ s' = s
  | Some test => _test_queue (mgr s) = test :: _test_queue (mgr s')
  end.
Proof.
  unfold _next_test. unfold_monad. cbn.
  destruct (_test_queue (mgr s)) as [| test queue] eqn:Hq; cbn;
    intros [= <- <-]; (split; [tally |]); cbn; rewrite ?Hq; auto.
Qed.

Lemma _tear_down_settled (E : Env) (fuel : nat) :
  (forall s s', _tear_down E fuel s = (Ok tt, s') -> settled s s') /\
  (forall s s', _tear_down_loop E fuel s = (Ok tt, s') -> settled s s') /\
  (forall test outcome wall_time_s sim_time_ns s s',
     _record_result E fuel test outcome wall_time_s sim_time_ns s
     = (Ok tt, s') -> settled s s').
Proof.
  induction fuel as [| fuel (IHtear & IHloop & IHrecord)].
  { repeat split; intros; discriminate. }
  split; [| split].
  - intros s s' H. cbn [_tear_down] in H.
    inv_bind H. inv_pure Hc.
    destruct (_tearing_down (mgr s)); cbn [negb] in H.
    + inv_pure H. apply settled_refl.
    + inv_bind H. inv_pure Hc.
      inv_bind H. apply IHloop in Hc.
      inv_bind H. apply _log_test_summary_settled in Hc0.
      inv_bind H. inv_pure Hc1. inv_bind H. inv_pure Hc1. inv_pure H.
      eapply settled_trans; [| eapply settled_trans; [exact Hc |]].
      * tally.
      * eapply settled_trans; [exact Hc0 |]. tally.
  - intros s s' H. cbn [_tear_down_loop] in H.
    inv_bind H. apply _next_test_inv in Hc. destruct Hc as (Hs & _ & _ & _).
    destruct a as [test |].
    + inv_bind H. apply IHrecord in Hc. apply IHloop in H.
      eauto using settled_trans.
    + inv_pure H. exact Hs.
  - intros test outcome wall_time_s sim_time_ns s s' H.
    apply _record_result_inv in H.
    destruct H as (test_pass & sim_failed & s1 & _ & Hs & _ & _ & _ & H).
    destruct sim_failed.
    + apply IHtear in H. eauto using settled_trans.
    + inv_pure H. exact Hs.
Qed.

(** ** The counters and the scheduler across a regression *)

Lemma _record_test_skipped_steady (test : Test) (s s' : State) :
  _record_test_skipped test s = (Ok tt, s') -> steady s s'.
Proof.
  unfold _record_test_skipped. unfold_monad. cbn. intros [= <-]. tally.
Qed.

Lemma _init_test_inv (E : Env) (fuel : nat) (test : Test)
    (task : option Task) (s s' : State) :
  _init_test E fuel test s = (Ok task, s') ->
  steady s s' /\
  match task with
  | None => True
  | Some task =>
      skip test = false /\ call (func test) = Value (task_coro task) /\
      task_name task = name test /\ _outcome task = None
  end.
Proof.
  unfold _init_test. intros H.
  destruct (skip test) eqn:Hskip.
  - inv_bind H. apply _record_test_skipped_steady in Hc. inv_pure H.
    split; [exact Hc | exact I].
  - inv_bind H. inv_pure Hc.
    destruct (call (func test)) as [coro | e] eqn:Hcall.
    + inv_bind H. inv_pure Hc. inv_pure H. cbn.
      split; [tally | repeat split; reflexivity].
    + inv_bind H. inv_pure Hc. inv_bind H.
      apply (_tear_down_settled E fuel) in Hc. destruct Hc as [Hc _].
      inv_pure H. split; [| exact I].
      eapply steady_trans; [| exact Hc]. tally.
Qed.

Lemma _start_test_inv (s s' : State) :
  _start_test s = (Ok tt, s') ->
  exists test task,
    _test (mgr s) = Some test /\ _test_task (mgr s) = Some task /\
    _test (mgr s') = Some test /\ _test_task (mgr s') = Some task /\
    scheduler_tests (world s') = scheduler_tests (world s) ++ [task] /\
    ntests (mgr s') = ntests (mgr s) /\
    (tallied s -> tallied s').
Proof.
  unfold _start_test. unfold_monad. cbn.
  destruct (_test (mgr s)) as [test |] eqn:Htest; [| discriminate].
  destruct (_test_task (mgr s)) as [task |] eqn:Htask; [| discriminate].
  cbn. intros [= <-]. exists test, task. cbn. tally.
Qed.

Lemma _execute_inv (E : Env) (fuel : nat) :
  forall s s',
    _execute E fuel s = (Ok tt, s') ->
    scheduler_tests (world s) = [] ->
    ntests (mgr s') = ntests (mgr s) /\
    (tallied s -> tallied s') /\
    in_flight s'.
Proof.
  induction fuel as [| fuel IH]; intros s s' H Hidle; [discriminate |].
  cbn [_execute] in H.
  inv_bind H. apply _next_test_inv in Hc.
  destruct Hc as (((Hp & _ & Hn & Ht) & _) & _).
  inv_bind H. inv_pure Hc.
  destruct a as [test |].
  - inv_bind H. apply _init_test_inv in Hc.
    destruct Hc as ((Hp1 & Hc1 & Hn1 & Ht1) & Htask).
    inv_bind H. inv_pure Hc. cbn in Hp1, Hc1, Hn1.
    destruct a as [task |].
    + apply _start_test_inv in H.
      destruct H as (test' & task' & Ht' & Hk' & Ht'' & Hk'' & Hp2 & Hn2 & Ht2).
      cbn in Ht', Hk', Hp2, Hn2. rewrite Hc1 in Ht'.
      injection Ht' as <-. injection Hk' as <-.
      split; [congruence |]. split.
      * intros T. apply Ht2, Ht1, Ht, T.
      * right. exists test, task. rewrite Hp2, Hp1, Hp, Hidle.
        destruct Htask as (? & ? & ? & ?). repeat split; assumption.
    + apply IH in H; [| cbn; congruence].
      destruct H as (Hn2 & Ht2 & Hf). cbn in Hn2.
      split; [congruence |]. split; [| exact Hf].
      intros T. apply Ht2, Ht1, Ht, T.
  - apply (_tear_down_settled E fuel) in H.
    destruct H as ((Hp1 & _ & Hn1 & Ht1) & _). cbn in Hp1, Hn1.
    split; [congruence |]. split.
    + intros T. apply Ht1, Ht, T.
    + left. congruence.
Qed.

Lemma _handle_result_inv (E : Env) (fuel : nat) (s s' : State) :
  _handle_result E fuel s = (Ok tt, s') ->
  scheduler_tests (world s) = [] ->
  ntests (mgr s') = ntests (mgr s) /\
  (tallied s -> tallied s') /\
  in_flight s'.
Proof.
  unfold _handle_result. intros H Hidle.
  inv_bind H. inv_pure Hc. inv_bind H. inv_pure Hc.
  destruct (_test (mgr s)) as [test |]; [| discriminate].
  destruct (_test_task (mgr s)) as [task |]; [| discriminate].
  destruct (_outcome task) as [outcome |]; [| discriminate].
  do 4 (inv_bind H; inv_pure Hc).
  inv_bind H. apply (_tear_down_settled E fuel) in Hc.
  destruct Hc as ((Hp & _ & Hn & Ht) & _).
  apply _execute_inv in H; [| congruence].
  destruct H as (Hn1 & Ht1 & Hf).
  split; [congruence |]. split; [auto | exact Hf].
Qed.

Lemma scheduler_run_inv (E : Env) (fuel : nat) :
  forall s s',
    scheduler_run E fuel s = (Ok tt, s') ->
    in_flight s ->
    ntests (mgr s') = ntests (mgr s) /\
    (tallied s -> tallied s') /\
    scheduler_tests (world s') = [].
Proof.
  induction fuel as [| fuel IH]; intros s s' H Hf; [discriminate |].
  cbn [scheduler_run] in H.
  inv_bind H. inv_pure Hc.
  destruct Hf as [Hidle | (test & task & Hp & _)].
  - rewrite Hidle in H. inv_pure H. auto.
  - rewrite Hp in H.
    do 4 (inv_bind H; inv_pure Hc).
    inv_bind H. apply _handle_result_inv in Hc; [| reflexivity].
    destruct Hc as (Hn & Ht & Hf).
    apply IH in H; [| exact Hf].
    destruct H as (Hn1 & Ht1 & Hidle). cbn in Hn.
    split; [congruence |]. split; [| exact Hidle].
    intros T. apply Ht1, Ht. revert T. tally.
Qed.

Lemma for_each_excluded_inv (tests : list Test) :
  forall s s',
    for_each tests _record_test_excluded s = (Ok tt, s') ->
    world s' = world s /\ mgr s' = set_xunit (xunit (mgr s')) (mgr s).
Proof.
  induction tests as [| test tests IH]; intros s s' H; cbn [for_each] in H.
  - inv_pure H. destruct s as [[] ?]. split; reflexivity.
  - inv_bind H. unfold _record_test_excluded in Hc.
    inv_bind Hc. inv_pure Hc0. inv_pure Hc.
    apply IH in H. cbn in H. destruct H as [-> ->].
    destruct s as [[] ?]. split; reflexivity.
Qed.

Lemma start_regression_inv (E : Env) (fuel : nat) (s s' : State) :
  start_regression E fuel s = (Ok tt, s') ->
  scheduler_tests (world s) = [] ->
  ntests (mgr s') = List.length (_test_queue (mgr s)) /\
  (unscored s -> tallied s') /\
  in_flight s'.
Proof.
  unfold start_regression. intros H Hidle.
  do 3 (inv_bind H; inv_pure Hc).
  inv_bind H. inv_pure Hc.
  inv_bind H. apply for_each_excluded_inv in Hc. destruct Hc as [Hw Hm].
  do 2 (inv_bind H; inv_pure Hc).
  cbn in Hw, Hm.
  apply _execute_inv in H; [| cbn; rewrite Hw; exact Hidle].
  destruct H as (Hn & Ht & Hfl). cbn in Hn.
  split.
  - rewrite Hn, Hm. cbn. apply Permutation_length.
    apply (sort_by_key_spec (_test_queue (mgr s))).
  - split; [| exact Hfl]. intros (Hr & Hp & Hf & Hs). apply Ht.
    unfold tallied. cbn. rewrite Hm. cbn. rewrite Hr, Hp, Hf, Hs.
    repeat split; reflexivity.
Qed.

Lemma verdicts_partition (results : list TestResult) :
  List.length (filter is_pass results) + List.length (filter is_fail results)
  + List.length (filter is_skip results)
  = List.length results.
Proof.
  induction results as [| r results IH]; [reflexivity |].
  unfold is_pass, is_fail, is_skip in *. cbn [filter List.length].
  destruct (r_pass r) as [[] |]; cbn [List.length]; lia.
Qed.

(** X1 (RegressionManager.start_regression, _execute, _handle_result,
    _record_result, _record_test_skipped, _tear_down): a regression started
    by a manager that has recorded nothing, whose tests raise no interrupt,
    ends with counters that agree with its result log: [passed], [failures]
    and [skipped] are the numbers of records that passed, failed and were
    skipped, they add up to [ntests], which is the length of the queue, and
    [count] ends one above it. *)
Theorem regression_counters_agree (E : Env) :
  SimFailure_ok E = true ->
  forall (fuel : nat) (s : State),
    _tearing_down (mgr s) = false ->
    scheduler_tests (world s) = [] ->
    Forall (fun t => no_interrupt t = true) (_test_queue (mgr s)) ->
    unscored s ->
    List.length (_test_queue (mgr s)) + 5 <= fuel ->
    exists s',
      regression E fuel s = (Ok tt, s') /\
      tallied s' /\
      ntests (mgr s') = List.length (_test_queue (mgr s)) /\
      passed (mgr s') + failures (mgr s') + skipped (mgr s')
      = ntests (mgr s') /\
      count (mgr s') = S (ntests (mgr s')).
Proof.
  intros Hok fuel s Hlatch Hidle Hsafe Hfresh Hfuel.
  destruct (@regression_runs E Hok fuel s Hlatch Hidle Hsafe Hfuel)
    as (s' & rs & cs & Hrun & Hobs & Hrs & _).
  exists s'. split; [exact Hrun |].
  unfold regression in Hrun. inv_bind Hrun.
  apply start_regression_inv in Hc; [| exact Hidle].
  destruct Hc as (Hn & Ht & Hfl).
  apply scheduler_run_inv in Hrun; [| exact Hfl].
  destruct Hrun as (Hn1 & Ht1 & _).
  assert (T : tallied s') by auto.
  assert (Hlen : List.length (_test_results (mgr s'))
                 = List.length (_test_queue (mgr s))).
  { assert (HR : _test_results (mgr s') = _test_results (mgr s) ++ rs)
      by (unfold obs in Hobs; congruence).
    destruct Hfresh as (Hr & _). rewrite HR, Hr. cbn [app].
    rewrite <- (length_map r_test), Hrs, length_map.
    apply Permutation_length.
    apply (sort_by_key_spec (_test_queue (mgr s))). }
  split; [exact T |]. split; [congruence |].
  destruct T as (Tp & Tf & Ts & Tc).
  rewrite Tp, Tf, Ts, Tc, Hn1, Hn, verdicts_partition. auto.
Qed.

Lemma regression_counters_agree_witness :
  exists s',
    regression Examples.env 10
      (Examples.registered
         [Examples.plain; Examples.skipped_test; Examples.expects_fail;
          Examples.crashes; Examples.early]) = (Ok tt, s') /\
    tallied s' /\
    ntests (mgr s') = 5 /\
    passed (mgr s') + failures (mgr s') + skipped (mgr s') = ntests (mgr s') /\
    count (mgr s') = 6.
Proof.
  destruct (@regression_counters_agree Examples.env eq_refl 10
              (Examples.registered
                 [Examples.plain; Examples.skipped_test; Examples.expects_fail;
                  Examples.crashes; Examples.early]))
    as (s' & Hrun & T & Hn & Hsum & Hc).
  - reflexivity.
  - reflexivity.
  - repeat constructor.
  - repeat split; reflexivity.
  - cbn. lia.
  - exists s'. cbn in Hn. rewrite Hn in Hc.
    refine (conj Hrun (conj T (conj Hn (conj Hsum Hc)))).
Defined.

(** X2 (RegressionManager._execute, _init_test, _start_test,
    _handle_result): whenever the manager returns to the scheduler, from
    [start_regression] or from [_handle_result], entered with nothing
    pending, at most one test is in flight: the scheduler holds nothing, or
    one task, which is the task of the current test, made by calling its
    function, named after it and without an outcome; and the test is not one
    to skip. *)
Theorem one_test_in_flight (E : Env) (fuel : nat) (s s' : State) :
  scheduler_tests (world s) = [] ->
  start_regression E fuel s = (Ok tt, s') \/
  _handle_result E fuel s = (Ok tt, s') ->
  in_flight s'.
Proof.
  intros Hidle [H | H].
  - apply start_regression_inv in H; [| exact Hidle]. apply H.
  - apply _handle_result_inv in H; [| exact Hidle]. apply H.
Qed.

Lemma one_test_in_flight_witness :
  in_flight
    (snd (start_regression Examples.env 10
            (Examples.registered [Examples.skipped_test; Examples.plain]))).
Proof.
  apply (@one_test_in_flight Examples.env 10
           (Examples.registered [Examples.skipped_test; Examples.plain])).
  - reflexivity.
  - left. vm_compute. reflexivity.
Defined.

(** ** Options of a factory *)

Lemma OptName_eqb_eq (a b : OptName) : OptName_eqb a b = true <-> a = b.
Proof.
  destruct a as [x | xs], b as [y | ys]; cbn.
  - rewrite String.eqb_eq. split; congruence.
  - split; discriminate.
  - split; discriminate.
  - destruct (list_eq_dec string_dec xs ys); split; congruence.
Qed.

Lemma dict_set_Forall {K V} (eqb : K -> K -> bool) (P : K * V -> Prop)
    (k : K) (v : V) (d : list (K * V)) :
  P (k, v) -> Forall P d -> Forall P (dict_set eqb k v d).
Proof.
  intros Hkv. induction 1 as [| [k' v'] d Hx Hd IH]; cbn.
  - repeat constructor. exact Hkv.
  - destruct (eqb k k'); constructor; assumption.
Qed.

Lemma dict_get_set (name : OptName) (v : list PyVal)
    (d : list (OptName * list PyVal)) :
  dict_get OptName_eqb name (dict_set OptName_eqb name v d) = Some v.
Proof.
  assert (Hrefl : OptName_eqb name name = true) by (apply OptName_eqb_eq; reflexivity).
  induction d as [| [k' v'] d IH]; cbn.
  - rewrite Hrefl. reflexivity.
  - destruct (OptName_eqb name k') eqn:Hk; cbn.
    + rewrite Hrefl. reflexivity.
    + rewrite Hk. exact IH.
Qed.

Lemma dict_set_keys (name : OptName) (v : list PyVal)
    (d : list (OptName * list PyVal)) :
  map fst (dict_set OptName_eqb name v d)
  = if dict_in OptName_eqb name d then map fst d else map fst d ++ [name].
Proof.
  unfold dict_in.
  induction d as [| [k' v'] d IH]; cbn; [reflexivity |].
  destruct (OptName_eqb name k') eqn:Hk; cbn.
  - apply OptName_eqb_eq in Hk. subst k'. reflexivity.
  - rewrite IH. destruct (dict_get OptName_eqb name d); reflexivity.
Qed.

Lemma check_group_spec (names : list string) (optionlist : list PyVal) :
  match check_group names optionlist with
  | None =>
      Forall (fun opt => py_len opt = Some (List.length names)) optionlist
  | Some e =>
      exists pre opt post,
        optionlist = pre ++ opt :: post /\
        Forall (fun opt => py_len opt = Some (List.length names)) pre /\
        match py_len opt with
        | None => e = no_len opt
        | Some n =>
            n <> List.length names /\
            e = exception ValueError
                  "Mismatch between number of options and number of option values in group"
        end
  end.
Proof.
  induction optionlist as [| opt rest IH]; cbn [check_group].
  - constructor.
  - destruct (py_len opt) as [n |] eqn:Hlen.
    + destruct (Nat.eqb_spec (List.length names) n) as [Heq | Hne]; cbn [negb].
      * destruct (check_group names rest) as [e |].
        -- destruct IH as (pre & bad & post & -> & Hpre & Hbad).
           exists (opt :: pre), bad, post.
           split; [reflexivity |]. split; [| exact Hbad].
           constructor; [congruence | exact Hpre].
        -- constructor; [congruence | exact IH].
      * exists [], opt, rest. split; [reflexivity |]. split; [constructor |].
        rewrite Hlen. split; [congruence | reflexivity].
    + exists [], opt, rest. split; [reflexivity |]. split; [constructor |].
      rewrite Hlen. reflexivity.
Qed.

(** [len] and [iter] agree, and go by characters on a string: the two
    bytes of an accented letter are one character. *)
Lemma py_len_iter (v : PyVal) (n : nat) :
  py_len v = Some n ->
  exists items, py_iter v = Some items /\ List.length items = n.
Proof.
  destruct v; cbn; try discriminate; intros [= <-]; eexists;
    (split; [reflexivity |]); rewrite ?length_map; reflexivity.
Qed.

Example py_len_accented :
  let e_acute := String (ascii_of_nat 195) (String (ascii_of_nat 169) "") in
  py_len (VStr (e_acute ++ "a")) = Some 2 /\
  py_iter (VStr (e_acute ++ "a")) = Some [VStr e_acute; VStr "a"] /\
  py_len (VStr "abc") = Some 3.
Proof. repeat split. Qed.

(** X3 (TestFactory.add_option): an option is accepted exactly when, for a
    group of names, every entry of the list has as many values as there are
    names, [len] counting the items of a tuple and the characters of a
    string; the first entry that has not is the one reported, by a
    [ValueError] when it has another length and, when it has none, by the
    [TypeError] of [len], whose message names the type of the entry.  An
    accepted option is bound to its list; an option added again keeps its
    place among the options and a new one goes last; and the groups of the
    factory stay checked. *)
Theorem add_option_checks_groups (name : OptName) (optionlist : list PyVal)
    (self : TestFactory) :
  match add_option name optionlist self with
  | inr self' =>
      group_ok (name, optionlist) /\
      dict_get OptName_eqb name (kwargs self') = Some optionlist /\
      map fst (kwargs self')
      = (if dict_in OptName_eqb name (kwargs self)
         then map fst (kwargs self)
         else map fst (kwargs self) ++ [name]) /\
      (options_ok self -> options_ok self')
  | inl e =>
      exists names pre opt post,
        name = OptNames names /\
        optionlist = pre ++ opt :: post /\
        Forall (fun opt => py_len opt = Some (List.length names)) pre /\
        match py_len opt with
        | None =>
            e = exception "TypeError"
                  ("object of type '" ++ type_name opt ++ "' has no len()")
        | Some n =>
            n <> List.length names /\
            e = exception ValueError
                  "Mismatch between number of options and number of option values in group"
        end
  end.
Proof.
  assert (Hset : group_ok (name, optionlist) ->
    group_ok (name, optionlist) /\
    dict_get OptName_eqb name
      (dict_set OptName_eqb name optionlist (kwargs self)) = Some optionlist /\
    map fst (dict_set OptName_eqb name optionlist (kwargs self))
    = (if dict_in OptName_eqb name (kwargs self)
       then map fst (kwargs self)
       else map fst (kwargs self) ++ [name]) /\
    (options_ok self ->
     Forall group_ok (dict_set OptName_eqb name optionlist (kwargs self)))).
  { intros Hok. split; [exact Hok |]. split; [apply dict_get_set |].
    split; [apply dict_set_keys |].
    intros Hself. apply dict_set_Forall; assumption. }
  unfold add_option. destruct name as [optname | names].
  - apply Hset. exact I.
  - pose proof (check_group_spec names optionlist) as Hcheck.
    destruct (check_group names optionlist) as [e |].
    + destruct Hcheck as (pre & opt & post & Hl & Hpre & Hbad).
      exists names, pre, opt, post. auto.
    + apply Hset. exact Hcheck.
Qed.

(** ** The generator of a factory *)

(** X4 (TestFactory._generate_tests, Test.__init__): the generator of a
    factory whose groups are checked, as [add_option] leaves them, never
    trips its assertion: it runs to its end and yields one test for each
    element of the product of the option lists.  The tests take consecutive
    identifiers from the class counter, which ends advanced by their number
    and is all the generator changes; each has the stage, the skip flag and
    the expectations given, and a function whose call gives a coroutine. *)
Theorem checked_factory_generates_all (E : Env) (self : TestFactory)
    (prefix postfix name0 module0 : option string)
    (timeout_time0 : option Q) (timeout_unit0 : string) (expect_fail0 : bool)
    (expect_error0 : list string) (skip0 : bool) (stage0 : Z) (s : State) :
  options_ok self ->
  exists tests s',
    collect (_generate_tests E self prefix postfix name0 module0
               timeout_time0 timeout_unit0 expect_fail0 expect_error0
               skip0 stage0) s
    = (Ok tests, s') /\
    List.length tests
    = fold_right Nat.mul 1
        (map (fun kv => List.length (snd kv)) (kwargs self)) /\
    map _id tests = seq (Test_id_count (world s)) (List.length tests) /\
    Test_id_count (world s') = Test_id_count (world s) + List.length tests /\
    mgr s' = mgr s /\
    world s' = set_Test_id_count (Test_id_count (world s')) (world s) /\
    Forall (generated_with timeout_time0 expect_fail0 expect_error0 skip0
              stage0) tests.
Proof.
  intros Hok. unfold _generate_tests.
  match goal with |- context [_generate_test E self ?p ?q ?n] =>
    destruct (@collect_generate E self p q n module0 timeout_time0
                timeout_unit0 expect_fail0 expect_error0 skip0 stage0
                (testoptions_list self) (testoptions_list_ok Hok) 0 s)
      as (tests & s' & Hrun & Hm & Hw & Hc & Hids & Hall)
  end.
  exists tests, s'.
  assert (Hlen : List.length tests = List.length (testoptions_list self)).
  { rewrite <- (length_map _id), Hids, length_seq. reflexivity. }
  split; [exact Hrun |]. split.
  - rewrite Hlen. unfold testoptions_list.
    rewrite length_map, product_length, map_map. reflexivity.
  - rewrite Hlen. repeat (split; [assumption |]). assumption.
Qed.

Lemma checked_factory_generates_all_witness :
  exists tests s',
    collect (_generate_tests Examples.env
               (Examples.grouped_factory_of Examples.run_test)
               None None None None None "step" false [] false 0)
      (State_init [])
    = (Ok tests, s') /\
    List.length tests = 4 /\
    map _id tests = [0; 1; 2; 3] /\
    Test_id_count (world s') = 4.
Proof.
  destruct (@checked_factory_generates_all Examples.env
              (Examples.grouped_factory_of Examples.run_test)
              None None None None None "step" false [] false 0%Z
              (State_init []))
    as (tests & s' & Hrun & Hlen & Hids & Hc & _).
  - repeat constructor.
  - exists tests, s'. cbn in Hlen. rewrite Hlen in Hids, Hc.
    refine (conj Hrun (conj Hlen (conj Hids Hc))).
Defined.

(** ** The names of the generated tests *)

Lemma digit_value_digit (d : nat) :
  d < 10 -> digit_value (ascii_of_nat (48 + d)) = d.
Proof.
  intros Hd. unfold digit_value. rewrite nat_ascii_embedding by lia. lia.
Qed.

Lemma decimal_digits_value (fuel : nat) :
  forall (n : nat) (acc : string),
    n < fuel ->
    exists k, forall a,
      fold_left (fun acc c => acc * 10 + digit_value c)
        (list_ascii_of_string (decimal_digits fuel n acc)) a
      = fold_left (fun acc c => acc * 10 + digit_value c)
          (list_ascii_of_string acc) (a * 10 ^ k + n).
Proof.
  induction fuel as [| fuel IH]; intros n acc Hn; [lia |].
  cbn [decimal_digits].
  pose proof (Nat.div_mod_eq n 10) as Hdm.
  pose proof (Nat.mod_upper_bound n 10 ltac:(lia)) as Hmod.
  destruct (Nat.eqb_spec (n / 10) 0) as [Hz | Hnz].
  - exists 1. intros a. cbn [list_ascii_of_string fold_left].
    rewrite digit_value_digit by exact Hmod. f_equal.
    rewrite Nat.pow_1_r. lia.
  - destruct (IH (n / 10) (String (ascii_of_nat (48 + n mod 10)) acc))
      as [k Hk]; [lia |].
    exists (S k). intros a. rewrite Hk.
    cbn [list_ascii_of_string fold_left].
    rewrite digit_value_digit by exact Hmod. f_equal.
    rewrite Nat.pow_succ_r'. lia.
Qed.

Lemma leading_zeros (m : nat) (s : string) :
  fold_left (fun acc c => acc * 10 + digit_value c)
    (list_ascii_of_string (string_of_list_ascii (repeat "0"%char m) ++ s)) 0
  = fold_left (fun acc c => acc * 10 + digit_value c)
      (list_ascii_of_string s) 0.
Proof.
  induction m as [| m IH]; [reflexivity |]. cbn. exact IH.
Qed.

Lemma format_03d_value (n : nat) : nat_of_digits (format_03d n) = n.
Proof.
  unfold nat_of_digits, format_03d. rewrite leading_zeros.
  unfold str_of_nat.
  destruct (@decimal_digits_value (S n) n "" ltac:(lia)) as [k Hk].
  rewrite Hk. cbn. lia.
Qed.

Lemma length_append (a b : string) :
  String.length (a ++ b) = String.length a + String.length b.
Proof. induction a as [| c a IH]; cbn; congruence. Qed.

(** X5 (TestFactory._generate_tests, the suffix built with [%03d]): the
    suffix of a generated name reads back as the number it was made from:
    the decimal digits of [format_03d n], leading zeros included, denote
    [n], whatever its size; so different numbers give different suffixes;
    and a suffix has at least three characters. *)
Theorem format_03d_round_trip :
  (forall n, nat_of_digits (format_03d n) = n) /\
  (forall n m, format_03d n = format_03d m -> n = m) /\
  (forall n, 3 <= String.length (format_03d n)).
Proof.
  split; [exact format_03d_value |]. split.
  - intros n m H. apply (f_equal nat_of_digits) in H.
    rewrite !format_03d_value in H. exact H.
  - intros n. unfold format_03d. rewrite length_append.
    generalize (str_of_nat n). intros digits.
    assert (H : forall k,
               String.length (string_of_list_ascii (repeat "0"%char k)) = k)
      by (induction k; cbn; congruence).
    rewrite H. lia.
Qed.

Lemma append_cancel (p a b : string) : (p ++ a = p ++ b)%string -> a = b.
Proof.
  induction p as [| c p IH]; cbn; [auto |]. intros [= H]. auto.
Qed.

Lemma NoDup_map_injective {A B} (f : A -> B) (l : list A) :
  (forall x y, f x = f y -> x = y) -> NoDup l -> NoDup (map f l).
Proof.
  intros Hinj. induction 1 as [| x l Hx Hl IH]; cbn; constructor; [| exact IH].
  rewrite in_map_iff. intros (y & Hy & Hin).
  apply Hinj in Hy. subst y. contradiction.
Qed.

(** X6 (TestFactory._generate_tests): the tests of one generation have
    pairwise distinct names, however many there are: within one call of
    [generate_tests] no test takes the name of another. *)
Theorem generated_names_distinct (E : Env) (self : TestFactory)
    (prefix postfix name0 module0 : option string)
    (timeout_time0 : option Q) (timeout_unit0 : string) (expect_fail0 : bool)
    (expect_error0 : list string) (skip0 : bool) (stage0 : Z)
    (s s' : State) (tests : list Test) :
  collect (_generate_tests E self prefix postfix name0 module0
             timeout_time0 timeout_unit0 expect_fail0 expect_error0
             skip0 stage0) s
  = (Ok tests, s') ->
  NoDup (map name tests).
Proof.
  unfold _generate_tests. intros H.
  apply collect_names in H. rewrite H.
  apply NoDup_map_injective; [| apply seq_NoDup].
  intros i j Hij.
  do 4 apply append_cancel in Hij.
  apply (f_equal nat_of_digits) in Hij.
  rewrite !format_03d_value in Hij. lia.
Qed.

Lemma generated_names_distinct_witness :
  match
    collect (_generate_tests Examples.env
               (Examples.grouped_factory_of Examples.run_test)
               (Some "quick_") None None (Some "tests") None "step" false []
               false 0) (State_init [])
  with
  | (Ok tests, _) => List.length tests = 4 /\ NoDup (map name tests)
  | _ => False
  end.
Proof.
  destruct (collect _ (State_init [])) as [[tests | e |] s'] eqn:H.
  - split.
    + vm_compute in H. injection H as <- _. reflexivity.
    + exact (generated_names_distinct _ _ _ _ _ _ _ _ _ _ _ _ _ H).
  - vm_compute in H. discriminate H.
  - vm_compute in H. discriminate H.
Defined.

(** ** Interrupts *)

(** X7 (RegressionManager._handle_result, _record_result, _score_test): a
    test that ends with [KeyboardInterrupt] or [SystemExit] makes
    [_handle_result] raise that exception.  By then the report has the case
    of the test, without a failure; the result log, the counters, the queue
    and the latch of the tear down are as they were, and nothing outside the
    manager has changed: no test is taken from the queue, the simulator is
    not stopped and the report is not written. *)
Theorem interrupt_escapes (E : Env) (fuel : nat) (s : State) (test : Test)
    (task : Task) (e : PyExc) :
  _test (mgr s) = Some test ->
  _test_task (mgr s) = Some task ->
  _outcome task = Some (Error e) ->
  interrupt e = true ->
  exists s',
    _handle_result E (S fuel) s = (Raise e, s') /\
    testcases (xunit (mgr s'))
    = testcases (xunit (mgr s))
        ++ [result_case E test true
              (time_time (world s) - _test_start_time (mgr s))
              (get_sim_time (world s) - _test_start_sim_time (mgr s))] /\
    writes (xunit (mgr s')) = writes (xunit (mgr s)) /\
    mgr s' = set_xunit (xunit (mgr s')) (mgr s) /\
    world s' = world s.
Proof.
  intros Htest Htask Hout Hint.
  unfold _handle_result. unfold_monad. rewrite Htest, Htask, Hout.
  cbn [_record_result]. unfold _score_test. unfold_monad.
  unfold interrupt in Hint. cbn in Hint |- *. rewrite Hint.
  eexists. split; [reflexivity |]. cbn.
  repeat split; destruct s as [[] ?]; reflexivity.
Qed.

Lemma interrupt_escapes_witness :
  exists s',
    _handle_result Examples.env 1
      (Examples.ended Examples.plain (Error Examples.keyboard_interrupt)
         [Examples.early])
    = (Raise Examples.keyboard_interrupt, s') /\
    List.length (testcases (xunit (mgr s'))) = 1 /\
    _test_results (mgr s') = [] /\
    _test_queue (mgr s') = [Examples.early].
Proof.
  destruct (@interrupt_escapes Examples.env 0
              (Examples.ended Examples.plain
                 (Error Examples.keyboard_interrupt) [Examples.early])
              Examples.plain _ Examples.keyboard_interrupt
              eq_refl eq_refl eq_refl eq_refl)
    as (s' & Hrun & Hcases & _ & Hm & _).
  exists s'. rewrite Hcases, Hm.
  refine (conj Hrun (conj eq_refl (conj eq_refl eq_refl))).
Defined.

(** ** The order of a queue that is in order already *)

Lemma insert_by_key_last (x : Test) (l : list Test) :
  Forall (fun y => key_le y x) l ->
  insert_by_key test_key x l = l ++ [x].
Proof.
  induction 1 as [| y l Hy Hl IH]; cbn [insert_by_key app]; [reflexivity |].
  destruct (key_ltb (test_key x) (test_key y)) eqn:Hlt.
  - apply key_ltb_lt in Hlt. contradiction.
  - rewrite IH. reflexivity.
Qed.

Lemma sorted_app_inv (acc l : list Test) (x : Test) :
  StronglySorted key_le (acc ++ x :: l) -> Forall (fun y => key_le y x) acc.
Proof.
  induction acc as [| y acc IH]; cbn [app]; intros H; [constructor |].
  apply StronglySorted_inv in H. destruct H as [Hs Hy].
  constructor; [| apply IH; exact Hs].
  rewrite Forall_forall in Hy. apply Hy, in_elt.
Qed.

(** X8 (RegressionManager.start_regression, the sort of the queue): the
    sort is stable on a queue that is in order: when no test of the queue
    has a smaller key [(stage, _id)] than a test before it, sorting leaves
    the queue as it is, tests of equal key included. *)
Theorem sorted_queue_unchanged (queue : list Test) :
  StronglySorted key_le queue -> sort_by_key test_key queue = queue.
Proof.
  unfold sort_by_key.
  assert (H : forall l acc,
             StronglySorted key_le (acc ++ l) ->
             fold_left (fun sorted x => insert_by_key test_key x sorted) l acc
             = acc ++ l).
  { induction l as [| x l IH]; intros acc Hs; cbn [fold_left].
    - rewrite app_nil_r. reflexivity.
    - rewrite insert_by_key_last by (eapply sorted_app_inv; exact Hs).
      rewrite IH; rewrite <- app_assoc; [reflexivity | exact Hs]. }
  intros Hs. apply (H queue []). exact Hs.
Qed.

Lemma sorted_queue_unchanged_witness :
  sort_by_key test_key [Examples.early; Examples.plain; Examples.plain]
  = [Examples.early; Examples.plain; Examples.plain].
Proof.
  apply sorted_queue_unchanged.
  repeat (constructor; try (unfold key_le, key_lt; cbn; lia)).
Defined.

(** ** A regression with nothing to run *)

Lemma _execute_empty (E : Env) (fuel : nat) (s : State) (start : Q) :
  _test_queue (mgr s) = [] ->
  _tearing_down (mgr s) = false ->
  _test_results (mgr s) = [] ->
  _regression_start_time (mgr s) = Some start ->
  _execute E (S (S (S fuel))) s
  = (Ok tt,
     {| mgr := set_xunit (xunit_write (xunit (mgr s)))
                 (set__tearing_down true (set__test None (mgr s)));
        world := set_stop_coverage (stop_coverage (world s) + 2)
                   (set_stop_simulator (stop_simulator (world s) + 1)
                      (world s)) |}).
Proof.
  intros Hq Hlatch Hr Hstart.
  cbn [_execute _tear_down _tear_down_loop].
  unfold _next_test, _log_test_summary. unfold_monad. cbn.
  rewrite Hq. cbn. rewrite Hlatch. cbn. rewrite Hq. cbn.
  rewrite Hstart. cbn. rewrite Hr. cbn.
  reflexivity.
Qed.

(** X9 (RegressionManager.start_regression, _execute, _tear_down,
    _log_test_summary): a regression with an empty queue, as when the
    filters exclude every test, and an empty result log ends at once: the
    excluded tests get their cases, the report is written and the simulator
    stopped once, the manager ends torn down with [ntests] zero, but no
    test is called, nothing is recorded and nothing at all is logged, the
    summary included. *)
Theorem empty_regression_logs_nothing (E : Env) (fuel : nat) (s : State) :
  _test_queue (mgr s) = [] ->
  _tearing_down (mgr s) = false ->
  _test_results (mgr s) = [] ->
  scheduler_tests (world s) = [] ->
  exists s',
    regression E (S (S (S fuel))) s = (Ok tt, s') /\
    log (world s') = log (world s) /\
    called (world s') = called (world s) /\
    _test_results (mgr s') = [] /\
    ntests (mgr s') = 0 /\
    testcases (xunit (mgr s'))
    = testcases (xunit (mgr s)) ++ map skipped_case (_filtered_tests (mgr s)) /\
    writes (xunit (mgr s')) = writes (xunit (mgr s)) + 1 /\
    stop_simulator (world s') = stop_simulator (world s) + 1 /\
    _tearing_down (mgr s') = true.
Proof.
  intros Hq Hlatch Hr Hidle.
  unfold regression, start_regression.
  do 4 step. state_simpl. rewrite !bind_assoc.
  match goal with |- context [bind (for_each _ _) _ ?s0] =>
    destruct (for_each_excluded (_filtered_tests (mgr s)) s0)
      as (s1 & Hexcl & Hobs) end.
  erewrite bind_ok; [| exact Hexcl].
  apply for_each_excluded_inv in Hexcl. destruct Hexcl as [Hw Hm].
  do 2 step. obs_inv Hobs.
  rewrite Hq in *. cbn [sort_by_key fold_left List.length] in *.
  erewrite bind_ok;
    [| eapply _execute_empty; cbn; first [reflexivity | congruence]].
  cbv beta iota. rewrite scheduler_run_idle by (cbn; congruence).
  eexists. split; [reflexivity |]. cbn in Hw |- *.
  rewrite Hw, HR, HX, HW, Hm. cbn.
  repeat split; try reflexivity; try assumption. lia.
Qed.

Lemma empty_regression_logs_nothing_witness :
  exists s',
    regression Examples.env 3 (Examples.registered []) = (Ok tt, s') /\
    log (world s') = [] /\
    writes (xunit (mgr s')) = 1 /\
    stop_simulator (world s') = 1.
Proof.
  destruct (@empty_regression_logs_nothing Examples.env 0
              (Examples.registered []) eq_refl eq_refl eq_refl eq_refl)
    as (s' & Hrun & Hlog & _ & _ & _ & _ & Hwrites & Hstop & _).
  exists s'. refine (conj Hrun (conj Hlog (conj Hwrites Hstop))).
Defined.

(** ** Filtering twice *)

Lemma filter_filter {A} (f g : A -> bool) (l : list A) :
  filter g (filter f l) = filter (fun x => f x && g x) l.
Proof.
  induction l as [| x l IH]; cbn; [reflexivity |].
  destruct (f x); cbn; [destruct (g x) |]; rewrite IH; reflexivity.
Qed.

(** X10 (RegressionManager.filter_tests): a second call of [filter_tests]
    filters the queue the first call left and replaces the list of filtered
    tests: the queue keeps the tests that match a filter of each call, the
    filtered tests are those the second call removed, and a test removed by
    the first call is in neither list any more, so that it gets no case in
    the report. *)
Theorem filter_tests_twice_forgets (E : Env) (filters1 filters2 : list string)
    (s : State) :
  exists s',
    (filter_tests E filters1 ;; filter_tests E filters2) s = (Ok tt, s') /\
    _test_queue (mgr s')
    = filter (fun t => matches E filters1 t && matches E filters2 t)
        (_test_queue (mgr s)) /\
    _filtered_tests (mgr s')
    = filter (fun t => matches E filters1 t && negb (matches E filters2 t))
        (_test_queue (mgr s)) /\
    forall t,
      matches E filters1 t = false ->
      ~ In t (_test_queue (mgr s')) /\ ~ In t (_filtered_tests (mgr s')).
Proof.
  destruct (filter_tests_spec E filters1 s) as (s1 & Hrun1 & _ & Hobs1).
  destruct (filter_tests_spec E filters2 s1) as (s2 & Hrun2 & Hf2 & Hobs2).
  assert (Hq1 : _test_queue (mgr s1)
                = filter (matches E filters1) (_test_queue (mgr s)))
    by (unfold obs in Hobs1; congruence).
  assert (Hq2 : _test_queue (mgr s2)
                = filter (matches E filters2) (_test_queue (mgr s1)))
    by (unfold obs in Hobs2; congruence).
  exists s2. split; [erewrite bind_ok; [exact Hrun2 | exact Hrun1] |].
  rewrite Hq2, Hf2, Hq1, !filter_filter.
  split; [reflexivity |]. split; [reflexivity |].
  intros t Ht. rewrite !filter_In, Ht. cbn. split; intros [_ H]; discriminate.
Qed.

(** ** The seed of a test *)

Lemma be_value_bound (bs : list Z) :
  Forall byte_range bs ->
  forall acc : Z,
    (0 <= acc)%Z ->
    (0 <= fold_left (fun a d => a * 256 + d) bs acc
     < (acc + 1) * 256 ^ Z.of_nat (List.length bs))%Z.
Proof.
  induction 1 as [| b bs Hb Hbs IH]; intros acc Hacc.
  - cbn. lia.
  - cbn [fold_left List.length]. unfold byte_range in Hb.
    specialize (IH (acc * 256 + b)%Z ltac:(lia)).
    rewrite Nat2Z.inj_succ, Z.pow_succ_r by lia.
    assert (0 < 256 ^ Z.of_nat (List.length bs))%Z by (apply Z.pow_pos_nonneg; lia).
    nia.
Qed.

(** X11 (RegressionManager._init_test, the seed): the seed of a test is the
    global seed plus the number of the SHA-1 digest of its full name, a
    number of 160 bits: the seed is never below [RANDOM_SEED] and less than
    [2^160] above it; and the hexadecimal digest it is read from has forty
    characters. *)
Theorem test_seed_range (E : Env) (test : Test) :
  (RANDOM_SEED E <= test_seed E test < RANDOM_SEED E + 2 ^ 160)%Z /\
  String.length (Sha1.hexdigest (encode (fullname test))) = 40.
Proof.
  destruct (digest_bytes (encode (fullname test))) as [Hlen Hrange].
  split.
  - unfold test_seed. rewrite int16_hexdigest. unfold Sha1.be_value.
    pose proof (@be_value_bound _ Hrange 0%Z ltac:(lia)) as Hb.
    rewrite Hlen in Hb. change (256 ^ Z.of_nat 20)%Z with (2 ^ 160)%Z in Hb.
    lia.
  - unfold Sha1.hexdigest.
    generalize dependent (Sha1.digest (encode (fullname test))).
    intros bs Hlen _.
    assert (H : forall l : list ascii,
               String.length (string_of_list_ascii l) = List.length l)
      by (induction l; cbn; congruence).
    rewrite H.
    do 21 (destruct bs as [| ? bs]; try discriminate Hlen).
    reflexivity.
Qed.

(** ** Tests with a timeout *)

(** X12 (Test.__init__, RegressionManager._init_test): a test made with a
    timeout, and not to skip, never fails at its initialisation, whatever
    its function does when called: [_init_test] calls the wrapper, seeds the
    random numbers, records nothing and returns a task without an outcome,
    named after the test.  The coroutine of the task is the coroutine of the
    function under [with_timeout]; an exception the function raises when
    called is the outcome of the coroutine instead. *)
Theorem timeout_test_always_starts (E : Env) (fuel id : nat) (func0 : PyFunc)
    (name0 module0 doc0 : option string) (t : Q) (timeout_unit0 : string)
    (expect_fail0 : bool) (expect_error0 : list string) (stage0 : Z)
    (s : State) :
  let test :=
    fst (Test__init__ E id func0 name0 module0 doc0 (Some t) timeout_unit0
           expect_fail0 expect_error0 false stage0) in
  exists coro,
    _init_test E fuel test s
    = (Ok (Some {| task_coro := coro; task_name := name test;
                   _outcome := None |}),
       {| mgr := mgr s;
          world := set_random_seed (Some (test_seed E test))
                     (set_called (called (world s) ++ [test]) (world s)) |}) /\
    match call func0 with
    | Value co => coro = with_timeout E co t timeout_unit0
    | Error e => co_outcome coro = Error e
    end.
Proof.
  intros test. eexists. split.
  - apply _init_test_value; reflexivity.
  - destruct (call func0); reflexivity.
Qed.

(** ** Generated tests in the module of the caller *)











